(** * better-calendar: the date-universe / business-calendar engine

    A shallow embedding of [better_calendar/date_universe.py],
    [better_calendar/mapping.py], [better_calendar/providers.py],
    [_from_internal_date] of [better_calendar/utils.py] and
    [better_calendar/calendar.py], followed by the properties of the
    [Calendar] class.

    Conventions.
    - A date is the integer held by a [np.datetime64[D]] value: the number
      of days since 1970-01-01.  A date argument is that integer, as when
      the caller passes a [np.datetime64], which [_to_internal_date] leaves
      as it is.  A returned date is the value [_from_internal_date] makes
      of the day for the [date_type] of the calendar, and the call raises
      where that conversion does.
    - The external packages are taken as installed; a call into one of them
      returns or raises as the package decides.
    - A numpy array is a list; an index is a [Z].  Index values computed
      from the arrays themselves are bounded by the array length; where a
      Python int supplied by the caller enters int64 index arithmetic
      ([which] in [_select_in_groups], [n] in [offset_business_days]) the
      conversion to int64 and the wrap-around of the sum are written out.
    - A Python exception is the [Raise] case of [result]. *)

From Stdlib Require Import Ascii String DecimalString.
From stdpp Require Import base numbers list strings gmap sorting.

Local Open Scope Z_scope.

(** ** Exceptions and the result monad *)

(** The sites at which the modelled code raises [ValueError]. *)
Inductive value_error :=
  | OutsideUniverse (d64 : Z)          (* DateUniverse.locate *)
  | EndBeforeStart                     (* Calendar._range_indices *)
  | BadWhich                           (* Calendar._select_in_groups *)
  | BadInclusive                       (* Calendar._inclusive_flags *)
  | BadType                            (* Calendar.days_between *)
  | EndDateBeforeStartDate             (* Calendar.days_between *)
  | OutsideCalendarRange (d64 : Z)     (* Calendar.offset_business_days *)
  | BeyondCalendarEnd                  (* Calendar.offset_business_days *)
  | BeyondCalendarStart                (* Calendar.offset_business_days *)
  | BadFrequency                       (* schedule_business / schedule_calendar *)
  | NoCalendarCode                     (* Calendar._create_mask *)
  | UnknownCalendarCode (code : string)
  | UnknownProviderClass (cls : string)
  | UnknownMode (mode : string)
  | UnknownProviderCode (code : string) (* CountryMaskBuilder.build_mask *)
  | InvalidIsoDate (d64 : Z)           (* datetime.date.fromisoformat *)
  | UnpackError                        (* y, m, d = iso.split("-") *)
  | UnknownOutputType (output : string). (* _from_internal_date *)

Inductive exn :=
  | ValueError (e : value_error)
  | IndexError
  | OverflowError
  | AttributeError
  | ExternalError (message : string).  (* raised inside an external package *)

Inductive result (A : Type) :=
  | Ok (a : A)
  | Raise (e : exn).
Arguments Ok {A} a.
Arguments Raise {A} e.

Definition is_ok {A} (r : result A) : bool :=
  match r with Ok _ => true | Raise _ => false end.

Definition raises {A} (r : result A) : Prop := ∃ e, r = Raise e.

#[global] Instance result_ret : MRet result := λ A a, Ok a.
#[global] Instance result_bind : MBind result := λ A B f r,
  match r with Ok a => f a | Raise e => Raise e end.
#[global] Instance result_fmap : FMap result := λ A B f r,
  match r with Ok a => Ok (f a) | Raise e => Raise e end.

(** A call into an external package: it returns, or the package raises. *)
Inductive external (A : Type) :=
  | Returns (a : A)
  | Fails (message : string).
Arguments Returns {A} a.
Arguments Fails {A} message.

Definition call {A} (r : external A) : result A :=
  match r with
  | Returns a => Ok a
  | Fails message => Raise (ExternalError message)
  end.

(** [for x in xs: acc = step acc x], where [step] may raise. *)
Fixpoint for_each {A S} (step : S → A → result S) (acc : S) (xs : list A) : result S :=
  match xs with
  | [] => Ok acc
  | x :: xs' => acc' ← step acc x; for_each step acc' xs'
  end.

(** ** The numpy operations the code relies on *)

Module Numpy.

(** Two's-complement reduction to [w] bits (signed). *)
Definition wrap_signed (w : Z) (z : Z) : Z :=
  (z + 2 ^ (w - 1)) `mod` 2 ^ w - 2 ^ (w - 1).

Definition fits_int64 (z : Z) : bool :=
  bool_decide (- 2 ^ 63 ≤ z < 2 ^ 63).

(** [.astype("int32")] and [.astype("uint8")] of an int64 array element. *)
Definition to_int32 (z : Z) : Z := wrap_signed 32 z.
Definition to_uint8 (z : Z) : Z := z `mod` 256.

(** [arr + k] for an int64 array element [a] and a Python int [k] that
    has been checked to fit in int64: the sum wraps. *)
Definition add_int64 (a k : Z) : Z := wrap_signed 64 (a + k).

(** [np.arange(lo, hi)] *)
Definition arange (lo hi : Z) : list Z := seqZ lo (hi - lo).

(** [np.zeros(n, dtype=bool)] *)
Definition zeros (n : Z) : list bool := replicate (Z.to_nat n) false.

(** [len(a)], [a.size] *)
Definition size {A} (a : list A) : Z := Z.of_nat (length a).

(** [np.flatnonzero(mask)]: the indices of the true entries, ascending. *)
Fixpoint flatnonzero_from (i : Z) (mask : list bool) : list Z :=
  match mask with
  | [] => []
  | b :: mask' =>
      if b then i :: flatnonzero_from (i + 1) mask'
      else flatnonzero_from (i + 1) mask'
  end.
Definition flatnonzero (mask : list bool) : list Z := flatnonzero_from 0 mask.

Inductive side := Left | Right.

(** [np.searchsorted(a, v, side)] on an ascending array [a]: the number of
    elements [< v] (side="left") or [<= v] (side="right"), which is the
    insertion index numpy documents. *)
Fixpoint searchsorted (a : list Z) (v : Z) (s : side) : Z :=
  match a with
  | [] => 0
  | x :: a' =>
      if (match s with Left => x <? v | Right => x <=? v end)
      then 1 + searchsorted a' v s
      else 0
  end.

(** [a[k]] for an integer [k]: negative indices count from the end, an
    index outside [-len, len) raises IndexError. *)
Definition item {A} (a : list A) (k : Z) : result A :=
  let k' := if k <? 0 then k + size a else k in
  if k' <? 0 then Raise IndexError
  else match a !! Z.to_nat k' with
       | Some x => Ok x
       | None => Raise IndexError
       end.

(** [a[idx]] for an integer index array [idx]. *)
Fixpoint take_idx {A} (a : list A) (idx : list Z) : result (list A) :=
  match idx with
  | [] => Ok []
  | k :: idx' => x ← item a k; xs ← take_idx a idx'; Ok (x :: xs)
  end.

(** [a[lo:hi]] for non-negative [lo] and [hi]. *)
Definition slice {A} (a : list A) (lo hi : Z) : list A :=
  take (Z.to_nat hi - Z.to_nat lo)%nat (drop (Z.to_nat lo) a).

(** [a[flags]] for a boolean array [flags] of the same length. *)
Fixpoint compress {A} (flags : list bool) (a : list A) : list A :=
  match flags, a with
  | b :: flags', x :: a' => if b then x :: compress flags' a' else compress flags' a'
  | _, _ => []
  end.

(** [np.where(cond, True, a)] for boolean arrays of the same length. *)
Definition where_true (cond a : list bool) : list bool :=
  zip_with (λ c b : bool, if c then true else b) cond a.

(** [np.isin(a, b, invert=True)] *)
Definition isin_invert (a b : list Z) : list bool :=
  (λ x, negb (bool_decide (x ∈ b))) <$> a.

(** [np.logical_or.reduce(masks)] / [np.logical_and.reduce(masks)] over a
    non-empty list of equally long boolean arrays. *)
Definition reduce (op : bool → bool → bool) (masks : list (list bool)) : list bool :=
  match masks with
  | [] => @nil bool
  | m :: ms => foldl (zip_with op) m ms
  end.

End Numpy.

(** ** Calendar arithmetic of the libraries

    [np.datetime64] unit conversions and [datetime.date] follow the
    proleptic Gregorian calendar; both are library code, modelled here by
    the usual integer arithmetic on day numbers. *)

Module Datetime.

(** (year, month, day) of the day number [d64] (days since 1970-01-01). *)
Definition civil_from_days (d64 : Z) : Z * Z * Z :=
  let z := d64 + 719468 in
  let era := z `div` 146097 in
  let doe := z - era * 146097 in
  let yoe := (doe - doe `div` 1460 + doe `div` 36524 - doe `div` 146096) `div` 365 in
  let doy := doe - (365 * yoe + yoe `div` 4 - yoe `div` 100) in
  let mp := (5 * doy + 2) `div` 153 in
  let d := doy - (153 * mp + 2) `div` 5 + 1 in
  let m := if mp <? 10 then mp + 3 else mp - 9 in
  let y := yoe + era * 400 + (if m <=? 2 then 1 else 0) in
  (y, m, d).

Definition civil_year (d64 : Z) : Z := (civil_from_days d64).1.1.
Definition civil_month (d64 : Z) : Z := (civil_from_days d64).1.2.

(** [d64.astype("datetime64[Y]").astype("int64")]: years since 1970. *)
Definition as_years (d64 : Z) : Z := civil_year d64 - 1970.

(** [d64.astype("datetime64[M]").astype("int64")]: months since 1970-01. *)
Definition as_months (d64 : Z) : Z := (civil_year d64 - 1970) * 12 + (civil_month d64 - 1).

(** [datetime64[Y]] to [datetime64[M]]: January of that year. *)
Definition years_as_months (y : Z) : Z := y * 12.

(** [datetime.date.toordinal()]: 0001-01-01 is day 1. *)
Definition ordinal (d64 : Z) : Z := d64 + 719163.

(** [datetime._days_before_year] *)
Definition days_before_year (year : Z) : Z :=
  let y := year - 1 in
  y * 365 + y `div` 4 - y `div` 100 + y `div` 400.

(** [datetime._isoweek1monday] *)
Definition isoweek1monday (year : Z) : Z :=
  let firstday := days_before_year year + 1 in
  let firstweekday := (firstday + 6) `mod` 7 in
  let week1monday := firstday - firstweekday in
  if 3 <? firstweekday then week1monday + 7 else week1monday.

(** [datetime.date.isocalendar()], as (iso year, iso week). *)
Definition isocalendar (d64 : Z) : Z * Z :=
  let year := civil_year d64 in
  let today := ordinal d64 in
  let week := (today - isoweek1monday year) `div` 7 in
  if week <? 0 then
    (year - 1, (today - isoweek1monday (year - 1)) `div` 7 + 1)
  else if (52 <=? week) && (isoweek1monday (year + 1) <=? today) then
    (year + 1, 1)
  else (year, week + 1).

(** [dt.date.fromisoformat(np.datetime_as_string(d64, unit="D"))] succeeds
    exactly for the years 1 to 9999 of [datetime.date]. *)
Definition fromisoformat (d64 : Z) : result Z :=
  if bool_decide (1 ≤ civil_year d64 ≤ 9999) then Ok d64
  else Raise (ValueError (InvalidIsoDate d64)).

End Datetime.

(** ** Python string operations *)

(** [str(n)] of a non-negative integer. *)
Definition decimal (n : Z) : string := NilZero.string_of_uint (N.to_uint (Z.to_N n)).

(** The decimal digits of a non-negative integer, zero-padded to [width]. *)
Definition zero_padded (width : nat) (n : Z) : string :=
  let digits := decimal n in
  string_of_list_ascii (replicate (width - String.length digits) "0"%char) +:+ digits.

(** [s.split(sep)] for a one-character separator. *)
Fixpoint str_split_from (sep : ascii) (s : string) (part : string) : list string :=
  match s with
  | EmptyString => [part]
  | String a s' =>
      if Ascii.eqb a sep then part :: str_split_from sep s' EmptyString
      else str_split_from sep s' (part +:+ String a EmptyString)
  end.

Definition str_split (sep : ascii) (s : string) : list string :=
  str_split_from sep s EmptyString.

(** [s.replace(old, new)] for a one-character [old]. *)
Fixpoint str_replace (old : ascii) (new : string) (s : string) : string :=
  match s with
  | EmptyString => EmptyString
  | String a s' =>
      if Ascii.eqb a old then new +:+ str_replace old new s'
      else String a (str_replace old new s')
  end.

(** ** The external packages

    The calls the code makes into the packages it imports.
    - pandas_market_calendars: [mcal.get_calendar(code)], which raises for
      a name it does not know, then [cal.schedule(start_date, end_date)],
      read as the session dates of its index.
    - workalendar: [registry.get(code)] ([None] for a code it does not
      know), then [cal().is_working_day(day)].
    - QuantLib: [ql.Date(day, month, year)], and [cal.isBusinessDay(qd)] of
      the calendar [_quantlib_mapping] names.
    - pandas: [pd.Timestamp(date)]. *)
Record ExternalSources := {
  exchange_schedule : string → external (Z → Z → external (list Z));
  country_working_day : string → option (Z → external bool);
  quantlib_date : Z → external ();
  quantlib_business_day : string → Z → external bool;
  pandas_timestamp : Z → external ();
}.

(** ** utils.py: the output conversion *)

(** The values a calendar returns its dates as, one kind per [date_type];
    each holds the day it stands for, a string holds its text. *)
Inductive OutputValue :=
  | NumpyDate (d64 : Z)          (* np.datetime64, unit D *)
  | PyDate (d64 : Z)             (* datetime.date *)
  | PyDatetime (d64 : Z)         (* datetime.datetime, at midnight *)
  | PyStr (text : string)
  | PandasTimestamp (d64 : Z).   (* pandas.Timestamp, at midnight *)

(** The year as numpy prints it: at least four characters, zero-padded,
    the minus sign of a negative year counting as one of them. *)
Definition format_year (y : Z) : string :=
  if y <? 0 then String "-" (zero_padded 3 (- y)) else zero_padded 4 y.

(** [np.datetime_as_string(d64, unit="D")] *)
Definition datetime_as_string (d64 : Z) : string :=
  let '(y, m, d) := Datetime.civil_from_days d64 in
  format_year y +:+ "-" +:+ zero_padded 2 m +:+ "-" +:+ zero_padded 2 d.

Definition _d64_to_pydate (d64 : Z) : result Z := Datetime.fromisoformat d64.

Definition _from_internal_date (ext : ExternalSources) (d64 : Z) (output : string)
    (str_sep : string) (dayfirst : bool) : result OutputValue :=
  if String.eqb output "numpy" then Ok (NumpyDate d64)
  else if String.eqb output "date" then PyDate <$> _d64_to_pydate d64
  else if String.eqb output "datetime" then PyDatetime <$> _d64_to_pydate d64
  else if String.eqb output "str" then
    let iso := datetime_as_string d64 in
    iso ←
      (if dayfirst then
         match str_split "-" iso with
         | [y; m; d] => Ok (d +:+ "-" +:+ m +:+ "-" +:+ y)
         | _ => Raise (ValueError UnpackError)
         end
       else Ok iso);
    if String.eqb str_sep "-" then Ok (PyStr iso)
    else Ok (PyStr (str_replace "-" str_sep iso))
  else if String.eqb output "pandas" then
    py ← _d64_to_pydate d64;
    _ ← call (pandas_timestamp ext py);
    Ok (PandasTimestamp py)
  else Raise (ValueError (UnknownOutputType output)).

(** ** date_universe.py *)

Record DateUniverse := { start64 : Z; end64 : Z }.

Section universe.
Variable u : DateUniverse.

(** [__post_init__]: [n_days] and the contiguous [days] array. *)
Definition n_days : Z := end64 u - start64 u + 1.
Definition days : list Z := (λ k, start64 u + k) <$> Numpy.arange 0 n_days.

(** [__len__] *)
Definition len : Z := Numpy.size days.

Definition locate (d64 : Z) : result Z :=
  let i := d64 - start64 u in
  if (i <? 0) || (len <=? i) then Raise (ValueError (OutsideUniverse d64))
  else Ok i.

(** The derived fields.  The [_cache] dictionary memoises pure functions
    of [days], so each property is the array it computes. *)
Definition weekday : list Z :=
  (λ days_int, Numpy.to_uint8 ((days_int + 3) `mod` 7 + 1)) <$> days.

Definition year : list Z :=
  (λ d, Numpy.to_int32 (Datetime.as_years d + 1970)) <$> days.

Definition iso_year : result (list Z) :=
  mapM (λ d64, py ← Datetime.fromisoformat d64;
               Ok (Numpy.to_int32 (Datetime.isocalendar py).1)) days.

Definition month : list Z :=
  (λ d, Numpy.to_uint8
          (Datetime.as_months d - Datetime.years_as_months (Datetime.as_years d) + 1))
    <$> days.

Definition month_key : list Z :=
  zip_with (λ y m, y * 12 + (m - 1)) year month.

Definition quarter : list Z := (λ m, Numpy.to_uint8 ((m - 1) `div` 3 + 1)) <$> month.

Definition semester : list Z := (λ m, Numpy.to_uint8 ((m - 1) `div` 6 + 1)) <$> month.

Definition week : result (list Z) :=
  mapM (λ d64, py ← Datetime.fromisoformat d64;
               Ok (Numpy.to_uint8 (Datetime.isocalendar py).2)) days.
End universe.

(** ** mapping.py *)

(** [CALENDAR_CODES]: identifier to (provider class, provider code), built
    from the entries of the dict literal. *)
Definition calendar_code_entries : list (string * (string * option string)) :=
  [
    ("DEFAULT", ("weekend", None)); ("WEEKEND", ("weekend", None));
    ("WEEKENDS", ("weekend", None)); ("TRIVIAL", ("weekend", None));
    ("NAIVE", ("weekend", None));
    ("FR", ("country", Some "FR")); ("DE", ("country", Some "DE"));
    ("GB", ("country", Some "GB")); ("UK", ("country", Some "GB"));
    ("US", ("country", Some "US")); ("CA", ("country", Some "CA"));
    ("CH", ("country", Some "CH")); ("IT", ("country", Some "IT"));
    ("ES", ("country", Some "ES")); ("NL", ("country", Some "NL"));
    ("BE", ("country", Some "BE")); ("JP", ("country", Some "JP"));
    ("FRANCE", ("country", Some "FR")); ("GERMANY", ("country", Some "DE"));
    ("UNITED_KINGDOM", ("country", Some "GB"));
    ("UNITED_STATES", ("country", Some "US"));
    ("CANADA", ("country", Some "CA")); ("SWITZERLAND", ("country", Some "CH"));
    ("ITALY", ("country", Some "IT")); ("SPAIN", ("country", Some "ES"));
    ("NETHERLANDS", ("country", Some "NL")); ("BELGIUM", ("country", Some "BE"));
    ("JAPAN", ("country", Some "JP"));
    ("XPAR", ("exchange", Some "XPAR")); ("PARIS", ("exchange", Some "XPAR"));
    ("EURONEXT_PARIS", ("exchange", Some "XPAR"));
    ("XNYS", ("exchange", Some "XNYS")); ("NYSE", ("exchange", Some "XNYS"));
    ("NASDAQ", ("exchange", Some "XNYS")); ("NEW_YORK", ("exchange", Some "XNYS"));
    ("XETR", ("exchange", Some "XETR")); ("XETRA", ("exchange", Some "XETR"));
    ("FRANKFURT", ("exchange", Some "XETR"));
    ("XTSE", ("exchange", Some "XTSE")); ("TORONTO", ("exchange", Some "XTSE"));
    ("TSE", ("exchange", Some "XTSE"));
    ("XTYO", ("exchange", Some "XTYO")); ("TOKYO", ("exchange", Some "XTYO"));
    ("XHKG", ("exchange", Some "XHKG")); ("HONG_KONG", ("exchange", Some "XHKG"));
    ("EUR", ("quantlib", Some "TARGET")); ("ESTR", ("quantlib", Some "TARGET"));
    ("ESTER", ("quantlib", Some "TARGET")); ("€STR", ("quantlib", Some "TARGET"));
    ("€STER", ("quantlib", Some "TARGET"));
    ("ESTRON INDEX", ("quantlib", Some "TARGET"));
    ("ESTR INDEX", ("quantlib", Some "TARGET"));
    ("€STRON INDEX", ("quantlib", Some "TARGET"));
    ("ESTRON", ("quantlib", Some "TARGET"));
    ("SOFR", ("quantlib", Some "US_GOVIES"));
    ("SOFRRATE INDEX", ("quantlib", Some "US_GOVIES"));
    ("SOFR INDEX", ("quantlib", Some "US_GOVIES"));
    ("SOFRRATE", ("quantlib", Some "US_GOVIES"));
    ("SONIA INDEX", ("quantlib", Some "SONIA"));
    ("SONIO/N INDEX", ("quantlib", Some "SONIA"));
    ("SONIA", ("quantlib", Some "SONIA"))
  ]%string.

Definition CALENDAR_CODES : gmap string (string * option string) :=
  list_to_map calendar_code_entries.

(** [_quantlib_mapping]: the QuantLib calendar of a provider code, named by
    that code; any other code falls off the end of the function. *)
Definition _quantlib_mapping (calendar_code : string) : option string :=
  if String.eqb calendar_code "TARGET" then Some "TARGET"%string
  else if String.eqb calendar_code "US_GOVIES" then Some "US_GOVIES"%string
  else if String.eqb calendar_code "SONIA" then Some "SONIA"%string
  else None.

(** ** Python string methods on ASCII letters

    [str.upper] and [str.lower] of the characters A-Z / a-z; the tokens the
    code compares against are ASCII, and no other character lower-cases to
    one of their letters. *)

Definition upper_ascii (a : ascii) : ascii :=
  let n := nat_of_ascii a in
  if ((97 <=? n) && (n <=? 122))%nat then ascii_of_nat (n - 32) else a.

Definition lower_ascii (a : ascii) : ascii :=
  let n := nat_of_ascii a in
  if ((65 <=? n) && (n <=? 90))%nat then ascii_of_nat (n + 32) else a.

Fixpoint upper (s : string) : string :=
  match s with
  | EmptyString => EmptyString
  | String a s' => String (upper_ascii a) (upper s')
  end.

Fixpoint lower (s : string) : string :=
  match s with
  | EmptyString => EmptyString
  | String a s' => String (lower_ascii a) (lower s')
  end.

(** ** providers.py *)

Inductive MaskBuilder :=
  | DefaultMaskBuilder
  | ExchangeMaskBuilder (exchange_code : string)
  | QuantLibMaskBuilder (ql_calendar : option string)
  | CountryMaskBuilder (country_code : string).

Section providers.
Variable ext : ExternalSources.

(** The loop of the QuantLib and country builders: every day goes through
    [dt.date.fromisoformat] before the package is asked. *)
Definition mask_per_day (is_open : Z → result bool) (u : DateUniverse)
    : result (list bool) :=
  mapM (λ d64, py ← Datetime.fromisoformat d64; is_open py) (days u).

Definition build_mask (b : MaskBuilder) (u : DateUniverse) : result (list bool) :=
  match b with
  | DefaultMaskBuilder =>
      Ok ((λ wd, negb (wd =? 6) && negb (wd =? 7)) <$> weekday u)
  | ExchangeMaskBuilder exchange_code =>
      schedule ← call (exchange_schedule ext exchange_code);
      sess64 ← call (schedule (start64 u) (end64 u));
      (* mask[pos[ok]] = True for the session dates inside the universe *)
      Ok ((λ d64, bool_decide (d64 ∈ sess64)) <$> days u)
  | QuantLibMaskBuilder ql_calendar =>
      mask_per_day
        (λ py, _ ← call (quantlib_date ext py);
               match ql_calendar with
               | None => Raise AttributeError   (* [cal] is None *)
               | Some cal => call (quantlib_business_day ext cal py)
               end) u
  | CountryMaskBuilder country_code =>
      let code := upper country_code in
      match country_working_day ext code with
      | None => Raise (ValueError (UnknownProviderCode code))
      | Some is_working_day => mask_per_day (λ py, call (is_working_day py)) u
      end
  end.
End providers.

(** ** calendar.py *)

(** [calendar_code: Union[str, Iterable[str]]] *)
Inductive code_arg :=
  | OneCode (code : string)
  | ManyCodes (codes : list string).

(** [which: Union[str, int]] *)
Inductive which_arg :=
  | WStr (s : string)
  | WInt (n : Z).

(** [which == token] *)
Definition which_is (which : which_arg) (token : string) : bool :=
  match which with
  | WStr s => String.eqb s token
  | WInt _ => false
  end.

(** A keyword argument that has a default value. *)
Inductive kwarg (A : Type) :=
  | Omitted
  | Passed (a : A).
Arguments Omitted {A}.
Arguments Passed {A} a.

Definition or_default {A} (default : A) (k : kwarg A) : A :=
  match k with Omitted => default | Passed a => a end.

Record Calendar := {
  dayfirst : bool;
  str_sep : string;
  output : string;
  calendar_code : code_arg;
  multiple_calendars_mode : string;
  universe : DateUniverse;
  business_mask : list bool;
  business_position : list Z;
}.

(** [self.start_date] and [self.end_date] are the bounds the universe was
    built from, and are never reassigned. *)
Definition self_start_date (c : Calendar) : Z := start64 (universe c).
Definition self_end_date (c : Calendar) : Z := end64 (universe c).

Section construction.
Variable ext : ExternalSources.

Definition _create_mask (calendar_code : code_arg) (mode : string)
    (u : DateUniverse) : result (list bool) :=
  let codes := match calendar_code with OneCode c => [c] | ManyCodes cs => cs end in
  if Numpy.size codes =? 0 then Raise (ValueError NoCalendarCode)
  else
    masks ← mapM (λ code,
      match CALENDAR_CODES !! code with
      | None => Raise (ValueError (UnknownCalendarCode code))
      | Some (provider_class, provider_code) =>
          (* every entry of the table other than the weekend ones has a code *)
          let code := default ""%string provider_code in
          builder ←
            (if String.eqb provider_class "exchange" then
               Ok (ExchangeMaskBuilder code)
             else if String.eqb provider_class "quantlib" then
               Ok (QuantLibMaskBuilder (_quantlib_mapping code))
             else if String.eqb provider_class "country" then
               Ok (CountryMaskBuilder code)
             else if String.eqb provider_class "weekend" then
               Ok DefaultMaskBuilder
             else Raise (ValueError (UnknownProviderClass provider_class)));
          build_mask ext builder u
      end) codes;
    if String.eqb mode "union" then Ok (Numpy.reduce orb masks)
    else if String.eqb mode "intersection" then Ok (Numpy.reduce andb masks)
    else Raise (ValueError (UnknownMode mode)).

(** [Calendar.__init__] *)
Definition Calendar_init (calendar_code : code_arg) (start_date end_date : Z)
    (multiple_calendars_mode : kwarg string) (date_type : kwarg string)
    (day_first : kwarg bool) (str_sep : kwarg string) : result Calendar :=
  let mode := or_default "union"%string multiple_calendars_mode in
  let u := {| start64 := start_date; end64 := end_date |} in
  mask ← _create_mask calendar_code mode u;
  Ok {| dayfirst := or_default true day_first;
        str_sep := or_default "-"%string str_sep;
        output := or_default "date"%string date_type;
        calendar_code := calendar_code;
        multiple_calendars_mode := mode;
        universe := u;
        business_mask := mask;
        business_position := Numpy.flatnonzero mask |}.
End construction.

Section methods.
Variable ext : ExternalSources.
Variable c : Calendar.
Let u := universe c.

Definition _range_indices (start end_ : option Z) : result (Z * Z) :=
  let s := default (start64 u) start in
  let e := default (end64 u) end_ in
  i0 ← locate u s;
  i1 ← locate u e;
  if i1 <? i0 then Raise (ValueError EndBeforeStart) else Ok (i0, i1).

Definition _select_in_groups (pos key : list Z) (which : which_arg) : result (list Z) :=
  if Numpy.size pos =? 0 then Ok pos
  else if which_is which "all" then Ok pos
  else
    (* starts[0] = True; starts[1:] = key[1:] != key[:-1] *)
    let starts :=
      true :: zip_with (λ a b, negb (a =? b)) (drop 1 key) (take (length key - 1)%nat key) in
    let start_idx := Numpy.flatnonzero starts in
    if which_is which "first" then Numpy.take_idx pos start_idx
    else
      (* np.r_[start_idx[1:] - 1, pos.size - 1] *)
      let end_idx := ((λ i, i - 1) <$> drop 1 start_idx) ++ [Numpy.size pos - 1] in
      if which_is which "last" then Numpy.take_idx pos end_idx
      else
        match which with
        | WInt n =>
            if 1 <=? n then
              if Numpy.fits_int64 (n - 1) then
                let nth := (λ i, Numpy.add_int64 i (n - 1)) <$> start_idx in
                let valid := zip_with Z.leb nth end_idx in
                Numpy.take_idx pos (Numpy.compress valid nth)
              else Raise OverflowError
            else Raise (ValueError BadWhich)
        | WStr _ => Raise (ValueError BadWhich)
        end.

Definition _inclusive_flags (inclusive : string) : result (bool * bool) :=
  let inc := lower inclusive in
  if String.eqb inc "both" then Ok (true, true)
  else if String.eqb inc "left" then Ok (true, false)
  else if String.eqb inc "right" then Ok (false, true)
  else if String.eqb inc "none" then Ok (false, false)
  else Raise (ValueError BadInclusive).

(** *** 0. Override an existing calendar *)

Definition override (new_business_days new_non_business_days : option (list Z))
    : result Calendar :=
  let override_mask := Numpy.zeros (len u) in
  override_mask ←
    match new_business_days with
    | Some ds =>
        for_each (λ m d, i ← locate u d; Ok (<[Z.to_nat i := true]> m)) override_mask ds
    | None => Ok override_mask
    end;
  override_mask ←
    match new_non_business_days with
    | Some ds =>
        for_each (λ m d, i ← locate u d; Ok (<[Z.to_nat i := false]> m)) override_mask ds
    | None => Ok override_mask
    end;
  let mask := Numpy.where_true override_mask (business_mask c) in
  Ok {| dayfirst := dayfirst c;
        str_sep := str_sep c;
        output := output c;
        calendar_code := calendar_code c;
        multiple_calendars_mode := multiple_calendars_mode c;
        universe := u;
        business_mask := mask;
        business_position := Numpy.flatnonzero mask |}.

(** *** 2. Basic business / non-business day information *)

Definition is_business (day : Z) : result bool :=
  i ← locate u day;
  Numpy.item (business_mask c) i.

Definition is_non_business (day : Z) : result bool :=
  negb <$> is_business day.

Definition is_weekend (day : Z) : result bool :=
  i ← locate u day;
  wd ← Numpy.item (weekday u) i;
  Ok (6 <=? wd).

Definition is_weekday (day : Z) : result bool :=
  negb <$> is_weekend day.

Definition is_holiday (day : Z) : result bool :=
  nb ← is_non_business day;
  if (nb : bool) then negb <$> is_weekend day else Ok false.

(** [_from_internal_date(d, self.output, str_sep=self.str_sep,
    dayfirst=self.dayfirst)] *)
Definition to_output (d64 : Z) : result OutputValue :=
  _from_internal_date ext d64 (output c) (str_sep c) (dayfirst c).

(** [business_days], up to [out64]. *)
Definition business_days_out64 (start_date end_date : option Z) : result (list Z) :=
  let start_date := default (self_start_date c) start_date in
  let end_date := default (self_end_date c) end_date in
  '(i0, i1) ← _range_indices (Some start_date) (Some end_date);
  let pos := business_position c in
  let left := Numpy.searchsorted pos i0 Numpy.Left in
  let right := Numpy.searchsorted pos i1 Numpy.Right in
  Numpy.take_idx (days u) (Numpy.slice pos left right).

Definition business_days (start_date end_date : option Z) : result (list OutputValue) :=
  out64 ← business_days_out64 start_date end_date;
  mapM to_output out64.

(** [non_business_days], up to [out64]. *)
Definition non_business_days_out64 (start_date end_date : option Z) : result (list Z) :=
  '(i0, i1) ← _range_indices start_date end_date;
  let all_pos := Numpy.arange i0 (i1 + 1) in
  let bus_pos := business_position c in
  let mask := Numpy.isin_invert all_pos bus_pos in
  Numpy.take_idx (days u) (Numpy.compress mask all_pos).

Definition non_business_days (start_date end_date : option Z)
    : result (list OutputValue) :=
  out64 ← non_business_days_out64 start_date end_date;
  mapM to_output out64.

Definition days_between (start_date end_date : option Z)
    (type inclusive : kwarg string) : result Z :=
  let type := or_default "calendar"%string type in
  let inclusive := or_default "both"%string inclusive in
  let d1 := default (self_start_date c) start_date in
  let d2 := default (self_end_date c) end_date in
  i1 ← locate u d1;
  i2 ← locate u d2;
  if i2 <? i1 then Raise (ValueError EndDateBeforeStartDate)
  else
    '(inc_start, inc_end) ← _inclusive_flags inclusive;
    if String.eqb type "calendar" then
      let cnt := i2 - i1 + 1 in
      let cnt := if negb inc_start then cnt - 1 else cnt in
      let cnt := if negb inc_end then cnt - 1 else cnt in
      Ok (Z.max cnt 0)
    else if String.eqb type "business" then
      let bpos := business_position c in
      let left_side := if inc_start then Numpy.Left else Numpy.Right in
      let right_side := if inc_end then Numpy.Right else Numpy.Left in
      let left := Numpy.searchsorted bpos i1 left_side in
      let right := Numpy.searchsorted bpos i2 right_side in
      Ok (Z.max (right - left) 0)
    else Raise (ValueError BadType).

(** *** 3. Business day offsetting *)

(** [np.searchsorted(...) + k] for a Python int [k]: [k] must fit the
    int64 of the index, and the sum wraps. *)
Definition index_plus (i k : Z) : result Z :=
  if Numpy.fits_int64 k then Ok (Numpy.add_int64 i k) else Raise OverflowError.

(** [offset_business_days], up to [return_day]. *)
Definition offset_return_day (day : Z) (n : Z) : result Z :=
  let d64 := day in
  if (d64 <? self_start_date c) || (self_end_date c <? d64) then
    Raise (ValueError (OutsideCalendarRange day))
  else
    i ← locate u d64;
    if n =? 0 then Ok d64
    else if 0 <? n then
      k ← index_plus (Numpy.searchsorted (business_position c) i Numpy.Right) (n - 1);
      if Numpy.size (business_position c) <=? k then Raise (ValueError BeyondCalendarEnd)
      else p ← Numpy.item (business_position c) k; Numpy.item (days u) p
    else
      k ← index_plus (Numpy.searchsorted (business_position c) i Numpy.Left) n;
      if k <? 0 then Raise (ValueError BeyondCalendarStart)
      else p ← Numpy.item (business_position c) k; Numpy.item (days u) p.

Definition offset_business_days (day : Z) (n : Z) : result OutputValue :=
  return_day ← offset_return_day day n;
  to_output return_day.

Definition next_business_day (day : Z) : result OutputValue :=
  offset_business_days day 1.
Definition previous_business_day (day : Z) : result OutputValue :=
  offset_business_days day (-1).

(** *** 4. Scheduling: business-based and calendar-based *)

Definition frequency_is (frequency a b c' d : string) : bool :=
  String.eqb frequency a || String.eqb frequency b
  || String.eqb frequency c' || String.eqb frequency d.

(** The if/elif chain on [frequency], identical in both schedule methods:
    the period key of every position in [pos]. *)
Definition period_key (frequency : string) (pos : list Z) : result (list Z) :=
  if frequency_is frequency "M" "month" "Month" "MONTH" then
    Numpy.take_idx (month_key u) pos
  else if frequency_is frequency "Q" "quarter" "Quarter" "QUARTER" then
    y ← Numpy.take_idx (year u) pos;
    q ← Numpy.take_idx (quarter u) pos;
    Ok (zip_with (λ y q, y * 10 + q) y q)
  else if frequency_is frequency "S" "semester" "Semester" "SEMESTER" then
    y ← Numpy.take_idx (year u) pos;
    s ← Numpy.take_idx (semester u) pos;
    Ok (zip_with (λ y s, y * 10 + s) y s)
  else if frequency_is frequency "W" "week" "Week" "WEEK" then
    iso_years ← iso_year u;
    y ← Numpy.take_idx iso_years pos;
    weeks ← week u;
    w ← Numpy.take_idx weeks pos;
    Ok (zip_with (λ y w, y * 100 + w) y w)
  else if frequency_is frequency "Y" "year" "Year" "YEAR" then
    Numpy.take_idx (year u) pos
  else Raise (ValueError BadFrequency).

(** [schedule_business], up to [out64]; the early [return []] is the empty
    [out64]. *)
Definition schedule_business_out64 (frequency : string) (which : kwarg which_arg)
    (start_date end_date : option Z) : result (list Z) :=
  let which := or_default (WStr "first") which in
  '(i0, i1) ← _range_indices start_date end_date;
  let bpos := business_position c in
  let left := Numpy.searchsorted bpos i0 Numpy.Left in
  let right := Numpy.searchsorted bpos i1 Numpy.Right in
  let pos := Numpy.slice bpos left right in
  if Numpy.size pos =? 0 then Ok []
  else
    key ← period_key frequency pos;
    sel ← _select_in_groups pos key which;
    Numpy.take_idx (days u) sel.

Definition schedule_business (frequency : string) (which : kwarg which_arg)
    (start_date end_date : option Z) : result (list OutputValue) :=
  out64 ← schedule_business_out64 frequency which start_date end_date;
  mapM to_output out64.

(** [schedule_calendar], up to [self.universe.days[pos]]; the early
    [return []] is the empty list of days. *)
Definition schedule_calendar_out64 (frequency : string) (week_day : kwarg (option Z))
    (which : kwarg which_arg) (start_date end_date : option Z) : result (list Z) :=
  let week_day := or_default (Some 1) week_day in
  let which := or_default (WStr "first") which in
  '(i0, i1) ← _range_indices start_date end_date;
  let pos := Numpy.arange i0 (i1 + 1) in
  pos ←
    match week_day with
    | Some wd =>
        wds ← Numpy.take_idx (weekday u) pos;
        Ok (Numpy.compress ((λ w, w =? wd) <$> wds) pos)
    | None => Ok pos
    end;
  if Numpy.size pos =? 0 then Ok []
  else
    pos ←
      (if negb (which_is which "all") then
         key ← period_key frequency pos;
         _select_in_groups pos key which
       else Ok pos);
    Numpy.take_idx (days u) pos.

Definition schedule_calendar (frequency : string) (week_day : kwarg (option Z))
    (which : kwarg which_arg) (start_date end_date : option Z)
    : result (list OutputValue) :=
  out64 ← schedule_calendar_out64 frequency week_day which start_date end_date;
  mapM to_output out64.
End methods.

(** *** 1. Static information about the calendar *)

Section static_information.
Variable c : Calendar.

(** [Calendar.__len__] *)
Definition Calendar_len : Z := len (universe c).

Definition week_day (day : Z) : result Z :=
  i ← locate (universe c) day;
  Numpy.item (weekday (universe c)) i.

Definition week_number (day : Z) : result Z :=
  i ← locate (universe c) day;
  weeks ← week (universe c);
  Numpy.item weeks i.

(** [Calendar.quarter] and [Calendar.semester] *)
Definition Calendar_quarter (day : Z) : result Z :=
  i ← locate (universe c) day;
  Numpy.item (quarter (universe c)) i.

Definition Calendar_semester (day : Z) : result Z :=
  i ← locate (universe c) day;
  Numpy.item (semester (universe c)) i.
End static_information.

(** ** The loop body of [_create_mask], named *)

(** The builder [_create_mask] picks for a registry entry. *)
Definition builder_of (provider_class : string) (provider_code : option string)
    : result MaskBuilder :=
  let code := default ""%string provider_code in
  if String.eqb provider_class "exchange" then Ok (ExchangeMaskBuilder code)
  else if String.eqb provider_class "quantlib" then
    Ok (QuantLibMaskBuilder (_quantlib_mapping code))
  else if String.eqb provider_class "country" then Ok (CountryMaskBuilder code)
  else if String.eqb provider_class "weekend" then Ok DefaultMaskBuilder
  else Raise (ValueError (UnknownProviderClass provider_class)).

(** The mask of one calendar code: the body of the loop of [_create_mask]. *)
Definition mask_of_code (ext : ExternalSources) (u : DateUniverse) (code : string)
    : result (list bool) :=
  match CALENDAR_CODES !! code with
  | None => Raise (ValueError (UnknownCalendarCode code))
  | Some (provider_class, provider_code) =>
      builder ← builder_of provider_class provider_code;
      build_mask ext builder u
  end.

(** ** Vocabulary of the specification *)

(** The frequency tokens the if/elif chain of the schedule methods accepts. *)
Definition recognized_frequency (frequency : string) : bool :=
  frequency_is frequency "M" "month" "Month" "MONTH"
  || frequency_is frequency "Q" "quarter" "Quarter" "QUARTER"
  || frequency_is frequency "S" "semester" "Semester" "SEMESTER"
  || frequency_is frequency "W" "week" "Week" "WEEK"
  || frequency_is frequency "Y" "year" "Year" "YEAR".

(** The values of [which] the specification lists: "first", "last", "all"
    or an integer >= 1. *)
Definition valid_which (which : which_arg) : bool :=
  match which with
  | WStr s => String.eqb s "first" || String.eqb s "last" || String.eqb s "all"
  | WInt n => 1 <=? n
  end.

(** ASCII whitespace, as [str.strip] removes it. *)
Definition is_space (a : ascii) : bool :=
  let n := nat_of_ascii a in
  (((9 <=? n) && (n <=? 13)) || ((28 <=? n) && (n <=? 32)))%nat.

Fixpoint lstrip (s : string) : string :=
  match s with
  | EmptyString => EmptyString
  | String a s' => if is_space a then lstrip s' else s
  end.

Fixpoint rstrip (s : string) : string :=
  match s with
  | EmptyString => EmptyString
  | String a s' =>
      match rstrip s' with
      | EmptyString => if is_space a then EmptyString else String a EmptyString
      | t => String a t
      end
  end.

Definition strip (s : string) : string := rstrip (lstrip s).

(** The specification's reading of a calendar identifier: case-insensitive
    and whitespace-normalized, that is, compared after [strip] and [upper]. *)
Definition spec_normalize (code : string) : string := upper (strip code).

(** Weekday number of a date, Monday = 1, as [DateUniverse.weekday] computes
    it before the cast to uint8. *)
Definition weekday_number (d64 : Z) : Z := (d64 + 3) `mod` 7 + 1.

(** ** Concrete calendars used below *)

(** No external package answers: only the weekend calendars build. *)
Definition no_sources : ExternalSources :=
  {| exchange_schedule := λ _, Fails "pandas_market_calendars";
     country_working_day := λ _, None;
     quantlib_date := λ _, Fails "QuantLib";
     quantlib_business_day := λ _ _, Fails "QuantLib";
     pandas_timestamp := λ _, Fails "pandas" |}.

(** workalendar knows every country code and calls every day a working
    day, 2026-01-01 apart; QuantLib builds the dates from 1901-01-01 to
    2199-12-31 and calls each of them a business day. *)
Definition one_holiday_sources : ExternalSources :=
  {| exchange_schedule := λ _, Fails "pandas_market_calendars";
     country_working_day := λ _, Some (λ d, Returns (negb (d =? 20454)));
     quantlib_date :=
       λ d, if bool_decide (-25202 ≤ d ≤ 84005) then Returns () else Fails "QuantLib";
     quantlib_business_day := λ _ _, Returns true;
     pandas_timestamp := λ _, Fails "pandas" |}.

(** [Calendar("DEFAULT", "2026-01-01", "2026-01-31")]: 2026-01-01 is day
    20454, a Thursday. *)
Definition january_2026 : Calendar :=
  {| dayfirst := true;
     str_sep := "-";
     output := "date";
     calendar_code := OneCode "DEFAULT";
     multiple_calendars_mode := "union";
     universe := {| start64 := 20454; end64 := 20484 |};
     business_mask :=
       [true; true; false; false; true; true; true; true; true; false;
        false; true; true; true; true; true; false; false; true; true;
        true; true; true; false; false; true; true; true; true; true;
        false];
     business_position :=
       [0; 1; 4; 5; 6; 7; 8; 11; 12; 13; 14; 15; 18; 19; 20; 21; 22;
        25; 26; 27; 28; 29] |}.

(** [Calendar("DEFAULT", np.datetime64("9999-12-27"),
    np.datetime64(2932901, "D"))]: 9999-12-27 is day 2932892, a Monday;
    the universe ends on day 2932901, the 5th of January of the year
    10000. *)
Definition new_year_10000 : Calendar :=
  {| dayfirst := true;
     str_sep := "-";
     output := "date";
     calendar_code := OneCode "DEFAULT";
     multiple_calendars_mode := "union";
     universe := {| start64 := 2932892; end64 := 2932901 |};
     business_mask := [true; true; true; true; true; false; false; true; true; true];
     business_position := [0; 1; 2; 3; 4; 7; 8; 9] |}.

(** ** The invariant of a constructed calendar *)

(** The mask covers the universe and [business_position] lists its true
    entries. *)
Definition calendar_wf (c : Calendar) : Prop :=
  Numpy.size (business_mask c) = len (universe c) ∧
  business_position c = Numpy.flatnonzero (business_mask c).

(** The arrays of the universe are addressable with room to spare, as any
    array held in memory is; index sums that leave int64 then cannot wrap
    back into the array. *)
Definition addressable (c : Calendar) : Prop := len (universe c) ≤ 2 ^ 62.

(** The calendars a program can hold: built by the constructor, then
    overridden any number of times. *)
Inductive constructed (ext : ExternalSources) : Calendar → Prop :=
  | constructed_init codes start_date end_date mode date_type day_first str_sep c :
      Calendar_init ext codes start_date end_date mode date_type day_first str_sep = Ok c →
      constructed ext c
  | constructed_override c new_business_days new_non_business_days c' :
      constructed ext c →
      override c new_business_days new_non_business_days = Ok c' →
      constructed ext c'.

(** The value the calendar returns the day [d64] as. *)
Definition output_of (ext : ExternalSources) (c : Calendar) (d64 : Z) (v : OutputValue)
    : Prop :=
  to_output ext c d64 = Ok v.

(** A date of the calendar's universe. *)
Definition inside (c : Calendar) (d : Z) : Prop :=
  self_start_date c ≤ d ≤ self_end_date c.

(** The entries [np.searchsorted] counts: strictly below [v] for
    side="left", at most [v] for side="right". *)
Definition below (s : Numpy.side) (x v : Z) : Prop :=
  match s with Numpy.Left => x < v | Numpy.Right => x ≤ v end.

#[global] Instance below_dec (s : Numpy.side) (x v : Z) : Decision (below s x v) :=
  match s with
  | Numpy.Left => decide (x < v)
  | Numpy.Right => decide (x ≤ v)
  end.

(** Strictly increasing lists: sorted ascending, no duplicates. *)
Abbreviation increasing := (StronglySorted Z.lt).

(** ** Calendar periods *)

(** The frequencies whose period is a span of calendar months: month,
    quarter, semester and year. *)
Definition month_based (frequency : string) : bool :=
  frequency_is frequency "M" "month" "Month" "MONTH"
  || frequency_is frequency "Q" "quarter" "Quarter" "QUARTER"
  || frequency_is frequency "S" "semester" "Semester" "SEMESTER"
  || frequency_is frequency "Y" "year" "Year" "YEAR".

(** The period a date falls in: its year, with its month, quarter or
    semester for the frequencies finer than the year. *)
Definition period_of (frequency : string) (d64 : Z) : Z * Z :=
  let y := Datetime.civil_year d64 in
  let m := Datetime.civil_month d64 in
  if frequency_is frequency "M" "month" "Month" "MONTH" then (y, m)
  else if frequency_is frequency "Q" "quarter" "Quarter" "QUARTER" then
    (y, (m - 1) `div` 3 + 1)
  else if frequency_is frequency "S" "semester" "Semester" "SEMESTER" then
    (y, (m - 1) `div` 6 + 1)
  else (y, 1).

(** The number [period_key] gives the period of a date, dtype casts left
    aside. *)
Definition period_number (frequency : string) (d64 : Z) : Z :=
  let y := Datetime.civil_year d64 in
  let m := Datetime.civil_month d64 in
  if frequency_is frequency "M" "month" "Month" "MONTH" then y * 12 + (m - 1)
  else if frequency_is frequency "Q" "quarter" "Quarter" "QUARTER" then
    y * 10 + ((m - 1) `div` 3 + 1)
  else if frequency_is frequency "S" "semester" "Semester" "SEMESTER" then
    y * 10 + ((m - 1) `div` 6 + 1)
  else y.

(** The universes within the dates [datetime.date] holds, 0001-01-01 to
    9999-12-31. *)
Definition representable (u : DateUniverse) : Prop :=
  -719162 ≤ start64 u ∧ end64 u ≤ 2932896.

(** The steps of [Datetime.civil_from_days] on a day of the 400-year era:
    the year of the era, the first day of a year of the era, and the month
    of the era counted from March of its first year. *)
Definition year_of_era (doe : Z) : Z :=
  (doe - doe `div` 1460 + doe `div` 36524 - doe `div` 146096) `div` 365.

Definition year_start (yoe : Z) : Z := 365 * yoe + yoe `div` 4 - yoe `div` 100.

Definition month_of_era (doe : Z) : Z :=
  year_of_era doe * 12 + (5 * (doe - year_start (year_of_era doe)) + 2) `div` 153.

(** * Properties *)

(** ** Sanity checks of the embedding *)

Example january_2026_constructed :
  Calendar_init no_sources (OneCode "DEFAULT") 20454 20484
    Omitted Omitted Omitted Omitted
  = Ok january_2026.
Proof. vm_compute. reflexivity. Qed.

Example new_year_10000_constructed :
  Calendar_init no_sources (OneCode "DEFAULT") 2932892 2932901
    Omitted Omitted Omitted Omitted
  = Ok new_year_10000.
Proof. vm_compute. reflexivity. Qed.

Example civil_2026_01_30 : Datetime.civil_from_days 20483 = (2026, 1, 30).
Proof. reflexivity. Qed.

Example isocalendar_2024_12_31 : Datetime.isocalendar 20088 = (2025, 1).
Proof. vm_compute. reflexivity. Qed.

Example last_business_day_of_january_2026 :
  schedule_business no_sources january_2026 "month" (Passed (WStr "last")) None None
  = Ok [PyDate 20483].
Proof. vm_compute. reflexivity. Qed.

Example output_str_dayfirst :
  _from_internal_date no_sources 20455 "str" "/" true = Ok (PyStr "02/01/2026").
Proof. vm_compute. reflexivity. Qed.

Example output_str_year_10000 :
  _from_internal_date no_sources 2932897 "str" "-" false = Ok (PyStr "10000-01-01").
Proof. vm_compute. reflexivity. Qed.

Example output_str_negative_year :
  Datetime.civil_from_days (-719529) = (-1, 12, 31) ∧
  _from_internal_date no_sources (-719529) "str" "-" false = Ok (PyStr "-001-12-31") ∧
  _from_internal_date no_sources (-719529) "str" "-" true = Raise (ValueError UnpackError).
Proof. split_and!; by vm_compute. Qed.

Example output_date_year_10000 :
  _from_internal_date no_sources 2932897 "date" "-" true
  = Raise (ValueError (InvalidIsoDate 2932897)).
Proof. vm_compute. reflexivity. Qed.

Example output_unknown_type :
  _from_internal_date no_sources 20455 "Date" "-" true
  = Raise (ValueError (UnknownOutputType "Date")).
Proof. vm_compute. reflexivity. Qed.

(** ** Facts about the array operations *)

(** Boolean comparisons of the code, as propositions. *)
Ltac Zbool :=
  repeat match goal with
  | H : (_ <? _) = true |- _ => apply Z.ltb_lt in H
  | H : (_ <? _) = false |- _ => apply Z.ltb_ge in H
  | H : (_ <=? _) = true |- _ => apply Z.leb_le in H
  | H : (_ <=? _) = false |- _ => apply Z.leb_gt in H
  | H : (_ =? _) = true |- _ => apply Z.eqb_eq in H
  | H : (_ =? _) = false |- _ => apply Z.eqb_neq in H
  | H : (_ || _) = true |- _ => apply orb_true_iff in H
  | H : (_ || _) = false |- _ => apply orb_false_iff in H; destruct H
  | H : (_ && _) = true |- _ => apply andb_true_iff in H; destruct H
  | H : (_ && _) = false |- _ => apply andb_false_iff in H
  | H : negb _ = true |- _ => apply negb_true_iff in H
  | H : negb _ = false |- _ => apply negb_false_iff in H
  end.

Lemma bind_Ok_inv {A B} (r : result A) (f : A → result B) (b : B) :
  r ≫= f = Ok b → ∃ a, r = Ok a ∧ f a = Ok b.
Proof. destruct r as [a|e]; [eauto|done]. Qed.

Lemma fmap_Ok_inv {A B} (f : A → B) (r : result A) (b : B) :
  f <$> r = Ok b → ∃ a, r = Ok a ∧ b = f a.
Proof. destruct r as [a|e]; [|done]. intros [= <-]. eauto. Qed.

(** Split a successful run [H : (x ← r; k) = Ok b] into its steps. *)
Ltac inv_Ok H :=
  let a := fresh "a" in
  let Ha := fresh "H" a in
  apply bind_Ok_inv in H as (a & Ha & H).

Section numpy_facts.
Import Numpy.

Lemma size_nonneg {A} (a : list A) : 0 ≤ size a.
Proof. unfold size. lia. Qed.

Lemma item_nonneg {A} (a : list A) k :
  0 ≤ k →
  item a k = match a !! Z.to_nat k with Some x => Ok x | None => Raise IndexError end.
Proof.
  intros Hk. unfold item.
  destruct (Z.ltb_spec k 0) as [?|_]; [lia|].
  destruct (Z.ltb_spec k 0); [lia|done].
Qed.

Lemma item_lookup {A} (a : list A) k x :
  0 ≤ k → a !! Z.to_nat k = Some x → item a k = Ok x.
Proof. intros Hk Hx. by rewrite item_nonneg, Hx. Qed.


Lemma item_Ok_lookup {A} (a : list A) k x :
  item a k = Ok x → 0 ≤ k → a !! Z.to_nat k = Some x.
Proof.
  intros H Hk. rewrite item_nonneg in H by done.
  destruct (a !! Z.to_nat k); congruence.
Qed.

Lemma item_Ok_elem_of {A} (a : list A) k x : item a k = Ok x → x ∈ a.
Proof.
  unfold item. intros H.
  destruct (_ <? 0); [done|].
  destruct (a !! _) eqn:E; [|done].
  inversion H; subst. by eapply list_elem_of_lookup_2.
Qed.

Lemma take_idx_Ok {A} (a : list A) idx r :
  take_idx a idx = Ok r ↔ Forall2 (λ k x, item a k = Ok x) idx r.
Proof.
  revert r. induction idx as [|k idx IH]; intros r; simpl.
  - split; [intros [= <-]; constructor|by inversion 1].
  - destruct (item a k) as [x|e] eqn:Hk; simpl.
    + destruct (take_idx a idx) as [xs|e]; simpl.
      * split.
        -- intros [= <-]. constructor; [done|by apply IH].
        -- inversion 1 as [|???? Hx Hxs]; subst.
           apply IH in Hxs. congruence.
      * split; [done|]. inversion 1 as [|???? Hx Hxs]; subst.
        by apply IH in Hxs.
    + split; [done|]. inversion 1; congruence.
Qed.

Lemma take_idx_length {A} (a : list A) idx r :
  take_idx a idx = Ok r → length r = length idx.
Proof. rewrite take_idx_Ok. intros H. symmetry. by eapply Forall2_length. Qed.

Lemma take_idx_subseteq {A} (a : list A) idx r :
  take_idx a idx = Ok r → r ⊆ a.
Proof.
  rewrite take_idx_Ok. induction 1 as [|k x idx r Hk _ IH].
  - apply list_subseteq_nil.
  - intros y [->|Hy]%elem_of_cons; [by eapply item_Ok_elem_of|by apply IH].
Qed.

End numpy_facts.

Section order_facts.
Import Numpy.

Lemma increasing_sublist (l1 l2 : list Z) :
  l1 `sublist_of` l2 → increasing l2 → increasing l1.
Proof.
  induction 1 as [|x l1 l2 Hs IH|x l1 l2 Hs IH]; intros Hl2.
  - constructor.
  - apply StronglySorted_cons in Hl2 as [Hx Hl2].
    apply StronglySorted_cons. split; [|by apply IH].
    rewrite Forall_forall in Hx |- *. intros y Hy.
    apply Hx. by eapply elem_of_sublist.
  - apply StronglySorted_cons in Hl2 as [_ Hl2]. by apply IH.
Qed.

Lemma increasing_seqZ m n : increasing (seqZ m n).
Proof.
  destruct (decide (n ≤ 0)) as [?|Hn]; [rewrite seqZ_nil by done; constructor|].
  replace n with (Z.of_nat (Z.to_nat n)) by lia.
  generalize (Z.to_nat n) as k. clear. intros k. revert m.
  induction k as [|k IH]; intros m; [constructor|].
  rewrite seqZ_cons by lia. apply StronglySorted_cons. split.
  - apply Forall_seqZ. lia.
  - replace (Z.pred (Z.of_nat (S k))) with (Z.of_nat k) by lia. apply IH.
Qed.

Lemma increasing_fmap_add (k : Z) l :
  increasing l → increasing ((λ i, k + i) <$> l).
Proof.
  intros H. eapply (StronglySorted_fmap _ Z.lt Z.lt); [|done].
  intros x y ?. lia.
Qed.

Lemma increasing_lookup l (i j : nat) x y :
  increasing l → l !! i = Some x → l !! j = Some y → (i < j)%nat → x < y.
Proof.
  intros Hl. revert i j. induction Hl as [|z l Hl IH Hz]; intros i j Hi Hj Hij.
  - done.
  - destruct i as [|i], j as [|j]; simpl in *; try lia.
    + simplify_eq. rewrite Forall_forall in Hz.
      apply Hz. by eapply list_elem_of_lookup_2.
    + eapply IH; eauto with lia.
Qed.

Lemma compress_sublist {A} (flags : list bool) (a : list A) :
  compress flags a `sublist_of` a.
Proof.
  revert a. induction flags as [|b flags IH]; intros [|x a]; simpl;
    try apply sublist_nil_l.
  destruct b; [by apply sublist_skip|by apply sublist_cons].
Qed.


Lemma compress_by {A} (f : A → bool) (a : list A) :
  compress (f <$> a) a = filter (λ x, f x = true) a.
Proof.
  induction a as [|x a IH]; [done|]. simpl.
  rewrite filter_cons. destruct (f x) eqn:E; simpl; [f_equal|]; apply IH.
Qed.

Lemma filter_none {A} (P : A → Prop) `{!∀ x, Decision (P x)} (l : list A) :
  Forall (λ x, ¬ P x) l → filter P l = [].
Proof.
  induction 1 as [|x l Hx _ IH]; [done|]. by rewrite filter_cons_False.
Qed.

Lemma flatnonzero_from_spec mask i k :
  k ∈ flatnonzero_from i mask ↔
  ∃ j : nat, k = i + Z.of_nat j ∧ mask !! j = Some true.
Proof.
  revert i. induction mask as [|b mask IH]; intros i; simpl.
  - split; [by intros ?%elem_of_nil|by intros (j & _ & ?)].
  - assert (k ∈ flatnonzero_from (i + 1) mask ↔
            ∃ j : nat, k = i + Z.of_nat (S j) ∧ mask !! j = Some true) as IH'.
    { rewrite IH. split; intros (j & -> & Hj); exists j; split; (lia || done). }
    destruct b.
    + rewrite elem_of_cons, IH'. split.
      * intros [->|(j & -> & Hj)]; [exists 0%nat|exists (S j)]; split; try done; lia.
      * intros ([|j] & -> & Hj); [left; lia|right; eauto].
    + rewrite IH'. split.
      * intros (j & -> & Hj). exists (S j). done.
      * intros ([|j] & -> & Hj); [done|eauto].
Qed.

Lemma elem_of_flatnonzero mask k :
  k ∈ flatnonzero mask ↔ 0 ≤ k ∧ mask !! Z.to_nat k = Some true.
Proof.
  unfold flatnonzero. rewrite flatnonzero_from_spec. split.
  - intros (j & -> & Hj). split; [lia|]. by rewrite Z.add_0_l, Nat2Z.id.
  - intros [Hk Hm]. exists (Z.to_nat k). split; [lia|done].
Qed.

Lemma increasing_flatnonzero_from mask i : increasing (flatnonzero_from i mask).
Proof.
  revert i. induction mask as [|b mask IH]; intros i; simpl; [constructor|].
  destruct b; [|apply IH].
  apply StronglySorted_cons. split; [|apply IH].
  apply Forall_forall. intros k (j & -> & _)%flatnonzero_from_spec. lia.
Qed.

Lemma increasing_flatnonzero mask : increasing (flatnonzero mask).
Proof. apply increasing_flatnonzero_from. Qed.

Lemma flatnonzero_range mask :
  Forall (λ k, 0 ≤ k < size mask) (flatnonzero mask).
Proof.
  apply Forall_forall. intros k [Hk Hm]%elem_of_flatnonzero.
  apply lookup_lt_Some in Hm. unfold size. lia.
Qed.

Lemma searchsorted_range a v s : 0 ≤ searchsorted a v s ≤ size a.
Proof.
  unfold size. induction a as [|x a IH]; simpl; [lia|].
  destruct (match s with Left => x <? v | Right => x <=? v end); simpl in *; lia.
Qed.

(** On an increasing array the two insertion points delimit the entries
    between the bounds. *)
Lemma slice_searchsorted a i0 i1 :
  increasing a →
  slice a (searchsorted a i0 Left) (searchsorted a i1 Right)
  = filter (λ x, i0 ≤ x ≤ i1) a.
Proof.
  unfold slice. induction 1 as [|x a Ha IH Hx]; [done|].
  assert (i1 < x → filter (λ x, i0 ≤ x ≤ i1) a = []) as Hnone.
  { intros ?. apply filter_none. eapply Forall_impl; [done|]. simpl. lia. }
  pose proof (searchsorted_range a i0 Left).
  pose proof (searchsorted_range a i1 Right).
  cbn [searchsorted]. rewrite filter_cons.
  destruct (Z.ltb_spec x i0), (Z.leb_spec x i1).
  - rewrite decide_False by lia.
    rewrite !Z2Nat.inj_add, Nat.sub_succ by lia. simpl. apply IH.
  - rewrite decide_False by lia. rewrite Hnone by lia.
    simpl. by rewrite take_0.
  - rewrite decide_True by lia.
    rewrite Z2Nat.inj_add by lia. simpl. f_equal.
    rewrite <-IH. replace (searchsorted a i0 Left) with 0; [by rewrite Nat.sub_0_r|].
    destruct Hx as [|y a Hy _]; simpl; [done|].
    destruct (Z.ltb_spec y i0); [lia|done].
  - rewrite decide_False by lia. rewrite Hnone by lia. done.
Qed.

(** The insertion points of an element of an increasing array. *)
Lemma searchsorted_lookup a (p : nat) v :
  increasing a → a !! p = Some v →
  searchsorted a v Left = Z.of_nat p ∧ searchsorted a v Right = Z.of_nat p + 1.
Proof.
  intros Ha. revert p. induction Ha as [|x a Ha IH Hx]; intros p Hp; [done|].
  destruct p as [|p]; simpl in *.
  - simplify_eq. rewrite Z.ltb_irrefl, Z.leb_refl. split; [done|].
    destruct Hx as [|y a Hy _]; simpl; [done|].
    destruct (Z.leb_spec y v); [lia|done].
  - assert (x < v).
    { rewrite Forall_forall in Hx. apply Hx. by eapply list_elem_of_lookup_2. }
    destruct (IH _ Hp) as [-> ->].
    destruct (Z.ltb_spec x v), (Z.leb_spec x v); lia.
Qed.
End order_facts.

(** ** Facts about the date universe *)

Section universe_facts.
Variable u : DateUniverse.

Lemma len_n_days : len u = Z.max 0 (n_days u).
Proof.
  unfold len, days, Numpy.size, Numpy.arange.
  rewrite length_fmap, length_seqZ. lia.
Qed.

Lemma days_lookup (i : nat) :
  Z.of_nat i < len u → days u !! i = Some (start64 u + Z.of_nat i).
Proof.
  rewrite len_n_days. intros Hi. unfold days, Numpy.arange.
  rewrite list_lookup_fmap, lookup_seqZ_lt by lia. simpl. f_equal; lia.
Qed.

Lemma days_item i :
  0 ≤ i < len u → Numpy.item (days u) i = Ok (start64 u + i).
Proof.
  intros Hi. apply item_lookup; [lia|].
  rewrite days_lookup by lia. f_equal. lia.
Qed.

Lemma increasing_days : increasing (days u).
Proof. apply increasing_fmap_add, increasing_seqZ. Qed.

Lemma locate_Ok d64 i :
  locate u d64 = Ok i ↔ i = d64 - start64 u ∧ 0 ≤ i < len u.
Proof.
  unfold locate.
  destruct (Z.ltb_spec (d64 - start64 u) 0), (Z.leb_spec (len u) (d64 - start64 u));
    simpl; split; try (intros [= <-]; lia); try (intros [-> ?]; done || lia).
Qed.

Lemma locate_inside d64 :
  start64 u ≤ d64 ≤ end64 u → locate u d64 = Ok (d64 - start64 u).
Proof.
  intros Hd. apply locate_Ok. split; [done|].
  rewrite len_n_days. unfold n_days. lia.
Qed.

Lemma locate_raises d64 :
  ¬ (start64 u ≤ d64 ≤ end64 u) → locate u d64 = Raise (ValueError (OutsideUniverse d64)).
Proof.
  intros Hd. unfold locate. rewrite len_n_days. unfold n_days.
  destruct (Z.ltb_spec (d64 - start64 u) 0); [done|].
  destruct (Z.leb_spec (Z.max 0 (end64 u - start64 u + 1)) (d64 - start64 u)); [done|lia].
Qed.

Lemma take_idx_days idx :
  Forall (λ k, 0 ≤ k < len u) idx →
  Numpy.take_idx (days u) idx = Ok ((λ k, start64 u + k) <$> idx).
Proof.
  intros H. apply take_idx_Ok. apply Forall2_fmap_r, Forall_Forall2_diag.
  eapply Forall_impl; [done|]. intros k Hk. by apply days_item.
Qed.
End universe_facts.

(** ** Day counts *)

(** C7. [days_between] on [D, D] in calendar mode is 1 with both ends
    included and 0 with none; whenever [days_between] returns, the count is
    not negative. *)
Theorem days_between_single_day_and_sign (c : Calendar) (D : Z) :
  self_start_date c ≤ D ≤ self_end_date c →
  days_between c (Some D) (Some D) (Passed "calendar"%string) (Passed "both"%string) = Ok 1 ∧
  days_between c (Some D) (Some D) (Passed "calendar"%string) (Passed "none"%string) = Ok 0 ∧
  ∀ start_date end_date type inclusive cnt,
    days_between c start_date end_date type inclusive = Ok cnt → 0 ≤ cnt.
Proof.
  intros HD. unfold days_between. simpl.
  rewrite (locate_inside _ D) by done. simpl.
  rewrite Z.ltb_irrefl. simpl. split_and!.
  - f_equal. lia.
  - f_equal. lia.
  - intros s e ty inc cnt H.
    inv_Ok H. inv_Ok H. destruct (_ <? _); [done|].
    inv_Ok H. repeat case_match; simplify_eq; lia.
Qed.

Lemma days_between_single_day_and_sign_witness :
  days_between january_2026 (Some 20455) (Some 20455)
    (Passed "calendar"%string) (Passed "both"%string) = Ok 1 ∧
  days_between january_2026 (Some 20455) (Some 20455)
    (Passed "calendar"%string) (Passed "none"%string) = Ok 0 ∧
  ∀ start_date end_date type inclusive cnt,
    days_between january_2026 start_date end_date type inclusive = Ok cnt → 0 ≤ cnt.
Proof.
  apply (days_between_single_day_and_sign january_2026 20455).
  unfold self_start_date, self_end_date. simpl. lia.
Defined.

(** ** Offsetting *)

(** Offsetting a date of the universe by zero business days returns
    that date, business day or not. *)
Lemma offset_business_days_zero_out64 (c : Calendar) (D : Z) :
  self_start_date c ≤ D ≤ self_end_date c →
  offset_return_day c D 0 = Ok D.
Proof.
  intros HD. unfold offset_return_day.
  destruct (Z.ltb_spec D (self_start_date c)); [lia|].
  destruct (Z.ltb_spec (self_end_date c) D); [lia|]. simpl.
  by rewrite locate_inside.
Qed.

(** ** Consequences of the calendar invariant *)

Section wf_facts.
Variable c : Calendar.
Hypothesis Hwf : calendar_wf c.

Lemma business_position_increasing : increasing (business_position c).
Proof. destruct Hwf as [_ ->]. apply increasing_flatnonzero. Qed.

Lemma business_position_range :
  Forall (λ k, 0 ≤ k < len (universe c)) (business_position c).
Proof. destruct Hwf as [<- ->]. apply flatnonzero_range. Qed.

Lemma elem_of_business_position k :
  k ∈ business_position c ↔ 0 ≤ k ∧ business_mask c !! Z.to_nat k = Some true.
Proof. destruct Hwf as [_ ->]. apply elem_of_flatnonzero. Qed.
End wf_facts.

(** ** Construction and override establish the invariant *)

Lemma mapM_Ok {A B} (f : A → result B) (l : list A) (k : list B) :
  mapM f l = Ok k → Forall2 (λ x y, f x = Ok y) l k.
Proof.
  revert k. induction l as [|x l IH]; intros k H.
  - injection H as <-. constructor.
  - change (mapM f (x :: l)) with (y ← f x; k ← mapM f l; mret (y :: k)) in H.
    apply bind_Ok_inv in H as (y & Hy & H).
    apply bind_Ok_inv in H as (k' & Hk' & [= <-]).
    constructor; [done|by apply IH].
Qed.

Lemma build_mask_length (ext : ExternalSources) (b : MaskBuilder) (u : DateUniverse)
    (mask : list bool) :
  build_mask ext b u = Ok mask → length mask = length (days u).
Proof.
  unfold build_mask, mask_per_day, weekday. intros H.
  destruct b as [|x|q|cc].
  - injection H as <-. by rewrite !length_fmap.
  - apply bind_Ok_inv in H as (schedule & _ & H).
    apply bind_Ok_inv in H as (sess64 & _ & [= <-]). by rewrite length_fmap.
  - by apply mapM_Ok, Forall2_length in H.
  - destruct (country_working_day ext (upper cc)); [|done].
    by apply mapM_Ok, Forall2_length in H.
Qed.

Lemma reduce_length (op : bool → bool → bool) (masks : list (list bool)) (n : nat) :
  masks ≠ [] → Forall (λ m, length m = n) masks →
  length (Numpy.reduce op masks) = n.
Proof.
  destruct masks as [|m ms]; [done|]. intros _ [Hm Hms]%Forall_cons. simpl.
  revert m Hm. induction Hms as [|m' ms Hm' _ IH]; intros m Hm; simpl; [done|].
  apply IH. rewrite length_zip_with. lia.
Qed.

Lemma create_mask_length (ext : ExternalSources) (codes : code_arg) (mode : string)
    (u : DateUniverse) (mask : list bool) :
  _create_mask ext codes mode u = Ok mask → length mask = length (days u).
Proof.
  unfold _create_mask. intros H.
  set (cs := match codes with OneCode c => [c] | ManyCodes cs => cs end) in *.
  destruct (Z.eqb_spec (Numpy.size cs) 0) as [?|Hne]; [done|].
  apply bind_Ok_inv in H as (masks & Hmasks%mapM_Ok & H).
  assert (masks ≠ [] ∧ Forall (λ m, length m = length (days u)) masks) as [??].
  { split.
    - intros ->. apply Forall2_nil_inv_r in Hmasks. by rewrite Hmasks in Hne.
    - eapply Forall2_Forall_r; [exact Hmasks|]. apply Forall_true.
      intros code m Hm. destruct (CALENDAR_CODES !! code) as [[cls pc]|]; [|done].
      apply bind_Ok_inv in Hm as (b & _ & Hm). by eapply build_mask_length. }
  repeat case_match; simplify_eq; by apply reduce_length.
Qed.

Lemma Calendar_init_wf (ext : ExternalSources) (codes : code_arg) (start_date end_date : Z)
    (mode date_type : kwarg string)
    (day_first : kwarg bool) (str_sep : kwarg string) (c : Calendar) :
  Calendar_init ext codes start_date end_date mode date_type day_first str_sep = Ok c →
  calendar_wf c.
Proof.
  unfold Calendar_init. intros H.
  apply bind_Ok_inv in H as (mask & Hmask%create_mask_length & [= <-]).
  split; [|done]. unfold len, Numpy.size. simpl. by rewrite Hmask.
Qed.

Lemma for_each_insert_length (u : DateUniverse) (b : bool) (ds : list Z) (m m' : list bool) :
  for_each (λ m d, i ← locate u d; Ok (<[Z.to_nat i := b]> m)) m ds = Ok m' →
  length m' = length m.
Proof.
  revert m. induction ds as [|d ds IH]; intros m H; simpl in H.
  - by injection H as <-.
  - apply bind_Ok_inv in H as (m1 & Hm1 & H).
    apply bind_Ok_inv in Hm1 as (i & _ & [= <-]).
    apply IH in H. by rewrite length_insert in H.
Qed.

Lemma override_wf (c c' : Calendar) (new_business_days new_non_business_days : option (list Z)) :
  calendar_wf c →
  override c new_business_days new_non_business_days = Ok c' →
  calendar_wf c' ∧ universe c' = universe c.
Proof.
  intros [Hlen _]. unfold override. intros H.
  apply bind_Ok_inv in H as (m1 & Hm1 & H).
  apply bind_Ok_inv in H as (m2 & Hm2 & [= <-]).
  split; [|done]. split; [|done]. simpl.
  assert (length m1 = Z.to_nat (len (universe c))) as Hl1.
  { destruct new_business_days.
    - apply for_each_insert_length in Hm1. unfold Numpy.zeros in Hm1.
      by rewrite length_replicate in Hm1.
    - injection Hm1 as <-. unfold Numpy.zeros. by rewrite length_replicate. }
  assert (length m2 = length m1) as Hl2.
  { destruct new_non_business_days.
    - by apply for_each_insert_length in Hm2.
    - by injection Hm2 as <-. }
  unfold Numpy.where_true, Numpy.size in *. rewrite length_zip_with. lia.
Qed.

Lemma range_indices_inside (c : Calendar) (start_date end_date : option Z) :
  let s := default (self_start_date c) start_date in
  let e := default (self_end_date c) end_date in
  self_start_date c ≤ s → s ≤ e → e ≤ self_end_date c →
  _range_indices c start_date end_date
  = Ok (s - self_start_date c, e - self_start_date c).
Proof.
  intros s e Hs Hse He. unfold _range_indices, self_start_date, self_end_date in *.
  fold s e. rewrite !locate_inside by lia. simpl.
  destruct (Z.ltb_spec (e - start64 (universe c)) (s - start64 (universe c))); [lia|done].
Qed.

Lemma range_indices_Ok (c : Calendar) (start_date end_date : option Z) i0 i1 :
  _range_indices c start_date end_date = Ok (i0, i1) →
  0 ≤ i0 ∧ i0 ≤ i1 ∧ i1 < len (universe c).
Proof.
  unfold _range_indices. intros H.
  inv_Ok H. inv_Ok H. apply locate_Ok in Ha, Ha0.
  destruct (Z.ltb_spec a0 a); simplify_eq. lia.
Qed.

(** ** Range queries *)


Lemma january_2026_wf : calendar_wf january_2026.
Proof. split; reflexivity. Qed.

Lemma january_2026_addressable : addressable january_2026.
Proof. unfold addressable. vm_compute. discriminate. Qed.

(** ** Override *)

Lemma where_true_idempotent (cond a : list bool) :
  Numpy.where_true cond (Numpy.where_true cond a) = Numpy.where_true cond a.
Proof.
  unfold Numpy.where_true. revert a.
  induction cond as [|o cond IH]; intros [|b a]; simpl; try done.
  rewrite IH. by destruct o.
Qed.

(** C9. Applying the same override a second time succeeds and leaves the
    calendar, mask and positions alike, as the first application left it. *)
Theorem override_idempotent (c c' : Calendar)
    (new_business_days new_non_business_days : option (list Z)) :
  override c new_business_days new_non_business_days = Ok c' →
  override c' new_business_days new_non_business_days = Ok c'.
Proof.
  unfold override. intros H.
  inv_Ok H. inv_Ok H. injection H as <-. simpl.
  rewrite Ha. simpl. rewrite Ha0. simpl.
  by rewrite where_true_idempotent.
Qed.

Lemma override_idempotent_witness :
  ∃ c',
    override january_2026 (Some [20456; 20457]) (Some [20457; 20470]) = Ok c' ∧
    business_mask c' ≠ business_mask january_2026 ∧
    override c' (Some [20456; 20457]) (Some [20457; 20470]) = Ok c'.
Proof.
  eexists. split; [reflexivity|]. split; [discriminate|].
  apply (override_idempotent january_2026). reflexivity.
Defined.

(** [override] with only non-business dates computes an all-false override
    mask, so [np.where] hands back the old mask. *)
Lemma where_true_zeros (n : nat) (a : list bool) :
  length a = n → Numpy.where_true (replicate n false) a = a.
Proof.
  unfold Numpy.where_true. revert a.
  induction n as [|n IH]; intros [|b a] Ha; simpl in *; try done.
  rewrite IH by lia. done.
Qed.

Lemma for_each_clear_zeros (u : DateUniverse) (ds : list Z) (n : nat) m :
  for_each (λ m d, i ← locate u d; Ok (<[Z.to_nat i := false]> m))
    (replicate n false) ds = Ok m →
  m = replicate n false.
Proof.
  revert m. induction ds as [|d ds IH]; intros m; simpl.
  - by intros [= <-].
  - intros H. inv_Ok H. inv_Ok Ha. injection Ha as <-.
    rewrite insert_replicate in H. by apply IH.
Qed.

Lemma override_non_business_only (c c' : Calendar) (ds : list Z) :
  calendar_wf c →
  override c None (Some ds) = Ok c' →
  business_mask c' = business_mask c.
Proof.
  intros [Hlen _]. unfold override. simpl. intros H.
  inv_Ok H. injection H as <-. simpl.
  apply for_each_clear_zeros in Ha as ->.
  apply where_true_zeros. unfold Numpy.size in Hlen. lia.
Qed.

(** The business half of [override] does work: a date listed in
    [new_business_days] alone is a business day afterwards. *)
Lemma for_each_set_true (u : DateUniverse) (ds : list Z) (m m' : list bool) :
  for_each (λ m d, i ← locate u d; Ok (<[Z.to_nat i := true]> m)) m ds = Ok m' →
  (∀ j, m !! j = Some true → m' !! j = Some true) ∧
  (∀ d, d ∈ ds → length m = Z.to_nat (len u) →
        locate u d = Ok (d - start64 u) ∧ m' !! Z.to_nat (d - start64 u) = Some true).
Proof.
  revert m. induction ds as [|d ds IH]; intros m H; simpl in H.
  - injection H as <-. split; [done|]. by intros d ?%elem_of_nil.
  - apply bind_Ok_inv in H as (m1 & Hm1 & H).
    apply bind_Ok_inv in Hm1 as (i & Hi & [= <-]).
    destruct (IH _ H) as [Hkeep Hset]. split.
    + intros j Hj. apply Hkeep.
      destruct (decide (Z.to_nat i = j)) as [<-|?].
      * apply list_lookup_insert_eq. by eapply lookup_lt_Some.
      * by rewrite list_lookup_insert_ne.
    + intros d' [->|Hd']%elem_of_cons Hlen.
      * pose proof Hi as [-> Hr]%locate_Ok. split; [done|].
        apply Hkeep, list_lookup_insert_eq. lia.
      * apply Hset; [done|]. by rewrite length_insert.
Qed.

Lemma override_listed_business_day (c c' : Calendar) (ds : list Z) (D : Z) :
  calendar_wf c → D ∈ ds →
  override c (Some ds) None = Ok c' →
  is_business c' D = Ok true.
Proof.
  intros [Hlen _] HD. unfold override. intros H.
  apply bind_Ok_inv in H as (m1 & Hm1 & H). simpl in H. injection H as <-.
  apply for_each_set_true in Hm1 as [_ Hset].
  destruct (Hset D HD) as [Hloc Hm1].
  { unfold Numpy.zeros. by rewrite length_replicate. }
  unfold is_business. simpl. rewrite Hloc. simpl.
  pose proof Hloc as [_ Hr]%locate_Ok.
  apply item_lookup; [lia|]. unfold Numpy.where_true.
  destruct (business_mask c !! Z.to_nat (D - start64 (universe c))) as [b|] eqn:Hb.
  - apply lookup_zip_with_Some. by exists true, b.
  - apply lookup_ge_None in Hb. unfold Numpy.size in Hlen. lia.
Qed.

(** C1, at the failing input: 2026-01-02 (day 20455) is a business day of
    the weekend-only calendar of January 2026; after
    [override(None, [2026-01-02])] it still is. *)
Theorem override_non_business_day_has_no_effect :
  is_business january_2026 20455 = Ok true ∧
  ∃ c', override january_2026 None (Some [20455]) = Ok c' ∧
        is_business c' 20455 = Ok true.
Proof. split; [reflexivity|]. eexists. split; reflexivity. Qed.

(** ** Index arithmetic in int64 *)

Lemma add_int64_exact (a k : Z) :
  - 2 ^ 63 ≤ a + k < 2 ^ 63 → Numpy.add_int64 a k = a + k.
Proof.
  intros H. unfold Numpy.add_int64, Numpy.wrap_signed.
  change (2 ^ (64 - 1)) with (2 ^ 63).
  rewrite Z.mod_small by lia. lia.
Qed.

Lemma add_int64_wrapped (a k : Z) :
  2 ^ 63 ≤ a + k < 2 ^ 64 → Numpy.add_int64 a k = a + k - 2 ^ 64.
Proof.
  intros H. unfold Numpy.add_int64, Numpy.wrap_signed.
  change (2 ^ (64 - 1)) with (2 ^ 63).
  rewrite <-(Z.mod_add _ (-1)) by lia.
  rewrite Z.mod_small by lia. lia.
Qed.



Lemma flatnonzero_from_length (mask : list bool) (i : Z) :
  (length (Numpy.flatnonzero_from i mask) ≤ length mask)%nat.
Proof.
  revert i. induction mask as [|b mask IH]; intros i; simpl; [lia|].
  specialize (IH (i + 1)). destruct b; simpl; lia.
Qed.

Lemma size_business_position (c : Calendar) :
  calendar_wf c → addressable c → Numpy.size (business_position c) ≤ 2 ^ 62.
Proof.
  intros [Hlen ->] Hmem. unfold addressable in Hmem. rewrite <-Hlen in Hmem.
  pose proof (flatnonzero_from_length (business_mask c) 0).
  unfold Numpy.size, Numpy.flatnonzero in *. lia.
Qed.

(** ** Offsetting there and back *)

Section round_trip.
Variable c : Calendar.
Hypothesis Hwf : calendar_wf c.
Hypothesis Hmem : addressable c.

Let start := start64 (universe c).

Lemma business_position_date (p : nat) (i : Z) :
  business_position c !! p = Some i →
  0 ≤ i < len (universe c) ∧
  self_start_date c ≤ start + i ≤ self_end_date c ∧
  locate (universe c) (start + i) = Ok i ∧
  Numpy.item (days (universe c)) i = Ok (start + i).
Proof.
  intros Hp. pose proof (business_position_range c Hwf) as Hr.
  rewrite Forall_forall in Hr. apply list_elem_of_lookup_2, Hr in Hp.
  pose proof (len_n_days (universe c)).
  assert (self_start_date c ≤ start + i ≤ self_end_date c)
    by (unfold n_days, self_start_date, self_end_date, start in *; lia).
  split_and!; try lia.
  - rewrite locate_inside by done. f_equal. unfold start. lia.
  - by apply days_item.
Qed.


End round_trip.


(** ** Order of the returned dates *)

Lemma take_idx_increasing (a idx r : list Z) :
  increasing a → increasing idx → Forall (λ k, 0 ≤ k) idx →
  Numpy.take_idx a idx = Ok r → increasing r.
Proof.
  intros Ha Hidx Hpos H. apply take_idx_Ok in H.
  induction H as [|k x idx r Hk Hrest IH]; [constructor|].
  apply StronglySorted_cons in Hidx as [Hlt Hidx].
  apply Forall_cons in Hpos as [Hk0 Hpos].
  apply StronglySorted_cons. split; [|by apply IH].
  apply Forall_forall. intros y Hy.
  apply list_elem_of_lookup_1 in Hy as [j Hj].
  destruct (Forall2_lookup_r _ _ _ _ _ Hrest Hj) as (k' & Hk' & Hitem).
  apply list_elem_of_lookup_2 in Hk'.
  rewrite Forall_forall in Hlt, Hpos.
  pose proof (Hlt _ Hk'). pose proof (Hpos _ Hk').
  apply item_Ok_lookup in Hk, Hitem; try lia.
  eapply (increasing_lookup a (Z.to_nat k) (Z.to_nat k')); eauto. lia.
Qed.


Section select_in_groups.
Variables pos key : list Z.
Hypothesis Hkey : length key = length pos.
Hypothesis Hsize : Numpy.size pos ≤ 2 ^ 62.
Hypothesis Hpos : increasing pos.
Hypothesis Hnonempty : Numpy.size pos ≠ 0.

Let changes : list bool :=
  zip_with (λ a b, negb (a =? b)) (drop 1 key) (take (length key - 1)%nat key).
Let start_idx : list Z := Numpy.flatnonzero (true :: changes).







End select_in_groups.


Section sorted_results.
Variable c : Calendar.
Hypothesis Hwf : calendar_wf c.
Hypothesis Hmem : addressable c.





Lemma days_increasing (pos r : list Z) :
  increasing pos → Forall (λ k, 0 ≤ k < len (universe c)) pos →
  Numpy.take_idx (days (universe c)) pos = Ok r → increasing r.
Proof.
  intros Hinc Hrange H.
  eapply (take_idx_increasing (days (universe c))); [apply increasing_days|done| |done].
  eapply Forall_impl; [done|]. simpl. lia.
Qed.
End sorted_results.


(** ** Calendar-code lookup *)

Lemma registered_codes_normalized :
  map_Forall (λ code _, spec_normalize code = code) CALENDAR_CODES.
Proof.
  intros code entry Hcode. unfold CALENDAR_CODES in Hcode.
  apply elem_of_list_to_map_2 in Hcode.
  assert (Forall (λ kv, spec_normalize kv.1 = kv.1) calendar_code_entries) as Hall
    by (repeat constructor).
  rewrite Forall_forall in Hall. exact (Hall _ Hcode).
Qed.

Lemma unnormalized_code_unknown (code : string) :
  spec_normalize code ≠ code → CALENDAR_CODES !! code = None.
Proof.
  intros Hne. destruct (CALENDAR_CODES !! code) as [entry|] eqn:E; [|done].
  by apply registered_codes_normalized in E.
Qed.

(** C3, as the code has it.  The lookup of [_create_mask] is the exact
    dictionary lookup: an identifier that is not already upper-case and free
    of surrounding whitespace is no key of the registry, and construction
    fails on it as an unknown code. *)
Theorem calendar_code_lookup_is_exact (ext : ExternalSources) (code : string)
    (start_date end_date : Z) (mode date_type : kwarg string)
    (day_first : kwarg bool) (str_sep : kwarg string) :
  spec_normalize code ≠ code →
  Calendar_init ext (OneCode code) start_date end_date mode date_type day_first str_sep
  = Raise (ValueError (UnknownCalendarCode code)).
Proof.
  intros Hne%unnormalized_code_unknown.
  unfold Calendar_init, _create_mask.
  change (Numpy.size [code] =? 0) with false. cbv iota.
  change (mapM ?f [code]) with (y ← f code; k ← mapM f []; mret (y :: k)).
  cbv beta. by rewrite Hne.
Qed.

Lemma calendar_code_lookup_is_exact_witness :
  spec_normalize " FR " = "FR"%string ∧
  Calendar_init no_sources (OneCode " FR ") 20454 20484 Omitted Omitted Omitted Omitted
  = Raise (ValueError (UnknownCalendarCode " FR ")).
Proof.
  split; [reflexivity|].
  apply (calendar_code_lookup_is_exact no_sources " FR " 20454 20484 Omitted).
  vm_compute. discriminate.
Defined.

(** C3, as stated, fails: "default" and " FR " normalize to the registered
    identifiers "DEFAULT" and "FR", which resolve, yet they do not resolve
    to the same pair: construction rejects them. *)
Lemma calendar_code_lookup_not_normalized :
  ¬ (∀ code variant : string,
       is_Some (CALENDAR_CODES !! code) → spec_normalize variant = code →
       CALENDAR_CODES !! variant = CALENDAR_CODES !! code) ∧
  CALENDAR_CODES !! "DEFAULT"%string = Some ("weekend"%string, None) ∧
  CALENDAR_CODES !! "FR"%string = Some ("country"%string, Some "FR"%string) ∧
  is_ok (Calendar_init no_sources (OneCode "DEFAULT") 20454 20484
           Omitted Omitted Omitted Omitted) = true ∧
  Calendar_init no_sources (OneCode "default") 20454 20484 Omitted Omitted Omitted Omitted
  = Raise (ValueError (UnknownCalendarCode "default")) ∧
  Calendar_init no_sources (OneCode " FR ") 20454 20484 Omitted Omitted Omitted Omitted
  = Raise (ValueError (UnknownCalendarCode " FR ")).
Proof.
  split; [|split_and!; by vm_compute].
  intros H.
  assert (CALENDAR_CODES !! "default"%string = CALENDAR_CODES !! "DEFAULT"%string) as Heq
    by (apply H; [eexists; vm_compute; reflexivity|vm_compute; reflexivity]).
  vm_compute in Heq. discriminate.
Qed.

(** ** Validation of the schedule arguments *)

Lemma raises_Raise {A} (e : exn) : raises (@Raise A e).
Proof. by exists e. Qed.

Lemma raises_bind {A B} (r : result A) (f : A → result B) :
  (∀ a, r = Ok a → raises (f a)) → raises (r ≫= f).
Proof. destruct r as [a|e]; [by intros H; apply H|intros _; apply raises_Raise]. Qed.

Lemma range_indices_defaults (c : Calendar) (start_date end_date : option Z) :
  _range_indices c (Some (default (self_start_date c) start_date))
                   (Some (default (self_end_date c) end_date))
  = _range_indices c start_date end_date.
Proof. by destruct start_date, end_date. Qed.

Lemma period_key_unrecognized (c : Calendar) (frequency : string) (pos : list Z) :
  recognized_frequency frequency = false →
  period_key c frequency pos = Raise (ValueError BadFrequency).
Proof.
  unfold recognized_frequency, period_key. intros H. Zbool.
  repeat match goal with H : frequency_is _ _ _ _ _ = false |- _ => rewrite H; clear H end.
  done.
Qed.

Lemma select_in_groups_invalid (pos key : list Z) (which : which_arg) :
  Numpy.size pos ≠ 0 → valid_which which = false →
  _select_in_groups pos key which = Raise (ValueError BadWhich).
Proof.
  intros Hne Hw. unfold _select_in_groups.
  destruct (Z.eqb_spec (Numpy.size pos) 0) as [?|_]; [done|].
  destruct which as [s|n]; simpl in *.
  - apply orb_false_iff in Hw as [[-> ->]%orb_false_iff ->]. done.
  - by rewrite Hw.
Qed.

Lemma size_zero_nil {A} (a : list A) : Numpy.size a = 0 → a = [].
Proof. by destruct a. Qed.

(** With an unrecognized frequency or an
    unrecognized [which], [schedule_business_out64] fails unless the range holds
    no business day, and [schedule_calendar_out64] fails unless [which] is "all"
    or the range holds no day of the requested weekday. *)
Lemma schedule_arguments_validated_out64 (c : Calendar) (frequency : string)
    (which : which_arg) (start_date end_date : option Z) :
  recognized_frequency frequency = false ∨ valid_which which = false →
  (business_days_out64 c start_date end_date ≠ Ok [] →
   raises (schedule_business_out64 c frequency (Passed which) start_date end_date)) ∧
  (∀ week_day,
     which_is which "all" = false →
     schedule_calendar_out64 c frequency week_day (Passed (WStr "all")) start_date end_date
       ≠ Ok [] →
     raises (schedule_calendar_out64 c frequency week_day (Passed which) start_date end_date)).
Proof.
  intros Hbad.
  assert (∀ pos, Numpy.size pos ≠ 0 →
            raises (key ← period_key c frequency pos; _select_in_groups pos key which))
    as Hsel.
  { intros pos Hne. destruct Hbad as [Hf|Hw].
    - rewrite period_key_unrecognized by done. apply raises_Raise.
    - apply raises_bind. intros key _.
      rewrite select_in_groups_invalid by done. apply raises_Raise. }
  split.
  - unfold business_days_out64, schedule_business_out64. rewrite range_indices_defaults.
    destruct (_range_indices c start_date end_date) as [[i0 i1]|e];
      [|intros _; apply raises_Raise].
    cbn [mbind result_bind or_default].
    set (pos := Numpy.slice _ _ _).
    destruct (Z.eqb_spec (Numpy.size pos) 0) as [->%size_zero_nil|Hne]; [done|].
    intros _. specialize (Hsel pos Hne).
    destruct Hsel as [e He]. exists e.
    destruct (period_key c frequency pos) as [key|]; simpl in *; [|done].
    by rewrite He.
  - intros week_day Hall. unfold schedule_calendar_out64.
    destruct (_range_indices c start_date end_date) as [[i0 i1]|e];
      [|intros _; apply raises_Raise].
    cbn [mbind result_bind or_default].
    destruct (match or_default (Some 1) week_day with
              | Some wd => _
              | None => _
              end) as [pos|e]; [|intros _; apply raises_Raise].
    cbn [mbind result_bind].
    destruct (Z.eqb_spec (Numpy.size pos) 0) as [->%size_zero_nil|Hne]; [done|].
    intros _. rewrite Hall. cbn [negb].
    specialize (Hsel pos Hne). destruct Hsel as [e He]. exists e.
    unfold mbind, result_bind in *. by rewrite He.
Qed.

(** ** The weekday filter of [schedule_calendar_out64] *)

Lemma select_in_groups_subseteq (pos key : list Z) (which : which_arg) (r : list Z) :
  _select_in_groups pos key which = Ok r → r ⊆ pos.
Proof.
  unfold _select_in_groups. intros H.
  repeat case_match; simplify_eq; try done; by eapply take_idx_subseteq.
Qed.

Lemma take_idx_elem_of {A} (a : list A) (idx : list Z) (r : list A) (x : A) :
  Numpy.take_idx a idx = Ok r → x ∈ r → ∃ k, k ∈ idx ∧ Numpy.item a k = Ok x.
Proof.
  rewrite take_idx_Ok. intros H [j Hj]%list_elem_of_lookup_1.
  destruct (Forall2_lookup_r _ _ _ _ _ H Hj) as (k & Hk & Hitem).
  exists k. split; [by eapply list_elem_of_lookup_2|done].
Qed.

Lemma compress_elem_of {A B} (R : A → B → Prop) (f : B → bool)
    (a : list A) (b : list B) (x : A) :
  Forall2 R a b → x ∈ Numpy.compress (f <$> b) a → ∃ y, R x y ∧ f y = true.
Proof.
  induction 1 as [|x' y' a b Hxy _ IH]; simpl; [by intros ?%elem_of_nil|].
  destruct (f y') eqn:Hf.
  - intros [->|Hx]%elem_of_cons; [eauto|by apply IH].
  - apply IH.
Qed.

Lemma weekday_item (u : DateUniverse) (k wd d : Z) :
  0 ≤ k → Numpy.item (weekday u) k = Ok wd → Numpy.item (days u) k = Ok d →
  wd = weekday_number d.
Proof.
  intros Hk Hwd%item_Ok_lookup Hd%item_Ok_lookup; try done.
  unfold weekday in Hwd. rewrite list_lookup_fmap, Hd in Hwd. simpl in Hwd.
  injection Hwd as <-. unfold Numpy.to_uint8, weekday_number.
  pose proof (Z.mod_pos_bound (d + 3) 7). rewrite Z.mod_small; lia.
Qed.

(** Passing [week_day=None] skips the weekday
    filter: selection runs over every calendar day of the range, and with
    [which="all"] every day of the range is returned.  Omitting [week_day]
    takes the default 1: every returned date is a Monday. *)
Lemma schedule_calendar_week_day_none_and_default_out64
    (c : Calendar) (frequency : string) (start_date end_date : option Z) :
  let s := default (self_start_date c) start_date in
  let e := default (self_end_date c) end_date in
  self_start_date c ≤ s → s ≤ e → e ≤ self_end_date c →
  schedule_calendar_out64 c frequency (Passed None) (Passed (WStr "all")) start_date end_date
    = Ok (seqZ s (e - s + 1)) ∧
  (∀ which,
     which_is which "all" = false →
     schedule_calendar_out64 c frequency (Passed None) (Passed which) start_date end_date
     = (let pos := Numpy.arange (s - self_start_date c) (e - self_start_date c + 1) in
        key ← period_key c frequency pos;
        sel ← _select_in_groups pos key which;
        Numpy.take_idx (days (universe c)) sel)) ∧
  (∀ which r,
     schedule_calendar_out64 c frequency Omitted which start_date end_date = Ok r →
     ∀ d, d ∈ r → weekday_number d = 1).
Proof.
  intros s e Hs Hse He.
  pose proof (range_indices_inside c start_date end_date Hs Hse He) as Hrange.
  fold s e in Hrange.
  set (i0 := s - self_start_date c) in *. set (i1 := e - self_start_date c) in *.
  assert ((Numpy.size (Numpy.arange i0 (i1 + 1)) =? 0) = false) as Hne.
  { apply Z.eqb_neq. unfold Numpy.size, Numpy.arange. rewrite length_seqZ.
    unfold i0, i1. lia. }
  split_and!.
  - unfold schedule_calendar_out64. rewrite Hrange. cbn [mbind result_bind or_default].
    rewrite Hne. cbn [which_is negb]. change (String.eqb "all" "all") with true.
    cbn [negb mbind result_bind].
    rewrite take_idx_days.
    + f_equal. unfold Numpy.arange. rewrite (fmap_add_seqZ (start64 (universe c))).
      f_equal; unfold i0, i1, self_start_date; lia.
    + apply Forall_forall. intros k Hk%elem_of_seqZ.
      pose proof (len_n_days (universe c)).
      unfold i0, i1, n_days, self_start_date, self_end_date in *. lia.
  - intros which Hall. unfold schedule_calendar_out64. rewrite Hrange.
    cbn [mbind result_bind or_default]. rewrite Hne, Hall. cbn [negb].
    unfold mbind, result_bind.
    by destruct (period_key c frequency (Numpy.arange i0 (i1 + 1))).
  - clear Hrange Hne. intros which r H d Hd. unfold schedule_calendar_out64 in H.
    cbn [or_default] in H. inv_Ok H. destruct a as [j0 j1].
    apply range_indices_Ok in Ha as (Hj0 & _ & _).
    apply bind_Ok_inv in H as (pos & Hpos & H).
    apply bind_Ok_inv in Hpos as (wds & Hwds%take_idx_Ok & [= <-]).
    destruct (_ =? 0); [injection H as <-; by apply elem_of_nil in Hd|].
    apply bind_Ok_inv in H as (sel & Hsel & H).
    assert (sel ⊆ Numpy.compress ((λ w, w =? 1) <$> wds) (Numpy.arange j0 (j1 + 1))) as Hsub.
    { destruct (negb _).
      - apply bind_Ok_inv in Hsel as (key & _ & Hsel).
        by eapply select_in_groups_subseteq.
      - by injection Hsel as <-. }
    destruct (take_idx_elem_of _ _ _ _ H Hd) as (k & Hk%Hsub & Hday).
    pose proof (elem_of_sublist _ _ _ Hk (compress_sublist _ _)) as Hk0%elem_of_seqZ.
    destruct (compress_elem_of _ _ _ _ _ Hwds Hk) as (wd & Hwd & ->%Z.eqb_eq).
    symmetry. eapply weekday_item; [|done..]. lia.
Qed.

(** * Further properties of the code *)

(** ** The date universe *)

Lemma days_lookup_Some (u : DateUniverse) (i : nat) (d : Z) :
  days u !! i = Some d ↔ d = start64 u + Z.of_nat i ∧ Z.of_nat i < len u.
Proof.
  split.
  - intros H. pose proof (lookup_lt_Some _ _ _ H) as Hlt.
    assert (Z.of_nat i < len u) as Hi by (unfold len, Numpy.size; lia).
    rewrite days_lookup in H by done. split; [congruence|done].
  - intros [-> Hi]. by apply days_lookup.
Qed.

(** X1. [locate] returns the index [i] with [days[i] == d64], and raises
    exactly for the dates that are no entry of [days]. *)
Theorem locate_is_index_of_days (u : DateUniverse) (d64 : Z) :
  (∀ i, locate u d64 = Ok i ↔ 0 ≤ i ∧ days u !! Z.to_nat i = Some d64) ∧
  (locate u d64 = Raise (ValueError (OutsideUniverse d64)) ↔ d64 ∉ days u).
Proof.
  split.
  - intros i. rewrite locate_Ok, days_lookup_Some. split.
    + intros [-> Hi]. split_and!; lia.
    + intros (Hi & -> & Hlt). split; lia.
  - split.
    + intros H [i Hi]%list_elem_of_lookup_1.
      apply days_lookup_Some in Hi as [-> Hi].
      assert (locate u (start64 u + Z.of_nat i) = Ok (Z.of_nat i)) as Hok
        by (apply locate_Ok; lia).
      congruence.
    + intros Hnot. apply locate_raises. intros Hin. apply Hnot.
      apply (list_elem_of_lookup_2 _ (Z.to_nat (d64 - start64 u))).
      apply days_lookup_Some. pose proof (len_n_days u). unfold n_days in *.
      split; lia.
Qed.

Lemma weekday_number_range (d : Z) : 1 ≤ weekday_number d ≤ 7.
Proof. unfold weekday_number. pose proof (Z.mod_pos_bound (d + 3) 7). lia. Qed.

Lemma weekday_lookup (u : DateUniverse) (i : nat) (wd : Z) :
  weekday u !! i = Some wd ↔
  wd = weekday_number (start64 u + Z.of_nat i) ∧ Z.of_nat i < len u.
Proof.
  unfold weekday. rewrite list_lookup_fmap.
  pose proof (weekday_number_range (start64 u + Z.of_nat i)) as Hr.
  assert (Numpy.to_uint8 (weekday_number (start64 u + Z.of_nat i))
          = weekday_number (start64 u + Z.of_nat i)) as Hcast
    by (unfold Numpy.to_uint8; rewrite Z.mod_small; lia).
  split.
  - destruct (days u !! i) as [d|] eqn:Hd; [|done].
    apply days_lookup_Some in Hd as [-> Hi]. simpl. intros [= <-].
    split; [|done]. exact Hcast.
  - intros [-> Hi]. rewrite days_lookup by done. simpl. f_equal. exact Hcast.
Qed.

(** X2. Every entry of the [weekday] array lies between 1 and 7, and the
    entry of the following day is the next weekday, 7 being followed by 1. *)
Theorem weekday_cycles_through_the_week (u : DateUniverse) (i : nat) (wd : Z) :
  weekday u !! i = Some wd →
  1 ≤ wd ≤ 7 ∧
  ∀ wd', weekday u !! S i = Some wd' → wd' = wd `mod` 7 + 1.
Proof.
  intros [-> Hi]%weekday_lookup. split; [apply weekday_number_range|].
  intros wd' [-> _]%weekday_lookup. unfold weekday_number.
  replace (start64 u + Z.of_nat (S i) + 3) with (start64 u + Z.of_nat i + 3 + 1) by lia.
  set (x := start64 u + Z.of_nat i + 3).
  pose proof (Z.mod_pos_bound x 7 ltac:(lia)) as Hx.
  rewrite (Z.add_mod x 1 7) by lia.
  destruct (decide (x `mod` 7 = 6)) as [H6|H6].
  - rewrite H6. reflexivity.
  - rewrite (Z.mod_small (x `mod` 7 + 1 `mod` 7)) by (change (1 `mod` 7) with 1; lia).
    rewrite (Z.mod_small (x `mod` 7 + 1)) by lia. reflexivity.
Qed.

Lemma weekday_cycles_through_the_week_witness :
  weekday (universe january_2026) !! 3%nat = Some 7 ∧
  1 ≤ 7 ≤ 7 ∧
  ∀ wd', weekday (universe january_2026) !! 4%nat = Some wd' → wd' = 7 `mod` 7 + 1.
Proof.
  split; [reflexivity|].
  apply (weekday_cycles_through_the_week (universe january_2026) 3 7). reflexivity.
Defined.

(** ** Construction *)

Lemma mapM_singleton {A B} (f : A → result B) (x : A) :
  mapM f [x] = (y ← f x; Ok [y]).
Proof.
  change (mapM f [x]) with (y ← f x; k ← mapM f []; mret (y :: k)).
  by destruct (f x).
Qed.

Lemma create_mask_unfold (ext : ExternalSources) (codes : code_arg) (mode : string)
    (u : DateUniverse) :
  _create_mask ext codes mode u
  = let cs := match codes with OneCode c => [c] | ManyCodes cs => cs end in
    if Numpy.size cs =? 0 then Raise (ValueError NoCalendarCode)
    else
      masks ← mapM (mask_of_code ext u) cs;
      if String.eqb mode "union" then Ok (Numpy.reduce orb masks)
      else if String.eqb mode "intersection" then Ok (Numpy.reduce andb masks)
      else Raise (ValueError (UnknownMode mode)).
Proof. reflexivity. Qed.

Lemma default_code_mask (ext : ExternalSources) (u : DateUniverse) :
  mask_of_code ext u "DEFAULT"
  = Ok ((λ wd, negb (wd =? 6) && negb (wd =? 7)) <$> weekday u).
Proof.
  unfold mask_of_code.
  replace (CALENDAR_CODES !! "DEFAULT"%string) with (Some ("weekend"%string, @None string))
    by (vm_compute; reflexivity).
  reflexivity.
Qed.

Lemma Calendar_init_default (ext : ExternalSources) (start_date end_date : Z)
    (mode date_type : kwarg string)
    (day_first : kwarg bool) (str_sep : kwarg string) (c : Calendar) :
  Calendar_init ext (OneCode "DEFAULT") start_date end_date
    mode date_type day_first str_sep = Ok c →
  universe c = {| start64 := start_date; end64 := end_date |} ∧
  business_mask c = (λ wd, negb (wd =? 6) && negb (wd =? 7)) <$> weekday (universe c).
Proof.
  unfold Calendar_init. rewrite create_mask_unfold. cbv zeta.
  rewrite mapM_singleton, default_code_mask. cbn [mbind result_bind Numpy.reduce foldl].
  change (Numpy.size ["DEFAULT"%string] =? 0) with false. cbv iota.
  intros H. apply bind_Ok_inv in H as (mask & Hmask & [= <-]). simpl.
  split; [done|]. repeat case_match; simplify_eq; done.
Qed.

Lemma weekend_flag (d : Z) :
  negb (weekday_number d =? 6) && negb (weekday_number d =? 7) = (weekday_number d <=? 5).
Proof.
  pose proof (weekday_number_range d).
  destruct (Z.eqb_spec (weekday_number d) 6), (Z.eqb_spec (weekday_number d) 7),
    (Z.leb_spec (weekday_number d) 5); simpl; lia || done.
Qed.

Lemma weekday_item_inside (u : DateUniverse) (d : Z) :
  start64 u ≤ d ≤ end64 u →
  Numpy.item (weekday u) (d - start64 u) = Ok (weekday_number d).
Proof.
  intros Hd. apply item_lookup; [lia|]. apply weekday_lookup.
  pose proof (len_n_days u). unfold n_days in *. split; [f_equal|]; lia.
Qed.

(** X3. In the weekend-only calendar ("DEFAULT") a date of the universe is
    a business day exactly when its weekday is Monday to Friday, and no date
    is a holiday. *)
Theorem default_calendar_business_days_are_weekdays (ext : ExternalSources)
    (start_date end_date : Z) (mode date_type : kwarg string)
    (day_first : kwarg bool) (str_sep : kwarg string) (c : Calendar) (d : Z) :
  Calendar_init ext (OneCode "DEFAULT") start_date end_date
    mode date_type day_first str_sep = Ok c →
  start_date ≤ d ≤ end_date →
  is_business c d = Ok (weekday_number d <=? 5) ∧
  is_weekend c d = Ok (6 <=? weekday_number d) ∧
  is_holiday c d = Ok false.
Proof.
  intros [Hu Hmask]%Calendar_init_default Hd.
  assert (start64 (universe c) ≤ d ≤ end64 (universe c)) as Hd' by (by rewrite Hu).
  assert (is_business c d = Ok (weekday_number d <=? 5)) as Hb.
  { unfold is_business. rewrite locate_inside by done. cbn [mbind result_bind].
    apply item_lookup; [lia|]. rewrite Hmask, list_lookup_fmap.
    pose proof (weekday_item_inside _ _ Hd') as Hw%item_Ok_lookup; [|lia].
    rewrite Hw. simpl. by rewrite weekend_flag. }
  assert (is_weekend c d = Ok (6 <=? weekday_number d)) as Hw.
  { unfold is_weekend. rewrite locate_inside by done. cbn [mbind result_bind].
    by rewrite weekday_item_inside. }
  split_and!; [done..|].
  unfold is_holiday, is_non_business. rewrite Hb, Hw. simpl.
  destruct (Z.leb_spec (weekday_number d) 5), (Z.leb_spec 6 (weekday_number d));
    simpl; (done || lia).
Qed.

Lemma default_calendar_business_days_are_weekdays_witness :
  is_business january_2026 20456 = Ok (weekday_number 20456 <=? 5) ∧
  is_weekend january_2026 20456 = Ok (6 <=? weekday_number 20456) ∧
  is_holiday january_2026 20456 = Ok false.
Proof.
  apply (default_calendar_business_days_are_weekdays no_sources 20454 20484
           Omitted Omitted Omitted Omitted);
    [by vm_compute|lia].
Defined.

(** The constructor accepts an end date before the start date: the
    universe is then empty, the calendar has no business position, and every
    query on a date raises the out-of-universe error. *)
Lemma reversed_bounds_give_an_empty_calendar_out64 (ext : ExternalSources)
    (start_date end_date : Z) (date_type : kwarg string) (day_first : kwarg bool)
    (str_sep : kwarg string) :
  end_date < start_date →
  ∃ c, Calendar_init ext (OneCode "DEFAULT") start_date end_date
         Omitted date_type day_first str_sep = Ok c ∧
       Calendar_len c = 0 ∧ business_position c = [] ∧
       (∀ d, is_business c d = Raise (ValueError (OutsideUniverse d))) ∧
       (∀ d n, offset_return_day c d n = Raise (ValueError (OutsideCalendarRange d))) ∧
       business_days_out64 c None None = Raise (ValueError (OutsideUniverse start_date)).
Proof.
  intros Hrev.
  destruct (Calendar_init ext (OneCode "DEFAULT") start_date end_date
              Omitted date_type day_first str_sep) as [c|e] eqn:Hc.
  2:{ exfalso. revert Hc. unfold Calendar_init. rewrite create_mask_unfold. cbv zeta.
      rewrite mapM_singleton, default_code_mask. done. }
  exists c. split; [done|].
  pose proof Hc as [Hu Hmask]%Calendar_init_default.
  pose proof Hc as [_ Hpos]%Calendar_init_wf.
  assert (len (universe c) = 0) as Hlen.
  { rewrite len_n_days. unfold n_days. rewrite Hu. simpl. lia. }
  assert (∀ d, locate (universe c) d = Raise (ValueError (OutsideUniverse d))) as Hloc.
  { intros d. apply locate_raises. rewrite Hu. simpl. lia. }
  split_and!.
  - done.
  - rewrite Hpos, Hmask. unfold weekday, days, Numpy.arange.
    rewrite seqZ_nil; [done|]. unfold n_days. rewrite Hu. simpl. lia.
  - intros d. unfold is_business. by rewrite Hloc.
  - intros d n. unfold offset_return_day, self_start_date, self_end_date.
    rewrite Hu. simpl.
    destruct (Z.ltb_spec d start_date), (Z.ltb_spec end_date d); simpl; (done || lia).
  - unfold business_days_out64, _range_indices. simpl.
    rewrite (Hloc (self_start_date c)). simpl.
    unfold self_start_date. by rewrite Hu.
Qed.

(** ** Point queries *)

Lemma locate_outside (c : Calendar) (d : Z) :
  ¬ inside c d → locate (universe c) d = Raise (ValueError (OutsideUniverse d)).
Proof. apply locate_raises. Qed.

Lemma is_business_inside (c : Calendar) (d : Z) :
  calendar_wf c → inside c d →
  ∃ b, business_mask c !! Z.to_nat (d - self_start_date c) = Some b ∧
       is_business c d = Ok b.
Proof.
  intros [Hlen _] Hd. unfold is_business, inside, self_start_date, self_end_date in *.
  rewrite locate_inside by done. cbn [mbind result_bind].
  pose proof (len_n_days (universe c)). unfold n_days, Numpy.size in *.
  destruct (business_mask c !! Z.to_nat (d - start64 (universe c))) as [b|] eqn:Hb.
  - exists b. split; [done|]. apply item_lookup; [lia|done].
  - apply lookup_ge_None in Hb. lia.
Qed.

Lemma is_business_true_iff (c : Calendar) (d : Z) :
  calendar_wf c →
  is_business c d = Ok true ↔
  inside c d ∧ (d - self_start_date c) ∈ business_position c.
Proof.
  intros Hwf. rewrite elem_of_business_position by done. split.
  - intros H. unfold is_business in H. inv_Ok H.
    apply locate_Ok in Ha as [-> Hi].
    apply item_Ok_lookup in H; [|lia].
    pose proof (len_n_days (universe c)).
    unfold inside, self_start_date, self_end_date, n_days in *.
    split_and!; try lia. done.
  - intros [Hd [_ Hm]].
    destruct (is_business_inside c d Hwf Hd) as (b & Hb & ->). congruence.
Qed.

(** X5. On a date of the universe the point queries agree with one
    another: [is_non_business] negates [is_business], [is_weekend] holds on
    weekdays 6 and 7, [is_holiday] holds exactly on non-business days that
    fall Monday to Friday, and [week_day] is the weekday number.  On any
    other date each of them raises the out-of-universe error. *)
Theorem point_queries_agree (c : Calendar) (d : Z) :
  calendar_wf c →
  (inside c d →
   ∃ b, is_business c d = Ok b ∧
        is_non_business c d = Ok (negb b) ∧
        is_weekend c d = Ok (6 <=? weekday_number d) ∧
        is_weekday c d = Ok (weekday_number d <=? 5) ∧
        is_holiday c d = Ok (negb b && (weekday_number d <=? 5)) ∧
        week_day c d = Ok (weekday_number d)) ∧
  (¬ inside c d →
   let e := ValueError (OutsideUniverse d) in
   is_business c d = Raise e ∧ is_non_business c d = Raise e ∧
   is_weekend c d = Raise e ∧ is_weekday c d = Raise e ∧
   is_holiday c d = Raise e ∧ week_day c d = Raise e).
Proof.
  intros Hwf. split.
  - intros Hd. destruct (is_business_inside c d Hwf Hd) as (b & _ & Hb).
    exists b.
    assert (is_weekend c d = Ok (6 <=? weekday_number d)) as Hw.
    { unfold is_weekend. rewrite locate_inside by done. cbn [mbind result_bind].
      by rewrite weekday_item_inside. }
    assert (negb (6 <=? weekday_number d) = (weekday_number d <=? 5)) as Hneg.
    { destruct (Z.leb_spec 6 (weekday_number d)), (Z.leb_spec (weekday_number d) 5);
        simpl; (done || lia). }
    unfold is_non_business, is_weekday, is_holiday, is_non_business, week_day.
    rewrite Hb, Hw. split_and!; try done.
    + simpl. by rewrite Hneg.
    + simpl. destruct b; simpl; [done|by rewrite Hneg].
    + rewrite locate_inside by done. cbn [mbind result_bind].
      by apply weekday_item_inside.
  - intros Hd e. pose proof (locate_outside c d Hd) as Hloc.
    unfold is_holiday, is_non_business, is_weekday, is_weekend, is_business, week_day.
    rewrite Hloc. done.
Qed.

Lemma point_queries_agree_witness :
  (inside january_2026 20454 →
   ∃ b, is_business january_2026 20454 = Ok b ∧
        is_non_business january_2026 20454 = Ok (negb b) ∧
        is_weekend january_2026 20454 = Ok (6 <=? weekday_number 20454) ∧
        is_weekday january_2026 20454 = Ok (weekday_number 20454 <=? 5) ∧
        is_holiday january_2026 20454 = Ok (negb b && (weekday_number 20454 <=? 5)) ∧
        week_day january_2026 20454 = Ok (weekday_number 20454)) ∧
  (¬ inside january_2026 20454 →
   let e := ValueError (OutsideUniverse 20454) in
   is_business january_2026 20454 = Raise e ∧ is_non_business january_2026 20454 = Raise e ∧
   is_weekend january_2026 20454 = Raise e ∧ is_weekday january_2026 20454 = Raise e ∧
   is_holiday january_2026 20454 = Raise e ∧ week_day january_2026 20454 = Raise e).
Proof. apply (point_queries_agree january_2026 20454), january_2026_wf. Defined.

(** ** Range queries and point queries *)

Lemma range_indices_Ok_inv (c : Calendar) (start_date end_date : option Z) (i0 i1 : Z) :
  _range_indices c start_date end_date = Ok (i0, i1) →
  let s := default (self_start_date c) start_date in
  let e := default (self_end_date c) end_date in
  i0 = s - self_start_date c ∧ i1 = e - self_start_date c ∧
  inside c s ∧ inside c e ∧ s ≤ e.
Proof.
  unfold _range_indices, inside, self_start_date, self_end_date. intros H.
  inv_Ok H. inv_Ok H. apply locate_Ok in Ha as [-> Hs], Ha0 as [-> He].
  destruct (_ <? _) eqn:Hlt in H; simplify_eq. apply Z.ltb_ge in Hlt.
  pose proof (len_n_days (universe c)). unfold n_days in *. split_and!; lia.
Qed.

Lemma business_days_elem_of (c : Calendar) (start_date end_date : option Z) (l : list Z) :
  calendar_wf c →
  business_days_out64 c start_date end_date = Ok l →
  ∀ d, d ∈ l ↔
       default (self_start_date c) start_date ≤ d ≤ default (self_end_date c) end_date ∧
       is_business c d = Ok true.
Proof.
  intros Hwf H d. unfold business_days_out64 in H. inv_Ok H. destruct a as [i0 i1].
  apply range_indices_Ok_inv in Ha as (-> & -> & Hs & He & Hse). simpl in *.
  set (s := default (self_start_date c) start_date) in *.
  set (e := default (self_end_date c) end_date) in *.
  rewrite slice_searchsorted in H by by apply business_position_increasing.
  rewrite take_idx_days in H.
  2:{ pose proof (business_position_range c Hwf) as Hr.
      rewrite Forall_forall in Hr |- *. intros k [_ Hk]%list_elem_of_filter. by apply Hr. }
  injection H as <-. rewrite list_elem_of_fmap, is_business_true_iff by done.
  unfold inside, self_start_date, self_end_date in *. split.
  - intros (k & -> & [Hk Hbus]%list_elem_of_filter).
    replace (start64 (universe c) + k - start64 (universe c)) with k by lia.
    split_and!; (done || lia).
  - intros (Hd & _ & Hbus). exists (d - start64 (universe c)).
    split; [lia|]. apply list_elem_of_filter. split; [lia|done].
Qed.

Lemma non_business_days_elem_of (c : Calendar) (start_date end_date : option Z)
    (l : list Z) :
  calendar_wf c →
  non_business_days_out64 c start_date end_date = Ok l →
  ∀ d, d ∈ l ↔
       default (self_start_date c) start_date ≤ d ≤ default (self_end_date c) end_date ∧
       is_business c d = Ok false.
Proof.
  intros Hwf H d. unfold non_business_days_out64 in H. inv_Ok H. destruct a as [i0 i1].
  apply range_indices_Ok_inv in Ha as (-> & -> & Hs & He & Hse). simpl in *.
  set (s := default (self_start_date c) start_date) in *.
  set (e := default (self_end_date c) end_date) in *.
  unfold Numpy.isin_invert in H. rewrite compress_by in H.
  rewrite take_idx_days in H.
  2:{ apply Forall_forall. intros k [_ Hk%elem_of_seqZ]%list_elem_of_filter.
      pose proof (len_n_days (universe c)).
      unfold inside, self_start_date, self_end_date, n_days in *. lia. }
  injection H as <-. rewrite list_elem_of_fmap.
  assert (∀ x, inside c x →
            (is_business c x = Ok false ↔ (x - self_start_date c) ∉ business_position c))
    as Hfalse.
  { intros x Hx. destruct (is_business_inside c x Hwf Hx) as (b & _ & Hb).
    pose proof (is_business_true_iff c x Hwf) as Htrue. rewrite Hb in *.
    destruct b; split; try done.
    - intros Hnot. exfalso. apply Hnot, Htrue. done.
    - intros _ Hin. by assert (Ok false = Ok true) by (apply Htrue; done). }
  unfold inside, self_start_date, self_end_date in *. split.
  - intros (k & -> & [Hk Hr%elem_of_seqZ]%list_elem_of_filter).
    apply negb_true_iff, bool_decide_eq_false in Hk.
    split; [lia|]. apply Hfalse; [lia|].
    by replace (start64 (universe c) + k - start64 (universe c)) with k by lia.
  - intros (Hd & Hbus). exists (d - start64 (universe c)). split; [lia|].
    apply list_elem_of_filter. split.
    + apply negb_true_iff, bool_decide_eq_false. apply Hfalse; [lia|done].
    + apply elem_of_seqZ. lia.
Qed.

Lemma business_days_is_ok (c : Calendar) (start_date end_date : option Z) :
  calendar_wf c →
  let s := default (self_start_date c) start_date in
  let e := default (self_end_date c) end_date in
  is_ok (business_days_out64 c start_date end_date) = true ↔ inside c s ∧ inside c e ∧ s ≤ e.
Proof.
  intros Hwf s e. split.
  - destruct (business_days_out64 c start_date end_date) as [l|] eqn:H; [intros _|done].
    unfold business_days_out64 in H. inv_Ok H. destruct a as [i0 i1].
    apply range_indices_Ok_inv in Ha as (_ & _ & Hs & He & Hse). done.
  - intros (Hs & He & Hse). unfold business_days_out64. fold s e.
    rewrite (range_indices_inside c (Some s) (Some e)); [|apply Hs|done|apply He].
    cbn [mbind result_bind default].
    rewrite slice_searchsorted by by apply business_position_increasing.
    rewrite take_idx_days; [done|].
    pose proof (business_position_range c Hwf) as Hr.
    rewrite Forall_forall in Hr |- *. intros k [_ Hk]%list_elem_of_filter. by apply Hr.
Qed.

(** [business_days_out64] returns exactly the dates of the range on which
    [is_business] is true, [non_business_days_out64] exactly those on which it is
    false; [business_days_out64] returns precisely when both bounds lie in the
    universe and the start does not follow the end. *)
Lemma range_queries_match_point_queries_out64 (c : Calendar)
    (start_date end_date : option Z) :
  calendar_wf c →
  let s := default (self_start_date c) start_date in
  let e := default (self_end_date c) end_date in
  (∀ l, business_days_out64 c start_date end_date = Ok l →
        ∀ d, d ∈ l ↔ s ≤ d ≤ e ∧ is_business c d = Ok true) ∧
  (∀ l, non_business_days_out64 c start_date end_date = Ok l →
        ∀ d, d ∈ l ↔ s ≤ d ≤ e ∧ is_business c d = Ok false) ∧
  (is_ok (business_days_out64 c start_date end_date) = true ↔
   inside c s ∧ inside c e ∧ s ≤ e).
Proof.
  intros Hwf s e. split_and!.
  - intros l Hl. by apply business_days_elem_of.
  - intros l Hl. by apply non_business_days_elem_of.
  - by apply business_days_is_ok.
Qed.

(** ** What [override] does *)

(** One pass of [override]: the dates must all be located, and the entries
    at their indices are overwritten with [b]. *)
Lemma for_each_pass (u : DateUniverse) (b : bool) (ds : list Z) (m m' : list bool) :
  for_each (λ m d, i ← locate u d; Ok (<[Z.to_nat i := b]> m)) m ds = Ok m' →
  Forall (λ d, start64 u ≤ d ≤ end64 u) ds ∧
  length m' = length m ∧
  ∀ (j : nat) x, m !! j = Some x →
    m' !! j = Some (if bool_decide ((start64 u + Z.of_nat j) ∈ ds) then b else x).
Proof.
  revert m. induction ds as [|d ds IH]; intros m H; simpl in H.
  - injection H as <-. split_and!; [constructor|done|].
    intros j x Hj. rewrite bool_decide_eq_false_2; [done|]. apply not_elem_of_nil.
  - apply bind_Ok_inv in H as (m1 & Hm1 & H).
    apply bind_Ok_inv in Hm1 as (i & Hi & [= <-]).
    apply locate_Ok in Hi as [-> Hi].
    destruct (IH _ H) as (Hall & Hlen & Hget). split_and!.
    + constructor; [|done]. pose proof (len_n_days u). unfold n_days in *. lia.
    + by rewrite Hlen, length_insert.
    + intros j x Hj.
      destruct (decide (Z.to_nat (d - start64 u) = j)) as [<-|Hne].
      * rewrite (Hget _ b) by (apply list_lookup_insert_eq; by eapply lookup_lt_Some).
        f_equal. rewrite (bool_decide_eq_true_2 (_ ∈ d :: ds)); [by case_bool_decide|].
        apply elem_of_cons. left. lia.
      * rewrite (Hget _ x) by (by rewrite list_lookup_insert_ne).
        f_equal.
        assert ((start64 u + Z.of_nat j) ∈ d :: ds ↔ (start64 u + Z.of_nat j) ∈ ds) as Hiff.
        { rewrite elem_of_cons. split; [|by right].
          intros [Heq|?]; [|done]. exfalso. apply Hne. lia. }
        repeat case_bool_decide; tauto.
Qed.

Lemma for_each_pass_Ok (u : DateUniverse) (b : bool) (ds : list Z) (m : list bool) :
  Forall (λ d, start64 u ≤ d ≤ end64 u) ds →
  ∃ m', for_each (λ m d, i ← locate u d; Ok (<[Z.to_nat i := b]> m)) m ds = Ok m'.
Proof.
  intros H. revert m. induction H as [|d ds Hd _ IH]; intros m; simpl; [eauto|].
  rewrite locate_inside by done. cbn [mbind result_bind]. apply IH.
Qed.

Lemma for_each_pass_Raise (u : DateUniverse) (b : bool) (ds : list Z) (m : list bool) e :
  for_each (λ m d, i ← locate u d; Ok (<[Z.to_nat i := b]> m)) m ds = Raise e →
  ∃ d, d ∈ ds ∧ ¬ (start64 u ≤ d ≤ end64 u) ∧ e = ValueError (OutsideUniverse d).
Proof.
  revert m. induction ds as [|d ds IH]; intros m H; simpl in H; [done|].
  destruct (decide (start64 u ≤ d ≤ end64 u)) as [Hd|Hd].
  - rewrite locate_inside in H by done. cbn [mbind result_bind] in H.
    destruct (IH _ H) as (d' & ? & ? & ?). exists d'. split_and!; try done.
    by apply elem_of_cons; right.
  - rewrite locate_raises in H by done. injection H as <-.
    exists d. split_and!; try done. by apply elem_of_cons; left.
Qed.

Lemma override_pass (u : DateUniverse) (b : bool) (dates : option (list Z))
    (m m' : list bool) :
  match dates with
  | Some ds => for_each (λ m d, i ← locate u d; Ok (<[Z.to_nat i := b]> m)) m ds
  | None => Ok m
  end = Ok m' →
  Forall (λ d, start64 u ≤ d ≤ end64 u) (default [] dates) ∧
  length m' = length m ∧
  ∀ (j : nat) x, m !! j = Some x →
    m' !! j = Some (if bool_decide ((start64 u + Z.of_nat j) ∈ default [] dates)
                    then b else x).
Proof.
  destruct dates as [ds|]; simpl; [apply for_each_pass|].
  intros [= <-]. split_and!; [constructor|done|done].
Qed.

Lemma override_mask_lookup (c c' : Calendar)
    (new_business_days new_non_business_days : option (list Z)) (D : Z) (b : bool) :
  override c new_business_days new_non_business_days = Ok c' →
  inside c D →
  business_mask c !! Z.to_nat (D - self_start_date c) = Some b →
  business_mask c' !! Z.to_nat (D - self_start_date c)
  = Some (b || (bool_decide (D ∈ default [] new_business_days)
                && negb (bool_decide (D ∈ default [] new_non_business_days)))).
Proof.
  unfold override, inside, self_start_date, self_end_date. intros H HD Hb.
  apply bind_Ok_inv in H as (m1 & Hm1 & H).
  apply bind_Ok_inv in H as (m2 & Hm2 & [= <-]). simpl.
  apply override_pass in Hm1 as (_ & Hl1 & Hget1).
  apply override_pass in Hm2 as (_ & Hl2 & Hget2).
  set (j := Z.to_nat (D - start64 (universe c))) in *.
  assert (start64 (universe c) + Z.of_nat j = D) as Hj by (unfold j; lia).
  assert (Numpy.zeros (len (universe c)) !! j = Some false) as Hz.
  { unfold Numpy.zeros. apply lookup_replicate_2.
    pose proof (len_n_days (universe c)). unfold n_days, j in *. lia. }
  specialize (Hget1 _ _ Hz). specialize (Hget2 _ _ Hget1). rewrite Hj in *.
  unfold Numpy.where_true. rewrite lookup_zip_with, Hget2, Hb. simpl. f_equal.
  by repeat case_bool_decide; destruct b.
Qed.

(** X7. The effect of [override] on a date of the universe: afterwards it
    is a business day exactly when it was one before, or it is listed in
    [new_business_days] and not in [new_non_business_days].  A date listed in
    both keeps its previous status. *)
Theorem override_effect_on_a_date (c c' : Calendar)
    (new_business_days new_non_business_days : option (list Z)) (D : Z) :
  calendar_wf c →
  override c new_business_days new_non_business_days = Ok c' →
  inside c D →
  ∃ b, is_business c D = Ok b ∧
       is_business c' D
       = Ok (b || (bool_decide (D ∈ default [] new_business_days)
                   && negb (bool_decide (D ∈ default [] new_non_business_days)))).
Proof.
  intros Hwf Hov HD.
  destruct (override_wf _ _ _ _ Hwf Hov) as [Hwf' Hu].
  destruct (is_business_inside c D Hwf HD) as (b & Hb & His).
  exists b. split; [done|].
  assert (inside c' D) as HD' by (unfold inside, self_start_date, self_end_date in *; by rewrite Hu).
  destruct (is_business_inside c' D Hwf' HD') as (b' & Hb' & ->).
  pose proof (override_mask_lookup _ _ _ _ D b Hov HD Hb) as Hnew.
  unfold self_start_date in *. rewrite Hu in Hb'. congruence.
Qed.

Lemma override_effect_on_a_date_witness :
  ∃ c', override january_2026 (Some [20456; 20457]) (Some [20457; 20455]) = Ok c' ∧
        is_business january_2026 20457 = Ok false ∧ is_business c' 20457 = Ok false ∧
        is_business c' 20456 = Ok true ∧
        ∃ b, is_business january_2026 20456 = Ok b ∧
             is_business c' 20456
             = Ok (b || (bool_decide (20456 ∈ default [] (Some [20456; 20457]))
                         && negb (bool_decide (20456 ∈ default [] (Some [20457; 20455]))))).
Proof.
  eexists. split; [reflexivity|]. split_and!; [reflexivity..|].
  apply (override_effect_on_a_date january_2026 _ (Some [20456; 20457]) (Some [20457; 20455]));
    [apply january_2026_wf|reflexivity|].
  unfold inside, self_start_date, self_end_date. simpl. lia.
Defined.

(** [override] never takes a business day away: every date
    [business_days_out64] returned before the call is returned after it. *)
Lemma override_keeps_business_days_out64 (c c' : Calendar)
    (new_business_days new_non_business_days : option (list Z))
    (sd ed : option Z) (l : list Z) :
  calendar_wf c →
  override c new_business_days new_non_business_days = Ok c' →
  business_days_out64 c sd ed = Ok l →
  ∃ l', business_days_out64 c' sd ed = Ok l' ∧ l ⊆ l'.
Proof.
  intros Hwf Hov Hl.
  destruct (override_wf _ _ _ _ Hwf Hov) as [Hwf' Hu].
  assert (self_start_date c' = self_start_date c ∧ self_end_date c' = self_end_date c)
    as [Hs He] by (unfold self_start_date, self_end_date; by rewrite Hu).
  assert (is_ok (business_days_out64 c sd ed) = true) as Hok by (by rewrite Hl).
  apply business_days_is_ok in Hok as (Hin1 & Hin2 & Hse); [|done].
  destruct (business_days_out64 c' sd ed) as [l'|e] eqn:Hl'.
  2:{ assert (is_ok (business_days_out64 c' sd ed) = true) as Hok'; [|by rewrite Hl' in Hok'].
      apply business_days_is_ok; [done|].
      unfold inside in *. rewrite Hs, He. done. }
  exists l'. split; [done|]. intros d Hd.
  apply (business_days_elem_of c sd ed l Hwf Hl) in Hd as [Hrange Hbus].
  apply (business_days_elem_of c' sd ed l' Hwf' Hl'). rewrite Hs, He. split; [done|].
  assert (inside c d) as Hind by (apply is_business_true_iff in Hbus as [? _]; done).
  destruct (is_business_inside c d Hwf Hind) as (b & Hb & Hisb).
  assert (b = true) as -> by congruence.
  assert (inside c' d) as Hind' by (unfold inside in *; by rewrite Hs, He).
  destruct (is_business_inside c' d Hwf' Hind') as (b' & Hb' & ->).
  pose proof (override_mask_lookup _ _ _ _ d true Hov Hind Hb) as Hnew.
  rewrite Hs in Hb'. simpl in Hnew. congruence.
Qed.

Lemma override_pass_Ok (u : DateUniverse) (b : bool) (dates : option (list Z))
    (m : list bool) :
  Forall (λ d, start64 u ≤ d ≤ end64 u) (default [] dates) →
  ∃ m', match dates with
        | Some ds => for_each (λ m d, i ← locate u d; Ok (<[Z.to_nat i := b]> m)) m ds
        | None => Ok m
        end = Ok m'.
Proof. destruct dates as [ds|]; simpl; [apply for_each_pass_Ok|eauto]. Qed.

(** X9. [override] succeeds when every listed date lies in the universe,
    whatever the dates' current status, and keeps the universe; when it
    fails, the error is the out-of-universe error of a listed date outside
    the universe. *)
Theorem override_fails_only_on_outside_dates (c : Calendar)
    (new_business_days new_non_business_days : option (list Z)) :
  let listed := default [] new_business_days ++ default [] new_non_business_days in
  (Forall (inside c) listed →
   ∃ c', override c new_business_days new_non_business_days = Ok c' ∧
         universe c' = universe c) ∧
  (∀ e, override c new_business_days new_non_business_days = Raise e →
        ∃ d, d ∈ listed ∧ ¬ inside c d ∧ e = ValueError (OutsideUniverse d)).
Proof.
  intros listed. unfold listed, inside, self_start_date, self_end_date. split.
  - intros [Hb Hn]%Forall_app. unfold override.
    destruct (override_pass_Ok (universe c) true new_business_days
                (Numpy.zeros (len (universe c))) Hb) as [m1 ->].
    cbn [mbind result_bind].
    destruct (override_pass_Ok (universe c) false new_non_business_days m1 Hn) as [m2 ->].
    cbn [mbind result_bind]. eauto.
  - intros e. unfold override.
    destruct new_business_days as [nb|]; simpl.
    + destruct (for_each _ _ nb) as [m1|e1] eqn:H1; simpl.
      * destruct new_non_business_days as [nnb|]; simpl; [|done].
        destruct (for_each _ m1 nnb) as [m2|e2] eqn:H2; simpl; [done|].
        intros [= <-]. apply for_each_pass_Raise in H2 as (d & ? & ? & ?).
        exists d. split_and!; try done. apply elem_of_app. by right.
      * intros [= <-]. apply for_each_pass_Raise in H1 as (d & ? & ? & ?).
        exists d. split_and!; try done. apply elem_of_app. by left.
    + destruct new_non_business_days as [nnb|]; simpl; [|done].
      destruct (for_each _ _ nnb) as [m2|e2] eqn:H2; simpl; [done|].
      intros [= <-]. apply for_each_pass_Raise in H2 as (d & ? & ? & ?).
      exists d. split_and!; done.
Qed.

Lemma override_fails_only_on_outside_dates_witness :
  (∃ c', override january_2026 (Some [20454]) (Some [20460]) = Ok c' ∧
         universe c' = universe january_2026) ∧
  ∃ d, d ∈ [20454] ++ [20490] ∧ ¬ inside january_2026 d ∧
       ValueError (OutsideUniverse 20490) = ValueError (OutsideUniverse d).
Proof.
  split.
  - apply (override_fails_only_on_outside_dates january_2026 (Some [20454]) (Some [20460])).
    unfold inside, self_start_date, self_end_date. simpl.
    repeat constructor; lia.
  - apply (override_fails_only_on_outside_dates january_2026 (Some [20454]) (Some [20490])).
    reflexivity.
Defined.

(** ** The invariant of the calendars a program can hold *)

Lemma constructed_wf (ext : ExternalSources) (c : Calendar) :
  constructed ext c → calendar_wf c.
Proof.
  induction 1 as [codes s e mode c Hc|c nb nnb c' _ IH Hov].
  - by eapply Calendar_init_wf.
  - by destruct (override_wf _ _ _ _ IH Hov).
Qed.

(** X10. For a calendar built by the constructor and overridden any number
    of times, the mask has one entry per day of the universe and
    [business_position] is the strictly increasing list of exactly the
    indices whose mask entry is true. *)
Theorem business_position_lists_the_business_days (ext : ExternalSources)
    (c : Calendar) :
  constructed ext c →
  Numpy.size (business_mask c) = Calendar_len c ∧
  increasing (business_position c) ∧
  ∀ k, k ∈ business_position c ↔ 0 ≤ k ∧ business_mask c !! Z.to_nat k = Some true.
Proof.
  intros Hwf%constructed_wf. split_and!.
  - by destruct Hwf.
  - by apply business_position_increasing.
  - intros k. by apply elem_of_business_position.
Qed.

Lemma business_position_lists_the_business_days_witness :
  ∃ c', override january_2026 (Some [20456]) None = Ok c' ∧
        Numpy.size (business_mask c') = Calendar_len c' ∧
        increasing (business_position c') ∧
        ∀ k, k ∈ business_position c' ↔ 0 ≤ k ∧ business_mask c' !! Z.to_nat k = Some true.
Proof.
  assert (∃ c', override january_2026 (Some [20456]) None = Ok c') as [c' Hc']
    by (eexists; reflexivity).
  exists c'. split; [done|].
  apply (business_position_lists_the_business_days no_sources c').
  eapply constructed_override; [|exact Hc'].
  eapply constructed_init. exact january_2026_constructed.
Defined.

(** ** More about [searchsorted] *)

Lemma searchsorted_cons (x : Z) (a : list Z) (v : Z) (s : Numpy.side) :
  Numpy.searchsorted (x :: a) v s
  = if decide (below s x v) then 1 + Numpy.searchsorted a v s else 0.
Proof.
  simpl. destruct s; simpl.
  - destruct (Z.ltb_spec x v); case_decide; (done || lia).
  - destruct (Z.leb_spec x v); case_decide; (done || lia).
Qed.

(** On an increasing array the entries before the insertion point are the
    ones below [v]. *)
Lemma searchsorted_split (a : list Z) (v : Z) (s : Numpy.side) (k : nat) (x : Z) :
  increasing a → a !! k = Some x →
  (Z.of_nat k < Numpy.searchsorted a v s ↔ below s x v).
Proof.
  intros Ha. revert k. induction Ha as [|y a Ha IH Hy]; intros k Hk; [done|].
  rewrite searchsorted_cons. pose proof (searchsorted_range a v s).
  destruct k as [|k]; simpl in Hk.
  - simplify_eq. case_decide; split; (done || lia).
  - specialize (IH _ Hk).
    assert (y < x) by (rewrite Forall_forall in Hy; apply Hy; by eapply list_elem_of_lookup_2).
    case_decide as Hb.
    + rewrite <-IH. lia.
    + split; [lia|]. intros Hx. exfalso. apply Hb. destruct s; simpl in *; lia.
Qed.

Lemma searchsorted_mono (a : list Z) (v w : Z) (s t : Numpy.side) :
  (∀ x, below s x v → below t x w) →
  Numpy.searchsorted a v s ≤ Numpy.searchsorted a w t.
Proof.
  intros Hvw. induction a as [|x a IH]; [done|].
  rewrite !searchsorted_cons. pose proof (searchsorted_range a w t).
  repeat case_decide; try lia. exfalso. eauto.
Qed.

(** The insertion point is the index whose entry is the first not below. *)
Lemma searchsorted_first_not_below (a : list Z) (v : Z) (s : Numpy.side) (p : nat) (x : Z) :
  increasing a → a !! p = Some x → ¬ below s x v →
  (∀ (j : nat) y, (j < p)%nat → a !! j = Some y → below s y v) →
  Numpy.searchsorted a v s = Z.of_nat p.
Proof.
  intros Ha Hp Hx Hbefore.
  pose proof (searchsorted_range a v s) as Hr.
  pose proof (searchsorted_split a v s p x Ha Hp) as Hsp.
  assert (¬ Z.of_nat p < Numpy.searchsorted a v s) as Hle by tauto.
  destruct (decide (Numpy.searchsorted a v s < Z.of_nat p)) as [Hlt|?]; [|lia].
  exfalso.
  destruct (a !! Z.to_nat (Numpy.searchsorted a v s)) as [y|] eqn:Hy.
  - pose proof (searchsorted_split a v s _ y Ha Hy) as Hsy.
    assert (below s y v) as Hy' by (eapply Hbefore; [|done]; lia).
    apply Hsy in Hy'. lia.
  - apply lookup_ge_None in Hy. apply lookup_lt_Some in Hp. lia.
Qed.

Lemma searchsorted_all_below (a : list Z) (v : Z) (s : Numpy.side) :
  Forall (λ x, below s x v) a → Numpy.searchsorted a v s = Numpy.size a.
Proof.
  unfold Numpy.size. induction 1 as [|x a Hx _ IH]; [done|].
  rewrite searchsorted_cons, decide_True by done. rewrite IH. simpl. lia.
Qed.

Lemma slice_length {A} (a : list A) (lo hi : Z) :
  0 ≤ lo ≤ hi → hi ≤ Numpy.size a →
  Z.of_nat (length (Numpy.slice a lo hi)) = hi - lo.
Proof.
  intros Hlo Hhi. unfold Numpy.slice, Numpy.size in *.
  rewrite length_take, length_drop. lia.
Qed.

(** ** Counting business days *)

Lemma days_between_business (c : Calendar) (start_date end_date : option Z)
    (inclusive : string) (inc_start inc_end : bool) :
  let s := default (self_start_date c) start_date in
  let e := default (self_end_date c) end_date in
  _inclusive_flags inclusive = Ok (inc_start, inc_end) →
  inside c s → inside c e → s ≤ e →
  days_between c start_date end_date (Passed "business"%string) (Passed inclusive)
  = Ok (Z.max (Numpy.searchsorted (business_position c) (e - self_start_date c)
                 (if inc_end then Numpy.Right else Numpy.Left)
               - Numpy.searchsorted (business_position c) (s - self_start_date c)
                   (if inc_start then Numpy.Left else Numpy.Right)) 0).
Proof.
  intros s e Hinc Hs He Hse. unfold days_between. cbn [or_default]. fold s e.
  unfold inside, self_start_date, self_end_date in *.
  rewrite !locate_inside by done. cbn [mbind result_bind].
  destruct (Z.ltb_spec (e - start64 (universe c)) (s - start64 (universe c))); [lia|].
  rewrite Hinc. cbn [mbind result_bind]. reflexivity.
Qed.

(** Counting business days with both ends included gives the length
    of the list [business_days_out64] returns for the same range. *)
Lemma days_between_counts_business_days_out64 (c : Calendar)
    (start_date end_date : option Z) (l : list Z) :
  calendar_wf c →
  business_days_out64 c start_date end_date = Ok l →
  days_between c start_date end_date (Passed "business"%string) (Passed "both"%string)
  = Ok (Z.of_nat (length l)).
Proof.
  intros Hwf Hl.
  assert (is_ok (business_days_out64 c start_date end_date) = true) as Hok by (by rewrite Hl).
  apply business_days_is_ok in Hok as (Hs & He & Hse); [|done].
  rewrite (days_between_business c start_date end_date "both" true true); try done.
  unfold business_days_out64 in Hl.
  rewrite (range_indices_inside c (Some _) (Some _)) in Hl; [|apply Hs|done|apply He].
  cbn [mbind result_bind default] in Hl.
  change (id (default (self_start_date c) start_date))
    with (default (self_start_date c) start_date) in Hl.
  change (id (default (self_end_date c) end_date))
    with (default (self_end_date c) end_date) in Hl.
  apply take_idx_length in Hl. rewrite Hl.
  set (i0 := default (self_start_date c) start_date - self_start_date c) in *.
  set (i1 := default (self_end_date c) end_date - self_start_date c) in *.
  pose proof (searchsorted_range (business_position c) i0 Numpy.Left).
  pose proof (searchsorted_range (business_position c) i1 Numpy.Right).
  assert (Numpy.searchsorted (business_position c) i0 Numpy.Left
          ≤ Numpy.searchsorted (business_position c) i1 Numpy.Right) as Hm.
  { apply searchsorted_mono. simpl. unfold i0, i1. lia. }
  rewrite slice_length by lia. f_equal. lia.
Qed.

(** X12. Business-day counts add up over adjacent ranges: for dates
    [s <= m <= e] of the universe, the count on [s, m) plus the count on
    [m, e] is the count on [s, e]. *)
Theorem business_day_counts_add_up (c : Calendar) (s m e : Z) :
  inside c s → inside c e → s ≤ m ≤ e →
  ∃ n1 n2 n,
    days_between c (Some s) (Some m) (Passed "business"%string) (Passed "left"%string) = Ok n1 ∧
    days_between c (Some m) (Some e) (Passed "business"%string) (Passed "both"%string) = Ok n2 ∧
    days_between c (Some s) (Some e) (Passed "business"%string) (Passed "both"%string) = Ok n ∧
    n1 + n2 = n.
Proof.
  intros Hs He Hm.
  assert (inside c m) as Hin by (unfold inside in *; lia).
  pose proof (days_between_business c (Some s) (Some m) "left" true false
                eq_refl Hs Hin (proj1 Hm)) as E1.
  pose proof (days_between_business c (Some m) (Some e) "both" true true
                eq_refl Hin He (proj2 Hm)) as E2.
  pose proof (days_between_business c (Some s) (Some e) "both" true true
                eq_refl Hs He ltac:(simpl; lia)) as E3.
  rewrite E1, E2, E3. cbv [default from_option id].
  eexists _, _, _. split_and!; try done.
  set (a := business_position c).
  assert (Numpy.searchsorted a (s - self_start_date c) Numpy.Left
          ≤ Numpy.searchsorted a (m - self_start_date c) Numpy.Left) as H1
    by (apply searchsorted_mono; simpl; lia).
  assert (Numpy.searchsorted a (m - self_start_date c) Numpy.Left
          ≤ Numpy.searchsorted a (e - self_start_date c) Numpy.Right) as H2
    by (apply searchsorted_mono; simpl; lia).
  lia.
Qed.

Lemma business_day_counts_add_up_witness :
  ∃ n1 n2 n,
    days_between january_2026 (Some 20455) (Some 20460)
      (Passed "business"%string) (Passed "left"%string) = Ok n1 ∧
    days_between january_2026 (Some 20460) (Some 20470)
      (Passed "business"%string) (Passed "both"%string) = Ok n2 ∧
    days_between january_2026 (Some 20455) (Some 20470)
      (Passed "business"%string) (Passed "both"%string) = Ok n ∧
    n1 + n2 = n.
Proof.
  apply (business_day_counts_add_up january_2026 20455 20460 20470);
    unfold inside, self_start_date, self_end_date; simpl; lia.
Defined.

Lemma increasing_NoDup (l : list Z) : increasing l → NoDup l.
Proof.
  induction 1 as [|x l _ IH Hx]; constructor; [|done].
  intros Hin. rewrite Forall_forall in Hx. apply Hx in Hin. lia.
Qed.

(** On a valid range the calendar-day count with both ends included
    is the number of business days plus the number of non-business days
    returned for that range. *)
Lemma calendar_days_split_into_business_and_non_business_out64 (c : Calendar)
    (start_date end_date : option Z) (bd nbd : list Z) :
  calendar_wf c →
  business_days_out64 c start_date end_date = Ok bd →
  non_business_days_out64 c start_date end_date = Ok nbd →
  days_between c start_date end_date (Passed "calendar"%string) (Passed "both"%string)
  = Ok (Z.of_nat (length bd) + Z.of_nat (length nbd)).
Proof.
  intros Hwf Hbd Hnbd.
  assert (is_ok (business_days_out64 c start_date end_date) = true) as Hok by (by rewrite Hbd).
  apply business_days_is_ok in Hok as (Hs & He & Hse); [|done].
  set (s := default (self_start_date c) start_date) in *.
  set (e := default (self_end_date c) end_date) in *.
  assert (NoDup bd ∧ NoDup nbd) as [Hnd1 Hnd2].
  { split; apply increasing_NoDup.
    - unfold business_days_out64 in Hbd. inv_Ok Hbd. destruct a as [i0 i1].
      rewrite slice_searchsorted in Hbd by by apply business_position_increasing.
      eapply days_increasing; [| |exact Hbd].
      + eapply increasing_sublist; [apply sublist_filter|by apply business_position_increasing].
      + pose proof (business_position_range c Hwf) as Hr.
        rewrite Forall_forall in Hr |- *. intros k [_ Hk]%list_elem_of_filter. by apply Hr.
    - unfold non_business_days_out64 in Hnbd. inv_Ok Hnbd. destruct a as [i0 i1].
      apply range_indices_Ok in Ha as (Hi0 & _ & Hi1).
      pose proof (compress_sublist
                    (Numpy.isin_invert (Numpy.arange i0 (i1 + 1)) (business_position c))
                    (Numpy.arange i0 (i1 + 1))) as Hsub.
      eapply days_increasing; [| |exact Hnbd].
      + eapply increasing_sublist; [done|apply increasing_seqZ].
      + apply Forall_forall. intros k Hk. eapply elem_of_sublist in Hk; [|done].
        apply elem_of_seqZ in Hk. lia. }
  assert (bd ++ nbd ≡ₚ seqZ s (e - s + 1)) as Hperm.
  { apply NoDup_Permutation.
    - apply NoDup_app. split_and!; try done. intros d Hd1 Hd2.
      apply (business_days_elem_of c start_date end_date bd Hwf Hbd) in Hd1 as [_ H1].
      apply (non_business_days_elem_of c start_date end_date nbd Hwf Hnbd) in Hd2 as [_ H2].
      congruence.
    - apply NoDup_seqZ.
    - intros d. rewrite elem_of_app, elem_of_seqZ.
      rewrite (business_days_elem_of c start_date end_date bd Hwf Hbd).
      rewrite (non_business_days_elem_of c start_date end_date nbd Hwf Hnbd).
      fold s e. split; [intros [[? _]|[? _]]; lia|]. intros Hd.
      assert (inside c d) as Hin by (unfold inside in *; lia).
      destruct (is_business_inside c d Hwf Hin) as ([|] & _ & ->);
        [left|right]; (split; [lia|done]). }
  apply Permutation_length in Hperm. rewrite length_app, length_seqZ in Hperm.
  unfold days_between. cbn [or_default]. fold s e.
  unfold inside, self_start_date, self_end_date in *.
  rewrite !locate_inside by done. cbn [mbind result_bind].
  destruct (Z.ltb_spec (e - start64 (universe c)) (s - start64 (universe c))); [lia|].
  change (_inclusive_flags "both") with (@Ok (bool * bool) (true, true)).
  cbn [mbind result_bind negb].
  change (String.eqb "calendar" "calendar") with true. cbv iota. f_equal. lia.
Qed.

(** ** Offsets from any date *)

Section offsets.
Variable c : Calendar.
Hypothesis Hwf : calendar_wf c.
Hypothesis Hmem : addressable c.

Lemma position_date (k : nat) (q : Z) :
  business_position c !! k = Some q →
  inside c (self_start_date c + q) ∧
  Numpy.item (business_position c) (Z.of_nat k) = Ok q ∧
  Numpy.item (days (universe c)) q = Ok (self_start_date c + q) ∧
  is_business c (self_start_date c + q) = Ok true.
Proof.
  intros Hk. destruct (business_position_date c Hwf k q Hk) as (Hq & Hin & _ & Hday).
  split_and!; try done.
  - apply item_lookup; [lia|]. by rewrite Nat2Z.id.
  - apply is_business_true_iff; [done|]. split; [done|].
    replace (self_start_date c + q - self_start_date c) with q by lia.
    by eapply list_elem_of_lookup_2.
Qed.

(** The index [offset_return_day] reads for a positive and for a negative
    offset from the date at index [i]. *)
Lemma offset_forward (d n : Z) :
  inside c d → 0 < n →
  let k := Numpy.searchsorted (business_position c) (d - self_start_date c) Numpy.Right
           + (n - 1) in
  offset_return_day c d n
  = if bool_decide (n - 1 < 2 ^ 63) then
      if bool_decide (k < 2 ^ 63) then
        match business_position c !! Z.to_nat k with
        | Some q => Ok (self_start_date c + q)
        | None => Raise (ValueError BeyondCalendarEnd)
        end
      else Raise IndexError
    else Raise OverflowError.
Proof.
  intros Hd Hn k. unfold inside, self_start_date, self_end_date in *.
  pose proof (size_business_position c Hwf Hmem) as Hsize.
  pose proof (searchsorted_range (business_position c) (d - start64 (universe c)) Numpy.Right)
    as Hss.
  unfold offset_return_day, self_start_date, self_end_date.
  destruct (Z.ltb_spec d (start64 (universe c))) as [?|_]; [lia|].
  destruct (Z.ltb_spec (start64 (universe c)) d) as [_|_];
    (destruct (Z.ltb_spec (end64 (universe c)) d) as [?|_]; [lia|]); simpl;
    rewrite locate_inside by done; cbn [mbind result_bind];
    (destruct (Z.eqb_spec n 0) as [?|_]; [lia|]);
    (destruct (Z.ltb_spec 0 n) as [_|?]; [|lia]);
    unfold index_plus, Numpy.fits_int64; fold k.
  all: case_bool_decide as Hfit; [rewrite bool_decide_eq_true_2 by lia|
                                  by rewrite bool_decide_eq_false_2 by lia].
  all: cbn [mbind result_bind].
  all: case_bool_decide as Hk.
  all: try (rewrite add_int64_exact by (fold k; lia); fold k;
            destruct (business_position c !! Z.to_nat k) as [q|] eqn:Hq;
            [ apply lookup_lt_Some in Hq as Hlt;
              destruct (Z.leb_spec (Numpy.size (business_position c)) k);
                [unfold Numpy.size in *; lia|];
              destruct (position_date _ _ Hq) as (_ & Hitem & Hday & _);
              replace (Z.of_nat (Z.to_nat k)) with k in Hitem by lia;
              rewrite Hitem; cbn [mbind result_bind]; exact Hday
            | apply lookup_ge_None in Hq;
              destruct (Z.leb_spec (Numpy.size (business_position c)) k);
                [done|unfold Numpy.size in *; lia] ]).
  all: rewrite add_int64_wrapped by (fold k; unfold Numpy.size in *; lia); fold k.
  all: destruct (Z.leb_spec (Numpy.size (business_position c)) (k - 2 ^ 64));
         [unfold Numpy.size in *; lia|].
  all: unfold Numpy.item.
  all: destruct (Z.ltb_spec (k - 2 ^ 64) 0); [|lia].
  all: destruct (Z.ltb_spec (k - 2 ^ 64 + Numpy.size (business_position c)) 0);
         [done|unfold Numpy.size in *; lia].
Qed.
End offsets.

Lemma offset_backward (c : Calendar) (d n : Z) :
  calendar_wf c → addressable c →
  inside c d → n < 0 →
  let k := Numpy.searchsorted (business_position c) (d - self_start_date c) Numpy.Left + n in
  offset_return_day c d n
  = if bool_decide (- 2 ^ 63 ≤ n) then
      if bool_decide (0 ≤ k) then
        match business_position c !! Z.to_nat k with
        | Some q => Ok (self_start_date c + q)
        | None => Raise IndexError
        end
      else Raise (ValueError BeyondCalendarStart)
    else Raise OverflowError.
Proof.
  intros Hwf Hmem Hd Hn k. unfold inside, self_start_date, self_end_date in *.
  pose proof (size_business_position c Hwf Hmem) as Hsize.
  pose proof (searchsorted_range (business_position c) (d - start64 (universe c)) Numpy.Left)
    as Hss.
  unfold offset_return_day, self_start_date, self_end_date.
  destruct (Z.ltb_spec d (start64 (universe c))) as [?|_]; [lia|].
  destruct (Z.ltb_spec (end64 (universe c)) d) as [?|_]; [lia|]. simpl.
  rewrite locate_inside by done. cbn [mbind result_bind].
  destruct (Z.eqb_spec n 0) as [?|_]; [lia|].
  destruct (Z.ltb_spec 0 n) as [?|_]; [lia|].
  unfold index_plus, Numpy.fits_int64.
  case_bool_decide as Hfit.
  2:{ rewrite bool_decide_eq_false_2 by lia. done. }
  rewrite bool_decide_eq_true_2 by lia. cbn [mbind result_bind].
  rewrite add_int64_exact by (unfold Numpy.size in *; lia). fold k.
  case_bool_decide as Hk.
  - destruct (Z.ltb_spec k 0); [lia|].
    destruct (business_position c !! Z.to_nat k) as [q|] eqn:Hq.
    + destruct (position_date c Hwf _ _ Hq) as (_ & Hitem & Hday & _).
      replace (Z.of_nat (Z.to_nat k)) with k in Hitem by lia.
      rewrite Hitem. cbn [mbind result_bind]. exact Hday.
    + apply lookup_ge_None in Hq. unfold Numpy.size in *. lia.
  - destruct (Z.ltb_spec k 0); [done|lia].
Qed.

(** A successful offset by [n > 0] business days from any date [d] of
    the universe returns a business day strictly after [d], and exactly [n]
    business days lie in the range from [d] (excluded) to it (included). *)
Lemma offset_forward_lands_n_business_days_later_out64 (c : Calendar) (d n r : Z) :
  calendar_wf c → addressable c →
  0 < n →
  offset_return_day c d n = Ok r →
  d < r ∧ is_business c r = Ok true ∧
  days_between c (Some d) (Some r) (Passed "business"%string) (Passed "right"%string) = Ok n.
Proof.
  intros Hwf Hmem Hn Hoff.
  assert (inside c d) as Hd.
  { unfold offset_return_day, inside in *.
    destruct (Z.ltb_spec d (self_start_date c)), (Z.ltb_spec (self_end_date c) d);
      simpl in Hoff; try done; lia. }
  rewrite (offset_forward c Hwf Hmem d n Hd Hn) in Hoff.
  set (i := d - self_start_date c) in *.
  set (k := Numpy.searchsorted (business_position c) i Numpy.Right + (n - 1)) in *.
  pose proof (searchsorted_range (business_position c) i Numpy.Right) as Hss.
  repeat case_bool_decide; try done.
  destruct (business_position c !! Z.to_nat k) as [q|] eqn:Hq; [|done].
  injection Hoff as <-.
  pose proof (business_position_increasing c Hwf) as Hinc.
  destruct (position_date c Hwf _ _ Hq) as (Hin & _ & _ & Hbus).
  assert (i < q) as Hlt.
  { pose proof (searchsorted_split _ i Numpy.Right _ _ Hinc Hq) as Hsp. simpl in Hsp.
    destruct (decide (q ≤ i)) as [Hle|?]; [|lia]. apply Hsp in Hle. lia. }
  split_and!; [unfold i in *; lia|done|].
  rewrite (days_between_business c (Some d) (Some (self_start_date c + q)) "right" false true);
    try done; [|simpl; unfold i in *; lia].
  cbn [default]. unfold id. fold i.
  replace (self_start_date c + q - self_start_date c) with q by lia.
  destruct (searchsorted_lookup _ _ _ Hinc Hq) as [_ ->]. f_equal. lia.
Qed.

(** A successful offset by [n < 0] business days from any date [d] of
    the universe returns a business day strictly before [d], and exactly
    [-n] business days lie in the range from it (included) to [d]
    (excluded). *)
Lemma offset_backward_lands_n_business_days_earlier_out64 (c : Calendar) (d n r : Z) :
  calendar_wf c → addressable c →
  n < 0 →
  offset_return_day c d n = Ok r →
  r < d ∧ is_business c r = Ok true ∧
  days_between c (Some r) (Some d) (Passed "business"%string) (Passed "left"%string)
  = Ok (- n).
Proof.
  intros Hwf Hmem Hn Hoff.
  assert (inside c d) as Hd.
  { unfold offset_return_day, inside in *.
    destruct (Z.ltb_spec d (self_start_date c)), (Z.ltb_spec (self_end_date c) d);
      simpl in Hoff; try done; lia. }
  rewrite (offset_backward c d n Hwf Hmem Hd Hn) in Hoff.
  set (i := d - self_start_date c) in *.
  set (k := Numpy.searchsorted (business_position c) i Numpy.Left + n) in *.
  repeat case_bool_decide; try done.
  destruct (business_position c !! Z.to_nat k) as [q|] eqn:Hq; [|done].
  injection Hoff as <-.
  pose proof (business_position_increasing c Hwf) as Hinc.
  destruct (position_date c Hwf _ _ Hq) as (Hin & _ & _ & Hbus).
  assert (q < i) as Hlt.
  { apply (searchsorted_split _ i Numpy.Left _ _ Hinc Hq). lia. }
  split_and!; [unfold i in *; lia|done|].
  rewrite (days_between_business c (Some (self_start_date c + q)) (Some d) "left" true false);
    try done; [|simpl; unfold i in *; lia].
  cbn [default]. unfold id. fold i.
  replace (self_start_date c + q - self_start_date c) with q by lia.
  destruct (searchsorted_lookup _ _ _ Hinc Hq) as [-> _]. f_equal. lia.
Qed.

Lemma searchsorted_left_zero (c : Calendar) :
  calendar_wf c → Numpy.searchsorted (business_position c) 0 Numpy.Left = 0.
Proof.
  intros Hwf. pose proof (business_position_range c Hwf) as Hr.
  destruct (business_position c) as [|x a]; [done|].
  apply Forall_cons in Hr as [Hx _]. rewrite searchsorted_cons, decide_False; [done|].
  simpl. lia.
Qed.

Lemma searchsorted_right_last (c : Calendar) :
  calendar_wf c →
  Numpy.searchsorted (business_position c) (self_end_date c - self_start_date c) Numpy.Right
  = Numpy.size (business_position c).
Proof.
  intros Hwf. apply searchsorted_all_below.
  eapply Forall_impl; [by apply business_position_range|]. simpl. intros k Hk.
  pose proof (len_n_days (universe c)).
  unfold n_days, self_start_date, self_end_date in *. lia.
Qed.

(** From a date [d] of the universe, an offset by [n > 0] business
    days succeeds exactly when at least [n] business days follow [d] up to
    the end of the calendar, and otherwise fails with the beyond-the-end
    error; an offset by [n < 0] succeeds exactly when at least [-n]
    business days precede [d], and otherwise fails with the
    beyond-the-start error. *)
Lemma offset_succeeds_when_enough_business_days_out64 (c : Calendar) (d : Z) :
  calendar_wf c → addressable c → inside c d →
  ∃ after before,
    days_between c (Some d) None (Passed "business"%string) (Passed "right"%string)
      = Ok after ∧
    days_between c None (Some d) (Passed "business"%string) (Passed "left"%string)
      = Ok before ∧
    (∀ n, 0 < n ≤ 2 ^ 62 →
          if decide (n ≤ after) then is_ok (offset_return_day c d n) = true
          else offset_return_day c d n = Raise (ValueError BeyondCalendarEnd)) ∧
    (∀ n, - 2 ^ 63 ≤ n < 0 →
          if decide (- n ≤ before) then is_ok (offset_return_day c d n) = true
          else offset_return_day c d n = Raise (ValueError BeyondCalendarStart)).
Proof.
  intros Hwf Hmem Hd.
  pose proof (size_business_position c Hwf Hmem) as Hsize.
  assert (inside c (self_start_date c) ∧ inside c (self_end_date c)) as [Hs He]
    by (unfold inside in *; lia).
  rewrite (days_between_business c (Some d) None "right" false true);
    try done; [|apply Hd].
  rewrite (days_between_business c None (Some d) "left" true false);
    try done; [|apply Hd].
  cbn [default]. unfold id.
  set (i := d - self_start_date c).
  rewrite searchsorted_right_last by done.
  replace (self_start_date c - self_start_date c) with 0 by lia.
  rewrite searchsorted_left_zero by done.
  pose proof (searchsorted_range (business_position c) i Numpy.Right) as HR.
  pose proof (searchsorted_range (business_position c) i Numpy.Left) as HL.
  eexists _, _. split_and!; [done..| |].
  - intros n Hn. rewrite (offset_forward c Hwf Hmem d n Hd) by lia. fold i.
    rewrite !bool_decide_eq_true_2 by lia.
    destruct (business_position c !! _) as [q|] eqn:Hq.
    + apply lookup_lt_Some in Hq. unfold Numpy.size in *.
      rewrite decide_True by lia. done.
    + apply lookup_ge_None in Hq. unfold Numpy.size in *.
      rewrite decide_False by lia. done.
  - intros n Hn. rewrite (offset_backward c d n Hwf Hmem Hd) by lia. fold i.
    rewrite bool_decide_eq_true_2 by lia.
    case_bool_decide as Hk.
    + rewrite decide_True by lia.
      destruct (business_position c !! _) as [q|] eqn:Hq; [done|].
      apply lookup_ge_None in Hq. unfold Numpy.size in *. lia.
    + rewrite decide_False by lia. done.
Qed.

Lemma increasing_lookup_inv (l : list Z) (i j : nat) (x y : Z) :
  increasing l → l !! i = Some x → l !! j = Some y → x < y → (i < j)%nat.
Proof.
  intros Hl Hi Hj Hxy. destruct (decide (i < j)%nat) as [?|Hge]; [done|]. exfalso.
  destruct (decide (i = j)) as [->|?]; [simplify_eq; lia|].
  pose proof (increasing_lookup l j i y x Hl Hj Hi). lia.
Qed.

(** [next_business_day] returns the first business day strictly after
    the given date of the universe: it returns [r] exactly when [r] is a
    business day after [d] with no business day strictly between them. *)
Lemma next_business_day_is_the_first_after_out64 (c : Calendar) (d r : Z) :
  calendar_wf c → addressable c → inside c d →
  offset_return_day c d 1 = Ok r ↔
  d < r ∧ is_business c r = Ok true ∧ ∀ x, d < x < r → is_business c x ≠ Ok true.
Proof.
  intros Hwf Hmem Hd.
  rewrite (offset_forward c Hwf Hmem d 1 Hd) by lia.
  pose proof (size_business_position c Hwf Hmem) as Hsize.
  pose proof (business_position_increasing c Hwf) as Hinc.
  set (i := d - self_start_date c).
  pose proof (searchsorted_range (business_position c) i Numpy.Right) as Hss.
  rewrite !bool_decide_eq_true_2 by lia.
  replace (Numpy.searchsorted (business_position c) i Numpy.Right + (1 - 1))
    with (Numpy.searchsorted (business_position c) i Numpy.Right) by lia.
  split.
  - destruct (business_position c !! _) as [q|] eqn:Hq; [|done]. intros [= <-].
    destruct (position_date c Hwf _ _ Hq) as (_ & _ & _ & Hbus).
    pose proof (searchsorted_split _ i Numpy.Right _ _ Hinc Hq) as Hsp. simpl in Hsp.
    assert (i < q) as Hlt.
    { destruct (decide (q ≤ i)) as [Hle|?]; [|lia]. apply Hsp in Hle. lia. }
    split_and!; [unfold i in *; lia|done|].
    intros x Hx [_ [j Hj]%list_elem_of_lookup_1]%is_business_true_iff; [|done].
    pose proof (searchsorted_split _ i Numpy.Right _ _ Hinc Hj) as Hsj. simpl in Hsj.
    assert ((j < Z.to_nat (Numpy.searchsorted (business_position c) i Numpy.Right))%nat)
      as Hjk by (eapply increasing_lookup_inv; [done..|lia]).
    assert (x - self_start_date c ≤ i) by (apply Hsj; lia). unfold i in *. lia.
  - intros (Hlt & [Hr [p Hp]%list_elem_of_lookup_1]%is_business_true_iff & Hnone); [|done].
    assert (Numpy.searchsorted (business_position c) i Numpy.Right = Z.of_nat p) as ->.
    { eapply searchsorted_first_not_below; [done|exact Hp|simpl; unfold i; lia|].
      intros j y Hj Hy. simpl.
      destruct (decide (y ≤ i)) as [?|Hgt]; [done|]. exfalso.
      apply (Hnone (self_start_date c + y)).
      - pose proof (increasing_lookup _ j p y _ Hinc Hy Hp Hj). unfold i in *. lia.
      - by destruct (position_date c Hwf _ _ Hy) as (_ & _ & _ & ?). }
    rewrite Nat2Z.id, Hp. f_equal. lia.
Qed.

(** [previous_business_day] returns the last business day strictly
    before the given date of the universe: it returns [r] exactly when [r]
    is a business day before [d] with no business day strictly between
    them. *)
Lemma previous_business_day_is_the_last_before_out64 (c : Calendar) (d r : Z) :
  calendar_wf c → addressable c → inside c d →
  offset_return_day c d (-1) = Ok r ↔
  r < d ∧ is_business c r = Ok true ∧ ∀ x, r < x < d → is_business c x ≠ Ok true.
Proof.
  intros Hwf Hmem Hd.
  rewrite (offset_backward c d (-1) Hwf Hmem Hd) by lia.
  pose proof (size_business_position c Hwf Hmem) as Hsize.
  pose proof (business_position_increasing c Hwf) as Hinc.
  set (i := d - self_start_date c).
  pose proof (searchsorted_range (business_position c) i Numpy.Left) as Hss.
  rewrite bool_decide_eq_true_2 by lia.
  set (k := Numpy.searchsorted (business_position c) i Numpy.Left + -1).
  split.
  - case_bool_decide as Hk; [|done].
    destruct (business_position c !! Z.to_nat k) as [q|] eqn:Hq; [|done]. intros [= <-].
    destruct (position_date c Hwf _ _ Hq) as (_ & _ & _ & Hbus).
    assert (q < i) as Hlt by (apply (searchsorted_split _ i Numpy.Left _ _ Hinc Hq); lia).
    split_and!; [unfold i in *; lia|done|].
    intros x Hx [_ [j Hj]%list_elem_of_lookup_1]%is_business_true_iff; [|done].
    pose proof (searchsorted_split _ i Numpy.Left _ _ Hinc Hj) as Hsj. simpl in Hsj.
    assert ((Z.to_nat k < j)%nat) as Hjk by (eapply increasing_lookup_inv; [done..|lia]).
    assert (Z.of_nat j < Numpy.searchsorted (business_position c) i Numpy.Left)
      by (apply Hsj; unfold i in *; lia).
    unfold k in *. lia.
  - intros (Hlt & [Hr [p Hp]%list_elem_of_lookup_1]%is_business_true_iff & Hnone); [|done].
    assert (Z.of_nat p < Numpy.searchsorted (business_position c) i Numpy.Left) as Hp1
      by (apply (searchsorted_split _ i Numpy.Left _ _ Hinc Hp); simpl; unfold i; lia).
    assert (k = Z.of_nat p) as Hkp.
    { destruct (decide (Z.of_nat p < k)) as [Hpk|?]; [|unfold k; lia]. exfalso.
      destruct (business_position c !! Z.to_nat k) as [y|] eqn:Hy.
      - pose proof (searchsorted_split _ i Numpy.Left _ _ Hinc Hy) as Hsy. simpl in Hsy.
        assert (y < i) by (apply Hsy; unfold k; lia).
        pose proof (increasing_lookup _ p (Z.to_nat k) _ y Hinc Hp Hy ltac:(lia)).
        apply (Hnone (self_start_date c + y)); [unfold i in *; lia|].
        by destruct (position_date c Hwf _ _ Hy) as (_ & _ & _ & ?).
      - apply lookup_ge_None in Hy. unfold Numpy.size, k in *. lia. }
    rewrite bool_decide_eq_true_2 by lia.
    rewrite Hkp, Nat2Z.id, Hp. f_equal. lia.
Qed.

(** ** Combining calendars *)

Lemma foldl_zip_with_lookup (op : bool → bool → bool) (ms : list (list bool))
    (m : list bool) (j : nat) (x : bool) :
  m !! j = Some x → Forall (λ m', is_Some (m' !! j)) ms →
  foldl (zip_with op) m ms !! j
  = Some (foldl (λ acc m', op acc (default false (m' !! j))) x ms).
Proof.
  revert m x. induction ms as [|m' ms IH]; intros m x Hm Hms; simpl; [done|].
  apply Forall_cons in Hms as [[y Hy] Hms].
  rewrite (IH _ (op x y)); [by rewrite Hy|by rewrite lookup_zip_with, Hm, Hy|done].
Qed.

Lemma foldl_orb_true (l : list bool) (x : bool) :
  foldl (λ acc y, acc || y) x l = true ↔ x = true ∨ true ∈ l.
Proof.
  revert x. induction l as [|y l IH]; intros x; simpl.
  - rewrite elem_of_nil. tauto.
  - rewrite IH, elem_of_cons, orb_true_iff. intuition congruence.
Qed.

Lemma foldl_andb_true (l : list bool) (x : bool) :
  foldl (λ acc y, acc && y) x l = true ↔ x = true ∧ Forall (λ y, y = true) l.
Proof.
  revert x. induction l as [|y l IH]; intros x; simpl.
  - split; [intros ->; by split|by intros [-> _]].
  - rewrite IH, Forall_cons, andb_true_iff. tauto.
Qed.

Lemma foldl_fmap_lookup (op : bool → bool → bool) (ms : list (list bool)) (j : nat) x :
  foldl (λ acc m', op acc (default false (m' !! j))) x ms
  = foldl (λ acc y, op acc y) x ((λ m', default false (m' !! j)) <$> ms).
Proof. revert x. induction ms as [|m ms IH]; intros x; simpl; [done|apply IH]. Qed.

(** Entry [j] of the combined mask of a non-empty list of equally long
    masks. *)
Lemma reduce_lookup_true (masks : list (list bool)) (j n : nat) :
  masks ≠ [] → Forall (λ m, length m = n) masks → (j < n)%nat →
  (Numpy.reduce orb masks !! j = Some true ↔ ∃ m, m ∈ masks ∧ m !! j = Some true) ∧
  (Numpy.reduce andb masks !! j = Some true ↔ ∀ m, m ∈ masks → m !! j = Some true).
Proof.
  intros Hne Hlen Hj. destruct masks as [|m ms]; [done|].
  apply Forall_cons in Hlen as [Hm Hms]. simpl.
  assert (∀ m', m' ∈ m :: ms → ∃ y, m' !! j = Some y) as Hsome.
  { intros m' [->|Hin]%elem_of_cons; apply lookup_lt_is_Some; [lia|].
    rewrite Forall_forall in Hms. rewrite (Hms _ Hin). done. }
  destruct (Hsome m) as [x Hx]; [by left|].
  assert (Forall (λ m', is_Some (m' !! j)) ms) as Hall.
  { apply Forall_forall. intros m' Hin. apply Hsome. by right. }
  rewrite !(foldl_zip_with_lookup _ _ _ _ x Hx Hall), !foldl_fmap_lookup.
  split.
  - split.
    + intros [= [->|Hin]%foldl_orb_true]; [exists m; split; [by left|done]|].
      apply list_elem_of_fmap in Hin as (m' & Hy & Hin).
      exists m'. split; [by right|].
      destruct (Hsome m') as [y Hy']; [by right|]. rewrite Hy' in *. simpl in Hy. congruence.
    + intros (m' & [->|Hin]%elem_of_cons & Hm'); f_equal; apply foldl_orb_true.
      * left. congruence.
      * right. apply list_elem_of_fmap. exists m'. by rewrite Hm'.
  - split.
    + intros [= [-> Hl]%foldl_andb_true] m' [->|Hin]%elem_of_cons; [done|].
      rewrite Forall_fmap, Forall_forall in Hl. specialize (Hl _ Hin). simpl in Hl.
      destruct (Hsome m') as [y Hy']; [by right|]. rewrite Hy' in *. simpl in Hl. congruence.
    + intros Hl. f_equal. apply foldl_andb_true. split.
      * specialize (Hl m ltac:(by left)). congruence.
      * rewrite Forall_fmap, Forall_forall. intros m' Hin. simpl.
        by rewrite (Hl m' ltac:(by right)).
Qed.

Lemma is_business_mask (c : Calendar) (D : Z) :
  calendar_wf c → inside c D →
  is_business c D = Ok true ↔
  business_mask c !! Z.to_nat (D - self_start_date c) = Some true.
Proof.
  intros Hwf HD. destruct (is_business_inside c D Hwf HD) as (b & Hb & ->).
  rewrite Hb. split; congruence.
Qed.

Lemma Calendar_init_inv (ext : ExternalSources) (codes : code_arg) (s e : Z)
    (mode date_type : kwarg string)
    (day_first : kwarg bool) (str_sep : kwarg string) (c : Calendar) :
  Calendar_init ext codes s e mode date_type day_first str_sep = Ok c →
  let u := {| start64 := s; end64 := e |} in
  let cs := match codes with OneCode c => [c] | ManyCodes cs => cs end in
  universe c = u ∧ cs ≠ [] ∧
  ∃ masks, mapM (mask_of_code ext u) cs = Ok masks ∧
    ((or_default "union"%string mode = "union"%string ∧
      business_mask c = Numpy.reduce orb masks) ∨
     (or_default "union"%string mode = "intersection"%string ∧
      business_mask c = Numpy.reduce andb masks)).
Proof.
  unfold Calendar_init. rewrite create_mask_unfold. cbv zeta. intros H.
  apply bind_Ok_inv in H as (mask & Hmask & [= <-]). simpl.
  set (u := {| start64 := s; end64 := e |}) in *.
  set (cs := match codes with OneCode c => [c] | ManyCodes cs => cs end) in *.
  destruct (Z.eqb_spec (Numpy.size cs) 0) as [?|Hne]; [done|].
  apply bind_Ok_inv in Hmask as (masks & Hmasks & Hmask).
  split_and!; [done|by intros Hnil; rewrite Hnil in Hne|].
  exists masks. split; [done|].
  destruct (String.eqb_spec (or_default "union"%string mode) "union").
  - left. by injection Hmask as <-.
  - destruct (String.eqb_spec (or_default "union"%string mode) "intersection"); [|done].
    right. by injection Hmask as <-.
Qed.

Lemma Calendar_init_one (ext : ExternalSources) (code : string) (s e : Z) (m : list bool) :
  mask_of_code ext {| start64 := s; end64 := e |} code = Ok m ↔
  ∃ c1, Calendar_init ext (OneCode code) s e Omitted Omitted Omitted Omitted = Ok c1 ∧
        business_mask c1 = m.
Proof.
  unfold Calendar_init. rewrite create_mask_unfold. cbv zeta.
  change (Numpy.size [code] =? 0) with false. cbv iota. rewrite mapM_singleton.
  cbn [or_default]. change (String.eqb "union" "union") with true. cbv iota.
  destruct (mask_of_code ext _ code) as [m'|err]; cbn [mbind result_bind Numpy.reduce foldl].
  - split; [intros [= <-]; eauto|]. by intros (c1 & [= <-] & <-).
  - split; [done|]. by intros (c1 & ? & _).
Qed.

(** X19. A calendar built from several codes combines the calendars of the
    single codes day by day: every code builds on its own; in "union" mode
    a date is a business day exactly when it is one in some single-code
    calendar, in "intersection" mode exactly when it is one in all. *)
Theorem combined_calendar_is_union_or_intersection (ext : ExternalSources)
    (codes : list string) (s e : Z) (mode date_type : kwarg string)
    (day_first : kwarg bool) (str_sep : kwarg string) (c : Calendar) (D : Z) :
  Calendar_init ext (ManyCodes codes) s e mode date_type day_first str_sep = Ok c →
  s ≤ D ≤ e →
  let single code c1 :=
    Calendar_init ext (OneCode code) s e Omitted Omitted Omitted Omitted = Ok c1 in
  (∀ code, code ∈ codes → ∃ c1, single code c1) ∧
  (or_default "union"%string mode = "union"%string →
   is_business c D = Ok true ↔
   ∃ code c1, code ∈ codes ∧ single code c1 ∧ is_business c1 D = Ok true) ∧
  (or_default "union"%string mode = "intersection"%string →
   is_business c D = Ok true ↔
   ∀ code c1, code ∈ codes → single code c1 → is_business c1 D = Ok true).
Proof.
  intros Hc HD single.
  pose proof (Calendar_init_wf _ _ _ _ _ _ _ _ _ Hc) as Hwf.
  pose proof Hwf as [Hlen _].
  destruct (Calendar_init_inv _ _ _ _ _ _ _ _ _ Hc) as (Hu & Hne & masks & Hmasks & Hmode).
  cbv zeta in *. set (u := {| start64 := s; end64 := e |}) in *.
  apply mapM_Ok in Hmasks.
  assert (inside c D) as Hin by (unfold inside, self_start_date, self_end_date; by rewrite Hu).
  set (j := Z.to_nat (D - s)).
  assert (self_start_date c = s) as Hstart by (unfold self_start_date; by rewrite Hu).
  assert (∀ code c1, single code c1 →
            universe c1 = u ∧ calendar_wf c1 ∧ inside c1 D ∧
            mask_of_code ext u code = Ok (business_mask c1) ∧
            (is_business c1 D = Ok true ↔ business_mask c1 !! j = Some true)) as Hsingle.
  { intros code c1 Hc1.
    pose proof (Calendar_init_wf _ _ _ _ _ _ _ _ _ Hc1) as Hwf1.
    destruct (Calendar_init_inv _ _ _ _ _ _ _ _ _ Hc1) as (Hu1 & _).
    assert (inside c1 D) as Hin1
      by (unfold inside, self_start_date, self_end_date; by rewrite Hu1).
    split_and!; try done.
    - apply Calendar_init_one. eauto.
    - rewrite is_business_mask by done. unfold self_start_date. by rewrite Hu1. }
  assert (Forall (λ m, length m = length (days u)) masks) as Hlens.
  { eapply Forall2_Forall_r; [exact Hmasks|]. apply Forall_true.
    intros code m Hm. unfold mask_of_code in Hm.
    destruct (CALENDAR_CODES !! code) as [[cls pc]|]; [|done].
    apply bind_Ok_inv in Hm as (b & _ & Hm). by eapply build_mask_length. }
  assert (masks ≠ []) as Hne'.
  { intros ->. apply Forall2_nil_inv_r in Hmasks. done. }
  assert ((j < length (days u))%nat) as Hj.
  { pose proof (len_n_days u). unfold len, Numpy.size, n_days, j in *. simpl in *. lia. }
  destruct (reduce_lookup_true masks j _ Hne' Hlens Hj) as [Hor Hand].
  rewrite is_business_mask, Hstart by done. fold j.
  split_and!.
  - intros code [i Hi]%list_elem_of_lookup_1.
    destruct (Forall2_lookup_l _ _ _ _ _ Hmasks Hi) as (m & _ & Hm).
    apply Calendar_init_one in Hm as (c1 & ? & _). eauto.
  - intros Hunion. destruct Hmode as [[_ ->]|[Hi _]]; [|congruence].
    rewrite Hor. split.
    + intros (m & [i Hi]%list_elem_of_lookup_1 & Hm).
      destruct (Forall2_lookup_r _ _ _ _ _ Hmasks Hi) as (code & Hcode & Hmask).
      pose proof Hmask as (c1 & Hc1 & <-)%Calendar_init_one.
      exists code, c1. split_and!; [by eapply list_elem_of_lookup_2|done|].
      by apply (Hsingle code c1 Hc1).
    + intros (code & c1 & [i Hi]%list_elem_of_lookup_1 & Hc1 & Hb).
      destruct (Hsingle code c1 Hc1) as (_ & _ & _ & Hmask & Hiff).
      destruct (Forall2_lookup_l _ _ _ _ _ Hmasks Hi) as (m & Hm & Hm').
      exists m. split; [by eapply list_elem_of_lookup_2|].
      assert (m = business_mask c1) as -> by congruence. by apply Hiff.
  - intros Hinter. destruct Hmode as [[Hi _]|[_ ->]]; [congruence|].
    rewrite Hand. split.
    + intros Hall code c1 [i Hi]%list_elem_of_lookup_1 Hc1.
      destruct (Hsingle code c1 Hc1) as (_ & _ & _ & Hmask & Hiff).
      destruct (Forall2_lookup_l _ _ _ _ _ Hmasks Hi) as (m & Hm & Hm').
      assert (m = business_mask c1) as -> by congruence.
      apply Hiff, Hall. by eapply list_elem_of_lookup_2.
    + intros Hall m [i Hi]%list_elem_of_lookup_1.
      destruct (Forall2_lookup_r _ _ _ _ _ Hmasks Hi) as (code & Hcode & Hmask).
      pose proof Hmask as (c1 & Hc1 & <-)%Calendar_init_one.
      apply (Hsingle code c1 Hc1). apply (Hall code c1); [by eapply list_elem_of_lookup_2|done].
Qed.

Lemma combined_calendar_is_union_or_intersection_witness :
  ∃ c, Calendar_init no_sources (ManyCodes ["DEFAULT"; "WEEKEND"]%string) 20454 20484
         (Passed "intersection"%string) Omitted Omitted Omitted = Ok c ∧
       let single code c1 :=
         Calendar_init no_sources (OneCode code) 20454 20484
           Omitted Omitted Omitted Omitted = Ok c1 in
       (∀ code, code ∈ ["DEFAULT"; "WEEKEND"]%string → ∃ c1, single code c1) ∧
       (or_default "union"%string (Passed "intersection"%string) = "union"%string →
        is_business c 20455 = Ok true ↔
        ∃ code c1, code ∈ ["DEFAULT"; "WEEKEND"]%string ∧ single code c1 ∧
                   is_business c1 20455 = Ok true) ∧
       (or_default "union"%string (Passed "intersection"%string) = "intersection"%string →
        is_business c 20455 = Ok true ↔
        ∀ code c1, code ∈ ["DEFAULT"; "WEEKEND"]%string → single code c1 →
                   is_business c1 20455 = Ok true).
Proof.
  assert (∃ c, Calendar_init no_sources (ManyCodes ["DEFAULT"; "WEEKEND"]%string)
                 20454 20484 (Passed "intersection"%string) Omitted Omitted Omitted
               = Ok c) as [c Hc]
    by (eexists; vm_compute; reflexivity).
  exists c. split; [done|].
  apply (combined_calendar_is_union_or_intersection no_sources
           ["DEFAULT"; "WEEKEND"]%string 20454 20484 (Passed "intersection"%string)
           Omitted Omitted Omitted c 20455);
    [done|lia].
Defined.

(** ** Errors of the constructor *)

Lemma mapM_Raise {A B} (f : A → result B) (l : list A) (e : exn) :
  mapM f l = Raise e → ∃ x, x ∈ l ∧ f x = Raise e.
Proof.
  induction l as [|x l IH]; intros H; [done|].
  change (mapM f (x :: l)) with (y ← f x; k ← mapM f l; mret (y :: k)) in H.
  destruct (f x) as [y|e'] eqn:Hx; cbn [mbind result_bind] in H.
  - destruct (mapM f l) as [k|e'] eqn:Hl; cbn [mbind result_bind] in H; [done|].
    injection H as ->. destruct (IH eq_refl) as (x' & ? & ?).
    exists x'. split; [by right|done].
  - injection H as ->. exists x. split; [by left|done].
Qed.

Lemma mapM_app_Raise {A B} (f : A → result B) (l1 l2 : list A) (x : A) (e : exn) :
  Forall (λ y, is_ok (f y) = true) l1 → f x = Raise e →
  mapM f (l1 ++ x :: l2) = Raise e.
Proof.
  intros Hl1 Hx. induction Hl1 as [|y l1 Hy _ IH]; simpl.
  - change (mapM f (x :: l2)) with (y ← f x; k ← mapM f l2; mret (y :: k)).
    by rewrite Hx.
  - change (mapM f (y :: (l1 ++ x :: l2)))
      with (z ← f y; k ← mapM f (l1 ++ x :: l2); mret (z :: k)).
    destruct (f y); [|done]. cbn [mbind result_bind]. by rewrite IH.
Qed.

(** X20. Errors of the constructor, in the order the code checks them: an
    empty list of codes is rejected first; then the first code that is no
    key of the registry is reported as unknown, whatever the combination
    mode; an unrecognized mode is reported only after every mask was built. *)
Theorem constructor_errors (ext : ExternalSources) (s e : Z) (mode date_type : kwarg string)
    (day_first : kwarg bool) (str_sep : kwarg string) :
  Calendar_init ext (ManyCodes []) s e mode date_type day_first str_sep
  = Raise (ValueError NoCalendarCode) ∧
  (∀ before code after,
     Forall (λ code', is_ok (Calendar_init ext (OneCode code') s e
                               Omitted Omitted Omitted Omitted) = true) before →
     CALENDAR_CODES !! code = None →
     Calendar_init ext (ManyCodes (before ++ code :: after)) s e mode date_type day_first str_sep
     = Raise (ValueError (UnknownCalendarCode code))) ∧
  (∀ codes,
     codes ≠ [] →
     Forall (λ code, is_ok (Calendar_init ext (OneCode code) s e
                              Omitted Omitted Omitted Omitted) = true) codes →
     or_default "union"%string mode ≠ "union"%string →
     or_default "union"%string mode ≠ "intersection"%string →
     Calendar_init ext (ManyCodes codes) s e mode date_type day_first str_sep
     = Raise (ValueError (UnknownMode (or_default "union"%string mode)))).
Proof.
  set (u := {| start64 := s; end64 := e |}).
  assert (∀ code, is_ok (Calendar_init ext (OneCode code) s e
                           Omitted Omitted Omitted Omitted) = true →
                  is_ok (mask_of_code ext u code) = true) as Hone.
  { intros code H.
    destruct (Calendar_init ext (OneCode code) s e Omitted Omitted Omitted Omitted)
      as [c1|] eqn:Hc1; [|done].
    assert (mask_of_code ext u code = Ok (business_mask c1)) as ->; [|done].
    apply Calendar_init_one. eauto. }
  split_and!.
  - done.
  - intros before code after Hbefore Hcode.
    unfold Calendar_init. rewrite create_mask_unfold. cbv zeta.
    destruct (Z.eqb_spec (Numpy.size (before ++ code :: after)) 0) as [Hsz|_].
    { unfold Numpy.size in Hsz. rewrite length_app in Hsz. simpl in Hsz. lia. }
    fold u. rewrite (mapM_app_Raise _ _ _ _ (ValueError (UnknownCalendarCode code))); [done| |].
    + eapply Forall_impl; [exact Hbefore|]. apply Hone.
    + unfold mask_of_code. by rewrite Hcode.
  - intros codes Hne Hall Hu Hi.
    unfold Calendar_init. rewrite create_mask_unfold. cbv zeta.
    destruct (Z.eqb_spec (Numpy.size codes) 0) as [Hsz|_]; [by destruct codes|].
    fold u. destruct (mapM (mask_of_code ext u) codes) as [masks|err] eqn:Hm.
    + destruct (String.eqb_spec (or_default "union"%string mode) "union"); [done|].
      destruct (String.eqb_spec (or_default "union"%string mode) "intersection"); done.
    + exfalso. apply mapM_Raise in Hm as (code & Hin & Hraise).
      rewrite Forall_forall in Hall. apply Hall, Hone in Hin. by rewrite Hraise in Hin.
Qed.

Lemma constructor_errors_witness :
  Calendar_init no_sources (ManyCodes ["DEFAULT"; "ZZ_NOPE"; "FR"]%string) 20454 20484
    (Passed "xor"%string) Omitted Omitted Omitted
  = Raise (ValueError (UnknownCalendarCode "ZZ_NOPE")) ∧
  Calendar_init no_sources (ManyCodes ["DEFAULT"; "WEEKEND"]%string) 20454 20484
    (Passed "xor"%string) Omitted Omitted Omitted
  = Raise (ValueError (UnknownMode "xor")).
Proof.
  destruct (constructor_errors no_sources 20454 20484 (Passed "xor"%string)
              Omitted Omitted Omitted)
    as (_ & Hcode & Hmode).
  split.
  - apply (Hcode ["DEFAULT"%string] "ZZ_NOPE"%string ["FR"%string]);
      [repeat constructor|by vm_compute].
  - apply (Hmode ["DEFAULT"; "WEEKEND"]%string); [done|repeat constructor|done|done].
Defined.

(** ** The registry and the builders *)

Lemma registry_entry (code cls : string) (pc : option string) :
  CALENDAR_CODES !! code = Some (cls, pc) → (code, (cls, pc)) ∈ calendar_code_entries.
Proof. intros H. by apply elem_of_list_to_map_2. Qed.

Lemma registered_builder (code cls : string) (pc : option string) :
  CALENDAR_CODES !! code = Some (cls, pc) →
  ∃ b, builder_of cls pc = Ok b ∧
       match b with
       | DefaultMaskBuilder => pc = None
       | ExchangeMaskBuilder exchange_code => pc = Some exchange_code
       | QuantLibMaskBuilder ql_calendar => is_Some ql_calendar
       | CountryMaskBuilder country_code =>
           pc = Some country_code ∧ upper country_code = country_code
       end.
Proof.
  intros H%registry_entry.
  assert (Forall (λ kv : string * (string * option string),
            ∃ b, builder_of kv.2.1 kv.2.2 = Ok b ∧
                 match b with
                 | DefaultMaskBuilder => kv.2.2 = None
                 | ExchangeMaskBuilder exchange_code => kv.2.2 = Some exchange_code
                 | QuantLibMaskBuilder ql_calendar => is_Some ql_calendar
                 | CountryMaskBuilder country_code =>
                     kv.2.2 = Some country_code ∧ upper country_code = country_code
                 end) calendar_code_entries) as Hall.
  { unfold calendar_code_entries.
    repeat (apply Forall_cons; split;
            [eexists; split; [vm_compute; reflexivity|]; vm_compute; eauto|]).
    constructor. }
  rewrite Forall_forall in Hall. exact (Hall _ H).
Qed.

Lemma mask_per_day_Raise (is_open : Z → result bool) (u : DateUniverse) (e : exn) :
  mask_per_day is_open u = Raise e →
  ∃ d, d ∈ days u ∧ (e = ValueError (InvalidIsoDate d) ∨ is_open d = Raise e).
Proof.
  unfold mask_per_day. intros (d & Hd & H)%mapM_Raise. exists d. split; [done|].
  unfold Datetime.fromisoformat in H. case_bool_decide; [by right|].
  left. by injection H.
Qed.

(** The errors of a mask builder: an unknown provider code, a day
    [datetime.date] cannot hold, the missing QuantLib calendar, or an error
    of the package. *)
Lemma build_mask_Raise (ext : ExternalSources) (b : MaskBuilder) (u : DateUniverse)
    (e : exn) :
  build_mask ext b u = Raise e →
  (∃ code, e = ValueError (UnknownProviderCode code)) ∨
  (∃ d, d ∈ days u ∧ e = ValueError (InvalidIsoDate d)) ∨
  e = AttributeError ∨
  (∃ message, e = ExternalError message).
Proof.
  destruct b as [|x|q|cc]; simpl.
  - done.
  - destruct (exchange_schedule ext x) as [schedule|];
      [|intros [= <-]; right; right; right; eauto].
    simpl. destruct (schedule _ _); [done|]. intros [= <-]. right; right; right. eauto.
  - intros (d & Hd & [->|H])%mask_per_day_Raise; [right; left; eauto|].
    destruct (quantlib_date ext d); [|injection H as <-; right; right; right; eauto].
    destruct q as [cal|]; [|injection H as <-; by right; right; left].
    destruct (quantlib_business_day ext cal d); [done|].
    injection H as <-. right; right; right. eauto.
  - destruct (country_working_day ext (upper cc)) as [is_working_day|];
      [|intros [= <-]; left; eauto].
    intros (d & Hd & [->|H])%mask_per_day_Raise; [right; left; eauto|].
    destruct (is_working_day d); [done|]. injection H as <-. right; right; right. eauto.
Qed.

(** X21. The registry is consistent with the dispatch of [_create_mask]:
    every registered identifier gets a builder, so the "unknown provider
    class" branch is never taken, whatever the arguments of the
    constructor; a weekend entry has no provider code and every other entry
    has one, a quantlib entry names one of the calendars [_quantlib_mapping]
    knows, and a country entry is already upper-case. *)
Theorem registered_codes_have_a_builder :
  (∀ code cls pc,
     CALENDAR_CODES !! code = Some (cls, pc) →
     ∃ b, builder_of cls pc = Ok b ∧
          match b with
          | DefaultMaskBuilder => pc = None
          | ExchangeMaskBuilder exchange_code => pc = Some exchange_code
          | QuantLibMaskBuilder ql_calendar => is_Some ql_calendar
          | CountryMaskBuilder country_code =>
              pc = Some country_code ∧ upper country_code = country_code
          end) ∧
  (∀ ext codes s e mode date_type day_first str_sep cls,
     Calendar_init ext codes s e mode date_type day_first str_sep
     ≠ Raise (ValueError (UnknownProviderClass cls))).
Proof.
  split; [apply registered_builder|].
  intros ext codes s e mode date_type day_first str_sep cls H.
  unfold Calendar_init in H. rewrite create_mask_unfold in H. cbv zeta in H.
  set (u := {| start64 := s; end64 := e |}) in H.
  set (cs := match codes with OneCode c => [c] | ManyCodes cs => cs end) in H.
  destruct (Numpy.size cs =? 0); [done|].
  destruct (mapM (mask_of_code ext u) cs) as [masks|err] eqn:Hm.
  - cbn [mbind result_bind] in H.
    destruct (String.eqb _ "union"); [done|].
    by destruct (String.eqb _ "intersection").
  - cbn [mbind result_bind] in H. injection H as ->.
    apply mapM_Raise in Hm as (code & _ & Hm). unfold mask_of_code in Hm.
    destruct (CALENDAR_CODES !! code) as [[cls' pc]|] eqn:Hcode; [|done].
    destruct (registered_builder _ _ _ Hcode) as (b & Hb & _).
    rewrite Hb in Hm. cbn [mbind result_bind] in Hm.
    apply build_mask_Raise in Hm as [(? & ?)|[(? & _ & ?)|[?|(? & ?)]]]; done.
Qed.

(** ** Business schedules *)

Lemma take_idx_app {A} (a : list A) (i1 i2 : list Z) (r : list A) :
  Numpy.take_idx a (i1 ++ i2) = Ok r →
  ∃ r1 r2, r = r1 ++ r2 ∧ Numpy.take_idx a i1 = Ok r1 ∧ Numpy.take_idx a i2 = Ok r2.
Proof.
  rewrite take_idx_Ok. intros (r1 & r2 & H1 & H2 & ->)%Forall2_app_inv_l.
  exists r1, r2. by rewrite !take_idx_Ok.
Qed.

Lemma take_idx_elem_of_2 {A} (a : list A) (idx : list Z) (r : list A) (k : Z) (x : A) :
  Numpy.take_idx a idx = Ok r → k ∈ idx → Numpy.item a k = Ok x → x ∈ r.
Proof.
  rewrite take_idx_Ok. intros H [j Hj]%list_elem_of_lookup_1 Hx.
  destruct (Forall2_lookup_l _ _ _ _ _ H Hj) as (y & Hy & Hitem).
  assert (y = x) as -> by congruence. by eapply list_elem_of_lookup_2.
Qed.

Lemma take_idx_head {A} (a : list A) (idx idx' : list Z) (r r' : list A) :
  Numpy.take_idx a idx = Ok r → Numpy.take_idx a idx' = Ok r' →
  head idx = head idx' → head r = head r'.
Proof.
  rewrite !take_idx_Ok. intros H H' Hhd.
  destruct H as [|k x idx r Hk _], H' as [|k' x' idx' r' Hk' _]; simplify_eq/=; [done|].
  congruence.
Qed.

Lemma take_idx_last {A} (a : list A) (idx idx' : list Z) (r r' : list A) :
  Numpy.take_idx a idx = Ok r → Numpy.take_idx a idx' = Ok r' →
  last idx = last idx' → last r = last r'.
Proof.
  intros H H' Hlast. destruct (last idx) as [k|] eqn:Hk.
  - symmetry in Hlast. apply last_Some in Hk as [l ->], Hlast as [l' ->].
    apply take_idx_app in H as (r1 & r2 & -> & _ & H2).
    apply take_idx_app in H' as (r1' & r2' & -> & _ & H2').
    simpl in H2, H2'. destruct (Numpy.item a k) as [x|]; [|done].
    simpl in H2, H2'. injection H2 as <-. injection H2' as <-.
    by rewrite !last_snoc.
  - symmetry in Hlast. apply last_None in Hk as ->, Hlast as ->.
    simpl in H, H'. by simplify_eq.
Qed.

Lemma select_first_head (pos key sel : list Z) :
  _select_in_groups pos key (WStr "first") = Ok sel → head sel = head pos.
Proof.
  unfold _select_in_groups.
  destruct (Numpy.size pos =? 0); [by intros [= <-]|].
  change (which_is (WStr "first") "all") with false.
  change (which_is (WStr "first") "first") with true. cbv iota.
  change (Numpy.flatnonzero (true :: ?l)) with (0 :: Numpy.flatnonzero_from 1 l).
  simpl. destruct (Numpy.item pos 0) as [x|] eqn:Hx; [|done]. simpl.
  destruct (Numpy.take_idx pos _); [|done]. simpl. intros [= <-].
  apply item_Ok_lookup in Hx; [|lia]. by rewrite (head_lookup pos).
Qed.

Lemma select_last_last (pos key sel : list Z) :
  _select_in_groups pos key (WStr "last") = Ok sel → last sel = last pos.
Proof.
  unfold _select_in_groups.
  destruct (Z.eqb_spec (Numpy.size pos) 0) as [?|Hne]; [by intros [= <-]|].
  change (which_is (WStr "last") "all") with false.
  change (which_is (WStr "last") "first") with false.
  change (which_is (WStr "last") "last") with true. cbv iota.
  intros (r1 & r2 & -> & _ & H2)%take_idx_app. simpl in H2.
  destruct (Numpy.item pos (Numpy.size pos - 1)) as [x|] eqn:Hx; [|done].
  injection H2 as <-. rewrite last_snoc, last_lookup.
  unfold Numpy.size in *. apply item_Ok_lookup in Hx; [|lia].
  rewrite <- Hx. f_equal. lia.
Qed.

Lemma business_slice_range (c : Calendar) (i0 i1 : Z) :
  calendar_wf c →
  Forall (λ k, 0 ≤ k < len (universe c))
    (Numpy.slice (business_position c)
       (Numpy.searchsorted (business_position c) i0 Numpy.Left)
       (Numpy.searchsorted (business_position c) i1 Numpy.Right)).
Proof.
  intros Hwf. rewrite slice_searchsorted by by apply business_position_increasing.
  pose proof (business_position_range c Hwf) as Hr.
  rewrite Forall_forall in Hr |- *. intros k Hk. apply Hr.
  eapply elem_of_sublist; [done|apply sublist_filter].
Qed.

(** [schedule_business_out64] only selects among the business days of the
    range: whenever it returns, [business_days_out64] over the same bounds
    returns too and holds every scheduled date; with [which="all"] the two
    results are the same list. *)
Lemma schedule_business_selects_business_days_out64 (c : Calendar) (frequency : string)
    (which : kwarg which_arg) (start_date end_date : option Z) (r : list Z) :
  calendar_wf c →
  schedule_business_out64 c frequency which start_date end_date = Ok r →
  ∃ b, business_days_out64 c start_date end_date = Ok b ∧ r ⊆ b ∧
       (which_is (or_default (WStr "first") which) "all" = true → r = b).
Proof.
  intros Hwf H. unfold schedule_business_out64 in H. inv_Ok H. destruct a as [i0 i1].
  unfold business_days_out64. rewrite range_indices_defaults, Ha. cbn [mbind result_bind].
  pose proof (business_slice_range c i0 i1 Hwf) as Hrange.
  set (pos := Numpy.slice _ _ _) in *.
  rewrite (take_idx_days _ pos Hrange). eexists. split; [done|].
  destruct (Z.eqb_spec (Numpy.size pos) 0) as [Hz|Hne].
  { injection H as <-. apply size_zero_nil in Hz. rewrite Hz.
    split; [apply list_subseteq_nil|done]. }
  apply bind_Ok_inv in H as (key & _ & H).
  apply bind_Ok_inv in H as (sel & Hsel & H).
  pose proof (select_in_groups_subseteq _ _ _ _ Hsel) as Hsub.
  assert (Forall (λ k, 0 ≤ k < len (universe c)) sel) as Hsel_range.
  { rewrite Forall_forall in Hrange |- *. intros k Hk. by apply Hrange, Hsub. }
  rewrite (take_idx_days _ sel Hsel_range) in H. injection H as <-. split.
  - intros d (k & -> & Hk)%list_elem_of_fmap. apply list_elem_of_fmap. eauto.
  - intros Hall. unfold _select_in_groups in Hsel.
    destruct (Numpy.size pos =? 0); [by injection Hsel as <-|].
    rewrite Hall in Hsel. by injection Hsel as <-.
Qed.

(** The ends of a business schedule: with [which="first"] (also the
    default) the schedule opens with the first business day of the range,
    and with [which="last"] it closes with the last business day of the
    range, whether or not that day opens or closes its own period. *)
Lemma schedule_business_opens_and_closes_with_the_range_out64 (c : Calendar)
    (frequency : string) (start_date end_date : option Z) (b : list Z) :
  business_days_out64 c start_date end_date = Ok b →
  (∀ which r,
     which = Omitted ∨ which = Passed (WStr "first") →
     schedule_business_out64 c frequency which start_date end_date = Ok r →
     head r = head b) ∧
  (∀ r,
     schedule_business_out64 c frequency (Passed (WStr "last")) start_date end_date = Ok r →
     last r = last b).
Proof.
  intros Hb. unfold business_days_out64 in Hb. rewrite range_indices_defaults in Hb.
  inv_Ok Hb. destruct a as [i0 i1].
  assert (∀ which r,
    schedule_business_out64 c frequency (Passed which) start_date end_date = Ok r →
    (r = [] ∧ b = []) ∨
    ∃ key sel,
      _select_in_groups (Numpy.slice (business_position c)
         (Numpy.searchsorted (business_position c) i0 Numpy.Left)
         (Numpy.searchsorted (business_position c) i1 Numpy.Right)) key which = Ok sel ∧
      Numpy.take_idx (days (universe c)) sel = Ok r) as Hcases.
  { intros which r H. unfold schedule_business_out64 in H. rewrite Ha in H.
    cbn [mbind result_bind or_default] in H.
    destruct (Z.eqb_spec (Numpy.size (Numpy.slice (business_position c)
                (Numpy.searchsorted (business_position c) i0 Numpy.Left)
                (Numpy.searchsorted (business_position c) i1 Numpy.Right))) 0) as [Hz|_].
    - left. injection H as <-. apply size_zero_nil in Hz. rewrite Hz in Hb.
      by injection Hb as <-.
    - right. apply bind_Ok_inv in H as (key & _ & H).
      apply bind_Ok_inv in H as (sel & Hsel & H). eauto. }
  split.
  - intros which r Hwhich H.
    assert (schedule_business_out64 c frequency (Passed (WStr "first")) start_date end_date
            = Ok r) as H' by (by destruct Hwhich as [->| ->]).
    destruct (Hcases _ _ H') as [[-> ->]|(key & sel & Hsel & Hr)]; [done|].
    eapply take_idx_head; [exact Hr|exact Hb|]. by eapply select_first_head.
  - intros r H.
    destruct (Hcases _ _ H) as [[-> ->]|(key & sel & Hsel & Hr)]; [done|].
    eapply take_idx_last; [exact Hr|exact Hb|]. by eapply select_last_last.
Qed.

(** ** Calendar schedules *)

Lemma take_idx_weekday (u : DateUniverse) (idx : list Z) :
  Forall (λ k, 0 ≤ k < len u) idx →
  Numpy.take_idx (weekday u) idx = Ok ((λ k, weekday_number (start64 u + k)) <$> idx).
Proof.
  intros H. apply take_idx_Ok. apply Forall2_fmap_r, Forall_Forall2_diag.
  eapply Forall_impl; [done|]. intros k Hk. simpl.
  pose proof (len_n_days u). unfold n_days in *.
  replace k with (start64 u + k - start64 u) at 1 by lia.
  apply weekday_item_inside. lia.
Qed.

Lemma filter_fmap {A B} (f : A → B) (P : B → Prop) `{!∀ y, Decision (P y)} (l : list A) :
  filter P (f <$> l) = f <$> filter (λ x, P (f x)) l.
Proof.
  induction l as [|x l IH]; [done|]. rewrite fmap_cons, !filter_cons.
  destruct (decide (P (f x))); simpl; by rewrite IH.
Qed.

Lemma week_day_inside (c : Calendar) (d : Z) :
  inside c d → week_day c d = Ok (weekday_number d).
Proof.
  unfold inside, week_day, self_start_date, self_end_date. intros Hd.
  rewrite locate_inside by done. cbn [mbind result_bind].
  by apply weekday_item_inside.
Qed.

Lemma weekday_positions (c : Calendar) (i0 i1 k : Z) (wds : list Z) :
  0 ≤ i0 → i1 < len (universe c) →
  Numpy.take_idx (weekday (universe c)) (Numpy.arange i0 (i1 + 1)) = Ok wds →
  Numpy.compress ((λ w, w =? k) <$> wds) (Numpy.arange i0 (i1 + 1))
  = filter (λ i, weekday_number (self_start_date c + i) = k) (Numpy.arange i0 (i1 + 1)).
Proof.
  intros Hi0 Hi1 Hwds. rewrite take_idx_weekday in Hwds.
  - injection Hwds as <-. rewrite <- list_fmap_compose.
    rewrite (compress_by (λ i, weekday_number (start64 (universe c) + i) =? k)).
    apply list_filter_iff. intros i. unfold self_start_date. apply Z.eqb_eq.
  - apply Forall_forall. intros i Hi. unfold Numpy.arange in Hi.
    apply elem_of_seqZ in Hi. lia.
Qed.

(** [schedule_calendar_out64] with a weekday [k] only returns dates of the
    requested range whose [week_day] is [k]; with [which="all"] it returns
    exactly the dates of that weekday in the range, in order, whatever the
    frequency. *)
Lemma schedule_calendar_keeps_the_week_day_out64 (c : Calendar) (frequency : string)
    (week_day_arg : kwarg (option Z)) (which : kwarg which_arg)
    (start_date end_date : option Z) (k : Z) (r : list Z) :
  or_default (Some 1) week_day_arg = Some k →
  schedule_calendar_out64 c frequency week_day_arg which start_date end_date = Ok r →
  let s := default (self_start_date c) start_date in
  let e := default (self_end_date c) end_date in
  (∀ d, d ∈ r → s ≤ d ≤ e ∧ week_day c d = Ok k) ∧
  (which_is (or_default (WStr "first") which) "all" = true →
   r = filter (λ d, weekday_number d = k) (seqZ s (e - s + 1))).
Proof.
  intros Hk H s e. unfold schedule_calendar_out64 in H. rewrite Hk in H.
  inv_Ok H. destruct a as [i0 i1].
  pose proof (range_indices_Ok _ _ _ _ _ Ha) as (Hi0 & Hi01 & Hi1).
  apply range_indices_Ok_inv in Ha as (Ei0 & Ei1 & Hs & He & Hse). fold s e in Ei0, Ei1, Hs, He, Hse.
  apply bind_Ok_inv in H as (pos & Hpos & H).
  apply bind_Ok_inv in Hpos as (wds & Hwds & [= <-]).
  rewrite (weekday_positions c i0 i1 k wds Hi0 Hi1 Hwds) in H.
  set (pos := filter _ _) in H.
  assert (Forall (λ i, 0 ≤ i < len (universe c)) pos) as Hrange.
  { apply Forall_forall. intros i [_ Hi]%list_elem_of_filter. unfold Numpy.arange in Hi.
    apply elem_of_seqZ in Hi. lia. }
  assert ((λ i, self_start_date c + i) <$> pos
          = filter (λ d, weekday_number d = k) (seqZ s (e - s + 1))) as Hall.
  { unfold pos, Numpy.arange.
    replace (seqZ s (e - s + 1)) with ((λ i, self_start_date c + i) <$> seqZ i0 (i1 + 1 - i0)).
    - by rewrite filter_fmap.
    - rewrite (fmap_add_seqZ (self_start_date c)). f_equal; lia. }
  destruct (Z.eqb_spec (Numpy.size pos) 0) as [Hz|_].
  { injection H as <-. apply size_zero_nil in Hz. rewrite Hz in Hall.
    split; [by intros d ?%elem_of_nil|]. intros _. by rewrite <- Hall. }
  apply bind_Ok_inv in H as (sel & Hsel & H).
  assert (sel ⊆ pos) as Hsub.
  { destruct (negb _).
    - apply bind_Ok_inv in Hsel as (key & _ & Hsel). by eapply select_in_groups_subseteq.
    - by injection Hsel as <-. }
  assert (Forall (λ i, 0 ≤ i < len (universe c)) sel) as Hsel_range.
  { rewrite Forall_forall in Hrange |- *. intros i Hi. by apply Hrange, Hsub. }
  rewrite (take_idx_days _ sel Hsel_range) in H. injection H as <-. split.
  - intros d (i & -> & Hi%Hsub)%list_elem_of_fmap.
    assert (self_start_date c + i ∈ filter (λ d, weekday_number d = k) (seqZ s (e - s + 1)))
      as [Hwd Hd%elem_of_seqZ]%list_elem_of_filter
      by (rewrite <- Hall; apply list_elem_of_fmap; eauto).
    fold (self_start_date c). split; [lia|].
    rewrite week_day_inside; [by rewrite Hwd|]. unfold inside in *. lia.
  - intros Hw. rewrite Hw in Hsel. injection Hsel as <-. exact Hall.
Qed.

(** ** Selection by rank *)

Lemma compress_all_true (a b : list Z) :
  Forall2 Z.le a b → Numpy.compress (zip_with Z.leb a b) a = a.
Proof.
  induction 1 as [|x y a b Hxy _ IH]; [done|]. simpl.
  destruct (Z.leb_spec x y); [|lia]. by rewrite IH.
Qed.

Lemma compress_all_false (a b : list Z) (m : Z) :
  Forall (λ x, m < x) a → Forall (λ y, y ≤ m) b →
  Numpy.compress (zip_with Z.leb a b) a = [].
Proof.
  intros Ha. revert b. induction Ha as [|x a Hx _ IH]; intros b Hb; [by destruct b|].
  destruct Hb as [|y b Hy Hb]; [done|]. simpl.
  destruct (Z.leb_spec x y); [lia|]. by apply IH.
Qed.

Lemma group_bounds (x m : Z) (F : list Z) :
  increasing (x :: F) → Forall (λ k, k ≤ m) (x :: F) →
  Forall2 Z.le (x :: F) (((λ i, i - 1) <$> F) ++ [m]).
Proof.
  revert x. induction F as [|y F IH]; intros x Hinc Hm.
  - apply Forall_cons in Hm as [Hx _]. by repeat constructor.
  - apply StronglySorted_cons in Hinc as [Hlt Hinc].
    apply Forall_cons in Hlt as [Hxy _]. apply Forall_cons in Hm as [_ Hm].
    simpl. constructor; [lia|]. by apply IH.
Qed.

Lemma group_starts (pos key : list Z) :
  length key = length pos → Numpy.size pos ≠ 0 →
  let changes :=
    zip_with (λ a b, negb (a =? b)) (drop 1 key) (take (length key - 1)%nat key) in
  increasing (Numpy.flatnonzero (true :: changes)) ∧
  Forall (λ k, 0 ≤ k ≤ Numpy.size pos - 1) (Numpy.flatnonzero (true :: changes)).
Proof.
  intros Hkey Hne changes. split; [apply increasing_flatnonzero|].
  pose proof (flatnonzero_range (true :: changes)) as Hr.
  eapply Forall_impl; [exact Hr|]. intros k. unfold Numpy.size in *. simpl.
  unfold changes. rewrite length_zip_with, length_drop, length_take. lia.
Qed.

(** X25. Selection by rank in [_select_in_groups]: [which=1] selects what
    [which="first"] selects, and a rank larger than the number of positions
    selects nothing. *)
Theorem select_in_groups_by_rank (pos key : list Z) :
  length key = length pos → Numpy.size pos ≤ 2 ^ 62 →
  _select_in_groups pos key (WInt 1) = _select_in_groups pos key (WStr "first") ∧
  (∀ n, Numpy.size pos < n ≤ 2 ^ 62 → _select_in_groups pos key (WInt n) = Ok []).
Proof.
  intros Hkey Hsize. unfold _select_in_groups.
  destruct (Z.eqb_spec (Numpy.size pos) 0) as [Hz|Hne].
  { split; [done|]. intros n _. by rewrite (size_zero_nil _ Hz). }
  destruct (group_starts pos key Hkey Hne) as [Hinc Hrange].
  set (changes := zip_with _ _ _) in *.
  set (start_idx := Numpy.flatnonzero (true :: changes)) in *.
  assert (Forall (λ y, y ≤ Numpy.size pos - 1)
            (((λ i, i - 1) <$> drop 1 start_idx) ++ [Numpy.size pos - 1])) as Hends.
  { apply Forall_app. split; [|by repeat constructor].
    apply Forall_fmap, Forall_forall. intros k Hk. simpl.
    rewrite Forall_forall in Hrange.
    assert (k ∈ start_idx) as Hin
      by (eapply elem_of_sublist; [exact Hk|apply sublist_drop]).
    apply Hrange in Hin. lia. }
  assert (∀ n, 1 ≤ n ≤ 2 ^ 62 →
            (λ i, Numpy.add_int64 i (n - 1)) <$> start_idx
            = (λ i, i + (n - 1)) <$> start_idx) as Hnth.
  { intros n Hn. apply Forall_fmap_ext_1. eapply Forall_impl; [exact Hrange|].
    intros k Hk. simpl in *. apply add_int64_exact. lia. }
  cbn [which_is]. split.
  - change (which_is (WStr "first") "all") with false.
    change (which_is (WStr "first") "first") with true. cbv iota.
    change (1 <=? 1) with true. change (Numpy.fits_int64 (1 - 1)) with true. cbv iota.
    rewrite Hnth by lia.
    assert ((λ i, i + (1 - 1)) <$> start_idx = start_idx) as ->.
    { rewrite <- (list_fmap_id start_idx) at 2.
      apply Forall_fmap_ext_1, Forall_true. intros i. simpl. lia. }
    f_equal. apply compress_all_true.
    change start_idx with (0 :: Numpy.flatnonzero_from 1 changes) in *.
    simpl drop. apply group_bounds; [done|].
    eapply Forall_impl; [exact Hrange|]. simpl. lia.
  - intros n Hn. pose proof (size_nonneg pos) as Hpos.
    destruct (Z.leb_spec 1 n) as [_|?]; [|lia].
    unfold Numpy.fits_int64. rewrite bool_decide_eq_true_2 by lia.
    rewrite Hnth by lia.
    rewrite (compress_all_false _ _ (Numpy.size pos - 1)); [done| |exact Hends].
    apply Forall_fmap. eapply Forall_impl; [exact Hrange|]. intros k Hk. simpl in *. lia.
Qed.

Lemma select_in_groups_by_rank_witness :
  _select_in_groups [3; 4; 7; 8; 9] [1; 1; 2; 2; 2] (WInt 1) = Ok [3; 7] ∧
  _select_in_groups [3; 4; 7; 8; 9] [1; 1; 2; 2; 2] (WInt 1)
  = _select_in_groups [3; 4; 7; 8; 9] [1; 1; 2; 2; 2] (WStr "first") ∧
  (∀ n, Numpy.size [3; 4; 7; 8; 9] < n ≤ 2 ^ 62 →
        _select_in_groups [3; 4; 7; 8; 9] [1; 1; 2; 2; 2] (WInt n) = Ok []).
Proof.
  split; [reflexivity|].
  apply (select_in_groups_by_rank [3; 4; 7; 8; 9] [1; 1; 2; 2; 2]);
    [reflexivity|by vm_compute].
Defined.

(** ** Selection of the first and the last position of each group *)

Section groups.
Variable f : Z → Z.
Variable pos : list Z.
Hypothesis Hf : ∀ a b, a ≤ b → f a ≤ f b.
Hypothesis Hpos : increasing pos.

Let key : list Z := f <$> pos.
Let changes : list bool :=
  zip_with (λ a b, negb (a =? b)) (drop 1 key) (take (length key - 1)%nat key).

Lemma key_changes_lookup (i : nat) (p q : Z) :
  pos !! i = Some p → pos !! S i = Some q → changes !! i = Some (negb (f q =? f p)).
Proof.
  intros Hp Hq. unfold changes. apply lookup_zip_with_Some.
  exists (f q), (f p). split_and!; [done| |].
  - rewrite lookup_drop. simpl. unfold key. by rewrite list_lookup_fmap, Hq.
  - rewrite lookup_take_lt.
    + unfold key. by rewrite list_lookup_fmap, Hp.
    + apply lookup_lt_Some in Hq. unfold key. rewrite length_fmap. lia.
Qed.

Lemma key_changes_lookup_inv (i : nat) (t : bool) :
  changes !! i = Some t →
  ∃ p q, pos !! i = Some p ∧ pos !! S i = Some q ∧ t = negb (f q =? f p).
Proof.
  intros (a & b & -> & Ha & Hb)%lookup_zip_with_Some.
  rewrite lookup_drop in Ha. simpl in Ha. apply lookup_take_Some in Hb as [Hb _].
  unfold key in *. rewrite list_lookup_fmap in Ha, Hb.
  destruct (pos !! S i) as [q|] eqn:Hq; [|done].
  destruct (pos !! i) as [p|] eqn:Hp; [|done].
  simplify_eq/=. eauto.
Qed.

Lemma select_first_of_groups (sel : list Z) :
  _select_in_groups pos key (WStr "first") = Ok sel →
  ∀ p, p ∈ sel ↔ p ∈ pos ∧ ∀ p', p' ∈ pos → p' < p → f p' ≠ f p.
Proof.
  unfold _select_in_groups.
  destruct (Z.eqb_spec (Numpy.size pos) 0) as [Hz|Hne].
  { intros [= <-] p. rewrite (size_zero_nil _ Hz).
    split; [by intros ?%elem_of_nil|by intros [?%elem_of_nil _]]. }
  change (which_is (WStr "first") "all") with false.
  change (which_is (WStr "first") "first") with true. cbv iota. fold changes.
  intros Hsel p. split.
  - intros Hp.
    destruct (take_idx_elem_of _ _ _ _ Hsel Hp)
      as (k & [Hk0 Hk]%elem_of_flatnonzero & Hitem).
    apply item_Ok_lookup in Hitem; [|done].
    split; [by eapply list_elem_of_lookup_2|].
    intros p' [j Hj]%list_elem_of_lookup_1 Hlt.
    pose proof (increasing_lookup_inv _ _ _ _ _ Hpos Hj Hitem Hlt) as Hji.
    destruct (Z.to_nat k) as [|i] eqn:Hi; [lia|]. simpl in Hk.
    apply key_changes_lookup_inv in Hk as (q & q' & Hq & Hq' & Ht).
    rewrite Hitem in Hq'. injection Hq' as <-.
    symmetry in Ht. apply negb_true_iff, Z.eqb_neq in Ht.
    assert (p' ≤ q) as Hp'q.
    { destruct (decide (j = i)) as [->|?]; [by simplify_eq|].
      pose proof (increasing_lookup pos j i p' q Hpos Hj Hq). lia. }
    pose proof (increasing_lookup pos i (S i) q p Hpos Hq Hitem).
    pose proof (Hf p' q). pose proof (Hf q p). lia.
  - intros [[i Hi]%list_elem_of_lookup_1 Hfirst].
    eapply (take_idx_elem_of_2 _ _ _ (Z.of_nat i)); [exact Hsel| |].
    + apply elem_of_flatnonzero. split; [lia|]. rewrite Nat2Z.id.
      destruct i as [|i]; [done|]. simpl.
      destruct (lookup_lt_is_Some_2 pos i) as [q Hq]; [apply lookup_lt_Some in Hi; lia|].
      rewrite (key_changes_lookup i q p Hq Hi). f_equal.
      apply negb_true_iff, Z.eqb_neq. intros Heq.
      apply (Hfirst q); [by eapply list_elem_of_lookup_2| |done].
      apply (increasing_lookup pos i (S i)); (done || lia).
    + apply item_lookup; [lia|]. by rewrite Nat2Z.id.
Qed.

Lemma end_idx_spec (k : Z) :
  k ∈ ((λ i, i - 1) <$> drop 1 (Numpy.flatnonzero (true :: changes)))
      ++ [Numpy.size pos - 1] ↔
  (0 ≤ k ∧ changes !! Z.to_nat k = Some true) ∨ k = Numpy.size pos - 1.
Proof.
  change (Numpy.flatnonzero (true :: changes)) with (0 :: Numpy.flatnonzero_from 1 changes).
  simpl drop. rewrite elem_of_app, list_elem_of_singleton, list_elem_of_fmap.
  split.
  - intros [(i & -> & (j & -> & Hj)%flatnonzero_from_spec)| ->]; [left|by right].
    split; [lia|]. by replace (Z.to_nat (1 + Z.of_nat j - 1)) with j by lia.
  - intros [[Hk Hc]| ->]; [left|by right].
    exists (k + 1). split; [lia|]. apply flatnonzero_from_spec.
    exists (Z.to_nat k). split; [lia|done].
Qed.

Lemma select_last_of_groups (sel : list Z) :
  _select_in_groups pos key (WStr "last") = Ok sel →
  ∀ p, p ∈ sel ↔ p ∈ pos ∧ ∀ p', p' ∈ pos → p < p' → f p' ≠ f p.
Proof.
  unfold _select_in_groups.
  destruct (Z.eqb_spec (Numpy.size pos) 0) as [Hz|Hne].
  { intros [= <-] p. rewrite (size_zero_nil _ Hz).
    split; [by intros ?%elem_of_nil|by intros [?%elem_of_nil _]]. }
  change (which_is (WStr "last") "all") with false.
  change (which_is (WStr "last") "first") with false.
  change (which_is (WStr "last") "last") with true. cbv iota. fold changes.
  intros Hsel p. split.
  - intros Hp.
    destruct (take_idx_elem_of _ _ _ _ Hsel Hp) as (k & Hk%end_idx_spec & Hitem).
    destruct Hk as [[Hk0 Hc]| ->].
    + apply item_Ok_lookup in Hitem; [|done].
      split; [by eapply list_elem_of_lookup_2|].
      apply key_changes_lookup_inv in Hc as (q & q' & Hq & Hq' & Ht).
      rewrite Hitem in Hq. injection Hq as <-.
      symmetry in Ht. apply negb_true_iff, Z.eqb_neq in Ht.
      intros p' [j Hj]%list_elem_of_lookup_1 Hlt.
      pose proof (increasing_lookup_inv _ _ _ _ _ Hpos Hitem Hj Hlt) as Hkj.
      assert (q' ≤ p') as Hq'p.
      { destruct (decide (j = S (Z.to_nat k))) as [->|?]; [by simplify_eq|].
        pose proof (increasing_lookup pos (S (Z.to_nat k)) j q' p' Hpos Hq' Hj). lia. }
      pose proof (increasing_lookup pos (Z.to_nat k) (S (Z.to_nat k)) p q' Hpos Hitem Hq').
      pose proof (Hf p q'). pose proof (Hf q' p'). lia.
    + unfold Numpy.size in *. apply item_Ok_lookup in Hitem; [|lia].
      split; [by eapply list_elem_of_lookup_2|].
      intros p' [j Hj]%list_elem_of_lookup_1 Hlt.
      pose proof (increasing_lookup_inv _ _ _ _ _ Hpos Hitem Hj Hlt).
      apply lookup_lt_Some in Hj. lia.
  - intros [[i Hi]%list_elem_of_lookup_1 Hlast].
    eapply (take_idx_elem_of_2 _ _ _ (Z.of_nat i)); [exact Hsel| |].
    + apply end_idx_spec. destruct (pos !! S i) as [q|] eqn:Hq.
      * left. split; [lia|]. rewrite Nat2Z.id.
        rewrite (key_changes_lookup i p q Hi Hq). f_equal.
        apply negb_true_iff, Z.eqb_neq.
        apply Hlast; [by eapply list_elem_of_lookup_2|].
        apply (increasing_lookup pos i (S i)); (done || lia).
      * right. apply lookup_ge_None in Hq. apply lookup_lt_Some in Hi.
        unfold Numpy.size. lia.
    + apply item_lookup; [lia|]. by rewrite Nat2Z.id.
Qed.
End groups.

(** ** The civil calendar *)

Lemma year_of_era_range (doe : Z) : 0 ≤ doe < 146097 → 0 ≤ year_of_era doe ≤ 399.
Proof. intros H. unfold year_of_era. Z.div_mod_to_equations; lia. Qed.

Lemma year_start_le (doe : Z) : 0 ≤ doe < 146097 → year_start (year_of_era doe) ≤ doe.
Proof. intros H. unfold year_of_era, year_start. Z.div_mod_to_equations; lia. Qed.

Lemma year_start_gt (doe : Z) :
  0 ≤ doe < 146096 → doe < year_start (year_of_era doe + 1).
Proof. intros H. unfold year_of_era, year_start. Z.div_mod_to_equations; lia. Qed.

Lemma year_start_mono (a b : Z) : a ≤ b → year_start a ≤ year_start b.
Proof. intros H. unfold year_start. Z.div_mod_to_equations; lia. Qed.

Lemma year_start_next (a : Z) : 365 ≤ year_start (a + 1) - year_start a ≤ 366.
Proof. unfold year_start. Z.div_mod_to_equations; lia. Qed.

Lemma day_of_year_range (doe : Z) :
  0 ≤ doe < 146097 → 0 ≤ doe - year_start (year_of_era doe) ≤ 365.
Proof.
  intros H. pose proof (year_start_le doe H). split; [lia|].
  destruct (decide (doe = 146096)) as [->|?]; [by vm_compute|].
  pose proof (year_start_gt doe ltac:(lia)).
  pose proof (year_start_next (year_of_era doe)). lia.
Qed.

Lemma year_of_era_step (doe : Z) :
  0 ≤ doe < 146095 →
  year_of_era (doe + 1) = year_of_era doe ∨
  (year_of_era (doe + 1) = year_of_era doe + 1 ∧
   doe + 1 = year_start (year_of_era doe + 1)).
Proof.
  intros H.
  pose proof (year_start_le doe ltac:(lia)) as L1.
  pose proof (year_start_gt doe ltac:(lia)) as U1.
  pose proof (year_start_le (doe + 1) ltac:(lia)) as L2.
  pose proof (year_start_gt (doe + 1) ltac:(lia)) as U2.
  set (y := year_of_era doe) in *. set (y' := year_of_era (doe + 1)) in *.
  destruct (Z.lt_trichotomy y' y) as [Hlt|[Heq|Hgt]].
  - pose proof (year_start_mono (y' + 1) y ltac:(lia)). lia.
  - by left.
  - right. pose proof (year_start_mono (y + 1) y' ltac:(lia)).
    destruct (decide (y' = y + 1)) as [Heq|Hne]; [rewrite Heq in *; lia|].
    pose proof (year_start_mono (y + 2) y' ltac:(lia)).
    pose proof (year_start_next (y + 1)).
    replace (y + 1 + 1) with (y + 2) in * by lia. lia.
Qed.

Lemma month_of_era_step (doe : Z) :
  0 ≤ doe < 146096 →
  month_of_era doe ≤ month_of_era (doe + 1) ≤ month_of_era doe + 1.
Proof.
  intros H. destruct (decide (doe = 146095)) as [->|Hne]; [by vm_compute|].
  unfold month_of_era.
  pose proof (year_start_le doe ltac:(lia)) as L1.
  pose proof (year_start_gt doe ltac:(lia)) as U1.
  pose proof (year_start_next (year_of_era doe)) as N.
  destruct (year_of_era_step doe ltac:(lia)) as [->|[-> Heq]].
  - set (y := year_of_era doe) in *. Z.div_mod_to_equations; lia.
  - rewrite Heq, Z.sub_diag. change ((5 * 0 + 2) `div` 153) with 0.
    set (y := year_of_era doe) in *.
    assert (364 ≤ doe - year_start y ≤ 365) as Hd by lia.
    Z.div_mod_to_equations; lia.
Qed.

(** Year and month of a date, by era, year of the era and month of the era. *)
Lemma civil_from_days_era (d : Z) :
  let z := d + 719468 in
  let doe := z `mod` 146097 in
  let mp := month_of_era doe - year_of_era doe * 12 in
  0 ≤ mp ≤ 11 ∧
  Datetime.civil_month d = (if mp <? 10 then mp + 3 else mp - 9) ∧
  Datetime.civil_year d
  = year_of_era doe + z `div` 146097 * 400 + (if mp <? 10 then 0 else 1).
Proof.
  intros z doe mp.
  unfold Datetime.civil_month, Datetime.civil_year, Datetime.civil_from_days.
  cbv zeta. cbn [fst snd]. fold z.
  assert (z - z `div` 146097 * 146097 = doe) as ->
    by (unfold doe; Z.div_mod_to_equations; lia).
  assert (0 ≤ doe < 146097) as Hdoe by (apply Z.mod_pos_bound; lia).
  fold (year_of_era doe). fold (year_start (year_of_era doe)).
  pose proof (day_of_year_range doe Hdoe) as Hdoy.
  assert ((5 * (doe - year_start (year_of_era doe)) + 2) `div` 153 = mp) as ->
    by (unfold mp, month_of_era; lia).
  assert (0 ≤ mp ≤ 11) as Hmp.
  { unfold mp, month_of_era.
    set (doy := doe - year_start (year_of_era doe)) in *.
    Z.div_mod_to_equations; lia. }
  split; [done|]. split; [done|].
  destruct (Z.ltb_spec mp 10).
  - destruct (Z.leb_spec (mp + 3) 2); lia.
  - destruct (Z.leb_spec (mp - 9) 2); lia.
Qed.

Lemma civil_month_range (d : Z) : 1 ≤ Datetime.civil_month d ≤ 12.
Proof.
  destruct (civil_from_days_era d) as (Hmp & -> & _).
  destruct (Z.ltb_spec (month_of_era ((d + 719468) `mod` 146097)
                        - year_of_era ((d + 719468) `mod` 146097) * 12) 10); lia.
Qed.

Lemma civil_year_range (d : Z) :
  -719162 ≤ d ≤ 2932896 → 0 ≤ Datetime.civil_year d ≤ 10000.
Proof.
  intros Hd. destruct (civil_from_days_era d) as (Hmp & _ & ->).
  pose proof (year_of_era_range ((d + 719468) `mod` 146097)
                ltac:(apply Z.mod_pos_bound; lia)) as Hy.
  assert (0 ≤ (d + 719468) `div` 146097 ≤ 24) by (Z.div_mod_to_equations; lia).
  destruct (_ <? 10); lia.
Qed.

Lemma as_months_month_of_era (d : Z) :
  Datetime.as_months d
  = (d + 719468) `div` 146097 * 4800 + month_of_era ((d + 719468) `mod` 146097) - 23638.
Proof.
  unfold Datetime.as_months.
  destruct (civil_from_days_era d) as (Hmp & -> & ->).
  destruct (Z.ltb_spec (month_of_era ((d + 719468) `mod` 146097)
                        - year_of_era ((d + 719468) `mod` 146097) * 12) 10); lia.
Qed.

Lemma as_months_step (d : Z) :
  Datetime.as_months d ≤ Datetime.as_months (d + 1) ≤ Datetime.as_months d + 1.
Proof.
  rewrite !as_months_month_of_era.
  replace (d + 1 + 719468) with (d + 719468 + 1) by lia.
  set (z := d + 719468).
  assert (0 ≤ z `mod` 146097 < 146097) as Hdoe by (apply Z.mod_pos_bound; lia).
  destruct (decide (z `mod` 146097 = 146096)) as [Hlast|Hne].
  - assert ((z + 1) `div` 146097 = z `div` 146097 + 1) as ->
      by (Z.div_mod_to_equations; lia).
    assert ((z + 1) `mod` 146097 = 0) as -> by (Z.div_mod_to_equations; lia).
    rewrite Hlast.
    change (month_of_era 0) with 0. change (month_of_era 146096) with 4799. lia.
  - assert ((z + 1) `div` 146097 = z `div` 146097) as ->
      by (Z.div_mod_to_equations; lia).
    assert ((z + 1) `mod` 146097 = z `mod` 146097 + 1) as ->
      by (Z.div_mod_to_equations; lia).
    pose proof (month_of_era_step (z `mod` 146097) ltac:(lia)). lia.
Qed.

Lemma as_months_mono (a b : Z) :
  a ≤ b → Datetime.as_months a ≤ Datetime.as_months b.
Proof.
  intros Hab. replace b with (a + Z.of_nat (Z.to_nat (b - a))) by lia.
  induction (Z.to_nat (b - a)) as [|n IH]; [by rewrite Z.add_0_r|].
  pose proof (as_months_step (a + Z.of_nat n)).
  replace (a + Z.of_nat (S n)) with (a + Z.of_nat n + 1) by lia. lia.
Qed.

Lemma period_number_mono (frequency : string) (a b : Z) :
  a ≤ b → period_number frequency a ≤ period_number frequency b.
Proof.
  intros Hab%as_months_mono. unfold Datetime.as_months in Hab.
  pose proof (civil_month_range a). pose proof (civil_month_range b).
  unfold period_number. cbv zeta. repeat case_match; Z.div_mod_to_equations; lia.
Qed.

Lemma period_number_eq (frequency : string) (a b : Z) :
  period_number frequency a = period_number frequency b ↔
  period_of frequency a = period_of frequency b.
Proof.
  pose proof (civil_month_range a). pose proof (civil_month_range b).
  unfold period_number, period_of. cbv zeta.
  repeat case_match;
    (split; [intros Heq; f_equal|intros [=]]; Z.div_mod_to_equations; lia).
Qed.

(** ** The derived arrays of the universe *)

Lemma take_idx_fmap_days {A} (g : Z → A) (u : DateUniverse) (idx : list Z) :
  Forall (λ k, 0 ≤ k < len u) idx →
  Numpy.take_idx (g <$> days u) idx = Ok ((λ k, g (start64 u + k)) <$> idx).
Proof.
  intros H. apply take_idx_Ok, Forall2_fmap_r, Forall_Forall2_diag.
  eapply Forall_impl; [done|]. intros k Hk. simpl in Hk |- *.
  apply item_lookup; [lia|]. rewrite list_lookup_fmap, days_lookup by lia.
  simpl. do 2 f_equal. lia.
Qed.

Lemma year_cast (d : Z) :
  -719162 ≤ d ≤ 2932896 →
  Numpy.to_int32 (Datetime.as_years d + 1970) = Datetime.civil_year d.
Proof.
  intros Hd%civil_year_range. unfold Datetime.as_years, Numpy.to_int32, Numpy.wrap_signed.
  replace (Datetime.civil_year d - 1970 + 1970) with (Datetime.civil_year d) by lia.
  change (2 ^ (32 - 1)) with 2147483648. change (2 ^ 32) with 4294967296.
  rewrite Z.mod_small; lia.
Qed.

Lemma month_cast (d : Z) :
  Numpy.to_uint8
    (Datetime.as_months d - Datetime.years_as_months (Datetime.as_years d) + 1)
  = Datetime.civil_month d.
Proof.
  pose proof (civil_month_range d).
  unfold Datetime.as_months, Datetime.years_as_months, Datetime.as_years, Numpy.to_uint8.
  replace ((Datetime.civil_year d - 1970) * 12 + (Datetime.civil_month d - 1)
           - (Datetime.civil_year d - 1970) * 12 + 1)
    with (Datetime.civil_month d) by lia.
  rewrite Z.mod_small; lia.
Qed.

Lemma quarter_cast (m : Z) :
  1 ≤ m ≤ 12 →
  Numpy.to_uint8 ((m - 1) `div` 3 + 1) = (m - 1) `div` 3 + 1 ∧
  Numpy.to_uint8 ((m - 1) `div` 6 + 1) = (m - 1) `div` 6 + 1.
Proof.
  intros Hm. unfold Numpy.to_uint8.
  split; rewrite Z.mod_small; Z.div_mod_to_equations; lia.
Qed.

(** X26. On a date of the universe [quarter] returns a number from 1 to 4,
    the quarter of the civil month of the date, and [semester] returns the
    semester of that quarter: 1 for quarters 1 and 2, 2 for quarters 3
    and 4. *)
Theorem quarter_and_semester_of_a_date (c : Calendar) (d : Z) :
  inside c d →
  ∃ q s, Calendar_quarter c d = Ok q ∧ Calendar_semester c d = Ok s ∧
         1 ≤ q ≤ 4 ∧ q = (Datetime.civil_month d + 2) `div` 3 ∧ s = (q + 1) `div` 2.
Proof.
  unfold inside, self_start_date, self_end_date. intros Hd.
  pose proof (civil_month_range d) as Hm.
  destruct (quarter_cast _ Hm) as [Hq Hs].
  exists ((Datetime.civil_month d - 1) `div` 3 + 1),
         ((Datetime.civil_month d - 1) `div` 6 + 1).
  assert (∀ g : Z → Z,
            Numpy.item (g <$> month (universe c)) (d - start64 (universe c))
            = Ok (g (Datetime.civil_month d))) as Hitem.
  { intros g. apply item_lookup; [lia|].
    unfold month. rewrite !list_lookup_fmap, days_lookup.
    - simpl. rewrite Z2Nat.id by lia.
      replace (start64 (universe c) + (d - start64 (universe c))) with d by lia.
      by rewrite month_cast.
    - pose proof (len_n_days (universe c)). unfold n_days in *. lia. }
  split.
  { unfold Calendar_quarter. rewrite locate_inside by done. cbn [mbind result_bind].
    unfold quarter. by rewrite Hitem, Hq. }
  split.
  { unfold Calendar_semester. rewrite locate_inside by done. cbn [mbind result_bind].
    unfold semester. by rewrite Hitem, Hs. }
  Z.div_mod_to_equations; lia.
Qed.

Lemma quarter_and_semester_of_a_date_witness :
  Calendar_quarter january_2026 20470 = Ok 1 ∧
  ∃ q s, Calendar_quarter january_2026 20470 = Ok q ∧
         Calendar_semester january_2026 20470 = Ok s ∧
         1 ≤ q ≤ 4 ∧ q = (Datetime.civil_month 20470 + 2) `div` 3 ∧ s = (q + 1) `div` 2.
Proof.
  split; [reflexivity|].
  apply (quarter_and_semester_of_a_date january_2026 20470).
  unfold inside, self_start_date, self_end_date. simpl. lia.
Defined.

Lemma year_frequency_is_not_week (frequency : string) :
  frequency_is frequency "Y" "year" "Year" "YEAR" = true →
  frequency_is frequency "W" "week" "Week" "WEEK" = false.
Proof.
  unfold frequency_is. intros H.
  repeat (apply orb_prop in H as [H|H]); apply String.eqb_eq in H; by subst.
Qed.

Lemma period_key_month_based (c : Calendar) (frequency : string) (pos : list Z) :
  representable (universe c) → month_based frequency = true →
  Forall (λ k, 0 ≤ k < len (universe c)) pos →
  period_key c frequency pos
  = Ok ((λ k, period_number frequency (self_start_date c + k)) <$> pos).
Proof.
  intros [Hlo Hhi] Hf Hpos.
  assert (Forall (λ k, -719162 ≤ self_start_date c + k ≤ 2932896) pos) as Hbound.
  { eapply Forall_impl; [exact Hpos|]. intros k Hk. simpl in Hk.
    pose proof (len_n_days (universe c)). unfold n_days, self_start_date in *. lia. }
  unfold month_based in Hf. unfold period_key, period_number. cbv zeta.
  destruct (frequency_is frequency "M" "month" "Month" "MONTH").
  { unfold month_key, year, month.
    rewrite zip_with_fmap_l, zip_with_fmap_r, zip_with_diag.
    rewrite (take_idx_fmap_days _ _ _ Hpos). f_equal.
    apply Forall_fmap_ext_1. eapply Forall_impl; [exact Hbound|].
    intros k Hk. simpl. unfold self_start_date in *.
    by rewrite year_cast, month_cast. }
  destruct (frequency_is frequency "Q" "quarter" "Quarter" "QUARTER").
  { unfold year, quarter, month. rewrite <- list_fmap_compose.
    rewrite !(take_idx_fmap_days _ _ _ Hpos). cbn [mbind result_bind].
    rewrite zip_with_fmap_l, zip_with_fmap_r, zip_with_diag. f_equal.
    apply Forall_fmap_ext_1. eapply Forall_impl; [exact Hbound|].
    intros k Hk. simpl. unfold self_start_date in *.
    rewrite year_cast, month_cast by done.
    by destruct (quarter_cast _ (civil_month_range (start64 (universe c) + k))) as [-> _]. }
  destruct (frequency_is frequency "S" "semester" "Semester" "SEMESTER").
  { unfold year, semester, month. rewrite <- list_fmap_compose.
    rewrite !(take_idx_fmap_days _ _ _ Hpos). cbn [mbind result_bind].
    rewrite zip_with_fmap_l, zip_with_fmap_r, zip_with_diag. f_equal.
    apply Forall_fmap_ext_1. eapply Forall_impl; [exact Hbound|].
    intros k Hk. simpl. unfold self_start_date in *.
    rewrite year_cast, month_cast by done.
    by destruct (quarter_cast _ (civil_month_range (start64 (universe c) + k))) as [_ ->]. }
  simpl in Hf. rewrite (year_frequency_is_not_week _ Hf), Hf.
  unfold year. rewrite (take_idx_fmap_days _ _ _ Hpos). f_equal.
  apply Forall_fmap_ext_1. eapply Forall_impl; [exact Hbound|].
  intros k Hk. simpl. unfold self_start_date in *. by rewrite year_cast.
Qed.

(** ** Business schedules by calendar period *)

(** For the month, quarter, semester and year frequencies, on a
    universe within the years 1 to 9999: [schedule_business_out64] with
    [which="first"] returns exactly the business days of the range that no
    earlier business day of the range shares the period with, and with
    [which="last"] exactly those that no later one shares it with. *)
Lemma schedule_business_first_and_last_of_each_period_out64 (c : Calendar)
    (frequency : string) (start_date end_date : option Z) (b : list Z) :
  calendar_wf c → representable (universe c) → month_based frequency = true →
  business_days_out64 c start_date end_date = Ok b →
  (∀ r,
     schedule_business_out64 c frequency (Passed (WStr "first")) start_date end_date = Ok r →
     ∀ d, d ∈ r ↔
          d ∈ b ∧
          ∀ d', d' ∈ b → d' < d → period_of frequency d' ≠ period_of frequency d) ∧
  (∀ r,
     schedule_business_out64 c frequency (Passed (WStr "last")) start_date end_date = Ok r →
     ∀ d, d ∈ r ↔
          d ∈ b ∧
          ∀ d', d' ∈ b → d < d' → period_of frequency d' ≠ period_of frequency d).
Proof.
  intros Hwf Hrep Hfreq Hb.
  unfold business_days_out64 in Hb. rewrite range_indices_defaults in Hb.
  inv_Ok Hb. destruct a as [i0 i1].
  pose proof (business_slice_range c i0 i1 Hwf) as Hrange.
  assert (increasing (Numpy.slice (business_position c)
            (Numpy.searchsorted (business_position c) i0 Numpy.Left)
            (Numpy.searchsorted (business_position c) i1 Numpy.Right))) as Hinc.
  { rewrite slice_searchsorted by by apply business_position_increasing.
    eapply increasing_sublist; [apply sublist_filter|by apply business_position_increasing]. }
  set (pos := Numpy.slice _ _ _) in *.
  rewrite (take_idx_days _ pos Hrange) in Hb. injection Hb as <-.
  set (start := start64 (universe c)).
  set (f := λ k, period_number frequency (start + k)).
  assert (∀ x y, x ≤ y → f x ≤ f y) as Hf
    by (intros x y Hxy; apply period_number_mono; lia).
  assert (∀ which r,
            schedule_business_out64 c frequency (Passed which) start_date end_date = Ok r →
            (pos = [] ∧ r = []) ∨
            ∃ sel, _select_in_groups pos (f <$> pos) which = Ok sel ∧
                   r = (λ k, start + k) <$> sel) as Hcases.
  { intros which r H. unfold schedule_business_out64 in H. rewrite Ha in H.
    cbn [mbind result_bind or_default] in H. fold pos in H.
    destruct (Z.eqb_spec (Numpy.size pos) 0) as [Hz|_].
    - left. injection H as <-. split; [by apply size_zero_nil|done].
    - right. rewrite (period_key_month_based c frequency pos Hrep Hfreq Hrange) in H.
      cbn [mbind result_bind] in H. unfold self_start_date in H. fold start in H. fold f in H.
      apply bind_Ok_inv in H as (sel & Hsel & H). exists sel. split; [done|].
      pose proof (select_in_groups_subseteq _ _ _ _ Hsel) as Hsub.
      rewrite take_idx_days in H; [by injection H as <-|].
      rewrite Forall_forall in Hrange |- *. intros k Hk. by apply Hrange, Hsub. }
  assert (∀ (lt : Z → Z → Prop) (sel : list Z),
            (∀ x y, lt (start + x) (start + y) → lt x y) →
            (∀ x y, lt x y → lt (start + x) (start + y)) →
            (∀ p, p ∈ sel ↔ p ∈ pos ∧ ∀ p', p' ∈ pos → lt p' p → f p' ≠ f p) →
            ∀ d, d ∈ (λ k, start + k) <$> sel ↔
                 d ∈ (λ k, start + k) <$> pos ∧
                 ∀ d', d' ∈ (λ k, start + k) <$> pos → lt d' d →
                       period_of frequency d' ≠ period_of frequency d) as Htransport.
  { intros lt sel Hlt1 Hlt2 Hsel d. rewrite !list_elem_of_fmap. split.
    - intros (p & -> & [Hp Hfirst]%Hsel). split; [eauto|].
      intros d' (p' & -> & Hp')%list_elem_of_fmap Hd' Heq.
      apply (Hfirst p' Hp'); [by apply Hlt1|]. unfold f. by apply period_number_eq.
    - intros [(p & -> & Hp) Hfirst]. exists p. split; [done|]. apply Hsel.
      split; [done|]. intros p' Hp' Hlt' Heq.
      apply (Hfirst (start + p')); [apply list_elem_of_fmap; eauto|by apply Hlt2|].
      by apply period_number_eq. }
  split.
  - intros r H d. destruct (Hcases _ _ H) as [[Hnil ->]|(sel & Hsel & ->)].
    + rewrite Hnil. simpl. split; [by intros ?%elem_of_nil|by intros [?%elem_of_nil _]].
    + apply (Htransport Z.lt sel); [intros; lia|intros; lia|].
      by apply (select_first_of_groups f pos Hf Hinc sel).
  - intros r H d. destruct (Hcases _ _ H) as [[Hnil ->]|(sel & Hsel & ->)].
    + rewrite Hnil. simpl. split; [by intros ?%elem_of_nil|by intros [?%elem_of_nil _]].
    + apply (Htransport (λ x y, y < x) sel); [intros; lia|intros; lia|].
      by apply (select_last_of_groups f pos Hf Hinc sel).
Qed.

(** ** The builders that go date by date *)

Lemma civil_year_mono (a b : Z) :
  a ≤ b → Datetime.civil_year a ≤ Datetime.civil_year b.
Proof.
  intros Hab%as_months_mono. unfold Datetime.as_months in Hab.
  pose proof (civil_month_range a). pose proof (civil_month_range b). lia.
Qed.

Lemma civil_year_datetime (d : Z) :
  1 ≤ Datetime.civil_year d ≤ 9999 ↔ -719162 ≤ d ≤ 2932896.
Proof.
  split.
  - intros Hy. split.
    + destruct (decide (-719162 ≤ d)) as [?|Hlt]; [done|].
      pose proof (civil_year_mono d (-719163) ltac:(lia)) as Hm.
      change (Datetime.civil_year (-719163)) with 0 in Hm. lia.
    + destruct (decide (d ≤ 2932896)) as [?|Hgt]; [done|].
      pose proof (civil_year_mono 2932897 d ltac:(lia)) as Hm.
      change (Datetime.civil_year 2932897) with 10000 in Hm. lia.
  - intros Hd.
    pose proof (civil_year_mono (-719162) d ltac:(lia)) as Hlo.
    pose proof (civil_year_mono d 2932896 ltac:(lia)) as Hhi.
    change (Datetime.civil_year (-719162)) with 1 in Hlo.
    change (Datetime.civil_year 2932896) with 9999 in Hhi. lia.
Qed.

Lemma fromisoformat_datetime (d : Z) :
  Datetime.fromisoformat d
  = if bool_decide (-719162 ≤ d ≤ 2932896) then Ok d
    else Raise (ValueError (InvalidIsoDate d)).
Proof.
  unfold Datetime.fromisoformat. pose proof (civil_year_datetime d).
  repeat case_bool_decide; tauto.
Qed.


Lemma mapM_raises {A B} (f : A → result B) (l : list A) (x : A) :
  x ∈ l → raises (f x) → raises (mapM f l).
Proof.
  intros Hx Hraise. induction l as [|y l IH]; [by apply elem_of_nil in Hx|].
  change (mapM f (y :: l)) with (z ← f y; k ← mapM f l; mret (z :: k)).
  apply raises_bind. intros z Hz. apply elem_of_cons in Hx as [->|Hx].
  - destruct Hraise as [e He]. congruence.
  - apply raises_bind. intros k Hk. destruct (IH Hx) as [e He]. congruence.
Qed.

Lemma mapM_ext {A B} (f g : A → result B) (l : list A) :
  Forall (λ x, f x = g x) l → mapM f l = mapM g l.
Proof.
  induction 1 as [|x l Hx _ IH]; [done|].
  change (mapM f (x :: l)) with (y ← f x; k ← mapM f l; mret (y :: k)).
  change (mapM g (x :: l)) with (y ← g x; k ← mapM g l; mret (y :: k)).
  by rewrite Hx, IH.
Qed.

Lemma mask_per_day_datetime (is_open : Z → result bool) (u : DateUniverse) :
  (representable u → mask_per_day is_open u = mapM is_open (days u)) ∧
  (start64 u ≤ end64 u → ¬ representable u → raises (mask_per_day is_open u)).
Proof.
  unfold mask_per_day, representable. split.
  - intros Hrep. apply mapM_ext, Forall_forall.
    intros d [i [-> Hi]%days_lookup_Some]%list_elem_of_lookup_1.
    pose proof (len_n_days u). unfold n_days in *.
    rewrite fromisoformat_datetime, bool_decide_eq_true_2 by lia. done.
  - intros Hne Hrep.
    assert (∃ d, d ∈ days u ∧ ¬ (-719162 ≤ d ≤ 2932896)) as (d & Hd & Hout).
    { pose proof (len_n_days u). unfold n_days in *.
      destruct (decide (-719162 ≤ start64 u)) as [?|?].
      - exists (end64 u). split; [|lia].
        apply (list_elem_of_lookup_2 _ (Z.to_nat (end64 u - start64 u))).
        apply days_lookup_Some. split; lia.
      - exists (start64 u). split; [|lia].
        apply (list_elem_of_lookup_2 _ 0%nat). apply days_lookup_Some. split; lia. }
    apply (mapM_raises _ _ d Hd).
    rewrite fromisoformat_datetime, bool_decide_eq_false_2 by done.
    apply raises_Raise.
Qed.

(** ** Calendar schedules by calendar period *)

(** Selection by period over any increasing list of positions of the
    universe, read as dates. *)
Lemma selected_dates_by_period (c : Calendar) (frequency : string) (pos : list Z)
    (which : which_arg) (r : list Z) :
  representable (universe c) → month_based frequency = true →
  increasing pos → Forall (λ k, 0 ≤ k < len (universe c)) pos →
  (key ← period_key c frequency pos;
   sel ← _select_in_groups pos key which;
   Numpy.take_idx (days (universe c)) sel) = Ok r →
  (which = WStr "first" →
   ∀ d, d ∈ r ↔
        d ∈ (λ k, self_start_date c + k) <$> pos ∧
        ∀ d', d' ∈ (λ k, self_start_date c + k) <$> pos → d' < d →
              period_of frequency d' ≠ period_of frequency d) ∧
  (which = WStr "last" →
   ∀ d, d ∈ r ↔
        d ∈ (λ k, self_start_date c + k) <$> pos ∧
        ∀ d', d' ∈ (λ k, self_start_date c + k) <$> pos → d < d' →
              period_of frequency d' ≠ period_of frequency d).
Proof.
  intros Hrep Hfreq Hinc Hrange H.
  rewrite (period_key_month_based c frequency pos Hrep Hfreq Hrange) in H.
  cbn [mbind result_bind] in H.
  set (start := self_start_date c) in *.
  set (f := λ k, period_number frequency (start + k)) in *.
  assert (∀ x y, x ≤ y → f x ≤ f y) as Hf
    by (intros x y Hxy; apply period_number_mono; lia).
  apply bind_Ok_inv in H as (sel & Hsel & H).
  pose proof (select_in_groups_subseteq _ _ _ _ Hsel) as Hsub.
  rewrite take_idx_days in H;
    [|rewrite Forall_forall in Hrange |- *; intros k Hk; by apply Hrange, Hsub].
  injection H as <-. fold (self_start_date c). fold start.
  assert (∀ (lt : Z → Z → Prop),
            (∀ x y, lt (start + x) (start + y) → lt x y) →
            (∀ x y, lt x y → lt (start + x) (start + y)) →
            (∀ p, p ∈ sel ↔ p ∈ pos ∧ ∀ p', p' ∈ pos → lt p' p → f p' ≠ f p) →
            ∀ d, d ∈ (λ k, start + k) <$> sel ↔
                 d ∈ (λ k, start + k) <$> pos ∧
                 ∀ d', d' ∈ (λ k, start + k) <$> pos → lt d' d →
                       period_of frequency d' ≠ period_of frequency d) as Htransport.
  { intros lt Hlt1 Hlt2 Hchar d. rewrite !list_elem_of_fmap. split.
    - intros (p & -> & [Hp Hfirst]%Hchar). split; [eauto|].
      intros d' (p' & -> & Hp')%list_elem_of_fmap Hd' Heq.
      apply (Hfirst p' Hp'); [by apply Hlt1|]. unfold f. by apply period_number_eq.
    - intros [(p & -> & Hp) Hfirst]. exists p. split; [done|]. apply Hchar.
      split; [done|]. intros p' Hp' Hlt' Heq.
      apply (Hfirst (start + p')); [apply list_elem_of_fmap; eauto|by apply Hlt2|].
      by apply period_number_eq. }
  split; intros ->.
  - apply (Htransport Z.lt); [intros; lia|intros; lia|].
    by apply (select_first_of_groups f pos Hf Hinc sel).
  - apply (Htransport (λ x y, y < x)); [intros; lia|intros; lia|].
    by apply (select_last_of_groups f pos Hf Hinc sel).
Qed.

(** For the month, quarter, semester and year frequencies, on a
    universe within the years 1 to 9999: among the dates [schedule_calendar_out64]
    returns with [which="all"] (the dates of the requested weekday, or all
    dates), [which="first"] keeps exactly those that no earlier one shares
    the period with, and [which="last"] exactly those that no later one
    shares it with. *)
Lemma schedule_calendar_first_and_last_of_each_period_out64 (c : Calendar)
    (frequency : string) (week_day_arg : kwarg (option Z))
    (start_date end_date : option Z) (all_days : list Z) :
  representable (universe c) → month_based frequency = true →
  schedule_calendar_out64 c frequency week_day_arg (Passed (WStr "all")) start_date end_date
    = Ok all_days →
  (∀ r,
     schedule_calendar_out64 c frequency week_day_arg (Passed (WStr "first"))
       start_date end_date = Ok r →
     ∀ d, d ∈ r ↔
          d ∈ all_days ∧
          ∀ d', d' ∈ all_days → d' < d →
                period_of frequency d' ≠ period_of frequency d) ∧
  (∀ r,
     schedule_calendar_out64 c frequency week_day_arg (Passed (WStr "last"))
       start_date end_date = Ok r →
     ∀ d, d ∈ r ↔
          d ∈ all_days ∧
          ∀ d', d' ∈ all_days → d < d' →
                period_of frequency d' ≠ period_of frequency d).
Proof.
  intros Hrep Hfreq Hall. unfold schedule_calendar_out64 in Hall.
  apply bind_Ok_inv in Hall as ([i0 i1] & Hr & Hall).
  apply bind_Ok_inv in Hall as (pos & Hpos & Hall).
  pose proof (range_indices_Ok _ _ _ _ _ Hr) as (Hi0 & _ & Hi1).
  assert (pos `sublist_of` Numpy.arange i0 (i1 + 1)) as Hsub.
  { destruct (or_default (Some 1) week_day_arg) as [k|].
    - apply bind_Ok_inv in Hpos as (wds & _ & [= <-]). apply compress_sublist.
    - by injection Hpos as <-. }
  assert (increasing pos) as Hinc
    by (eapply increasing_sublist; [exact Hsub|apply increasing_seqZ]).
  assert (Forall (λ k, 0 ≤ k < len (universe c)) pos) as Hrange.
  { apply Forall_forall. intros k Hk. eapply elem_of_sublist in Hk; [|exact Hsub].
    unfold Numpy.arange in Hk. apply elem_of_seqZ in Hk. lia. }
  assert (∀ which r,
            which_is which "all" = false →
            schedule_calendar_out64 c frequency week_day_arg (Passed which) start_date end_date
              = Ok r →
            (pos = [] ∧ r = []) ∨
            (key ← period_key c frequency pos;
             sel ← _select_in_groups pos key which;
             Numpy.take_idx (days (universe c)) sel) = Ok r) as Hcases.
  { intros which r Hw H. unfold schedule_calendar_out64 in H. rewrite Hr in H.
    cbn [mbind result_bind or_default] in H. cbn [or_default] in Hpos.
    rewrite Hpos in H. cbn [mbind result_bind] in H.
    destruct (Z.eqb_spec (Numpy.size pos) 0) as [Hz|_].
    - left. injection H as <-. split; [by apply size_zero_nil|done].
    - right. rewrite Hw in H. cbn [negb] in H.
      destruct (period_key c frequency pos) as [key|]; [|done].
      cbn [mbind result_bind] in H |- *.
      by destruct (_select_in_groups pos key which). }
  assert (all_days = (λ k, self_start_date c + k) <$> pos) as ->.
  { cbn [or_default] in Hall.
    destruct (Z.eqb_spec (Numpy.size pos) 0) as [Hz|_].
    - injection Hall as <-. by rewrite (size_zero_nil _ Hz).
    - change (which_is (WStr "all") "all") with true in Hall.
      cbn [negb mbind result_bind] in Hall.
      rewrite (take_idx_days _ pos Hrange) in Hall. by injection Hall as <-. }
  split; intros r H d.
  - destruct (Hcases (WStr "first") r eq_refl H) as [[-> ->]|Hsel].
    + simpl. split; [by intros ?%elem_of_nil|by intros [?%elem_of_nil _]].
    + by apply (selected_dates_by_period c frequency pos (WStr "first") r).
  - destruct (Hcases (WStr "last") r eq_refl H) as [[-> ->]|Hsel].
    + simpl. split; [by intros ?%elem_of_nil|by intros [?%elem_of_nil _]].
    + by apply (selected_dates_by_period c frequency pos (WStr "last") r).
Qed.

(** * The dates the methods return *)

(** ** The output conversion *)

Lemma mapM_Ok_2 {A B} (f : A → result B) (l : list A) (k : list B) :
  Forall2 (λ x y, f x = Ok y) l k → mapM f l = Ok k.
Proof.
  induction 1 as [|x y l k Hx _ IH]; [done|].
  change (mapM f (x :: l)) with (y ← f x; k ← mapM f l; mret (y :: k)).
  by rewrite Hx, IH.
Qed.

Lemma mapM_is_ok {A B} (f : A → result B) (l : list A) :
  is_ok (mapM f l) = true ↔ Forall (λ x, is_ok (f x) = true) l.
Proof.
  induction l as [|x l IH]; [by split; [constructor|]|].
  change (mapM f (x :: l)) with (y ← f x; k ← mapM f l; mret (y :: k)).
  rewrite Forall_cons, <- IH.
  destruct (f x) as [y|]; cbn [mbind result_bind is_ok]; [|by intuition].
  destruct (mapM f l) as [k|]; cbn [mbind result_bind is_ok]; by intuition.
Qed.

Lemma Forall2_elem_of_r {A B} (P : A → B → Prop) (l : list A) (k : list B) (y : B) :
  Forall2 P l k → y ∈ k → ∃ x, x ∈ l ∧ P x y.
Proof.
  intros H [i Hi]%list_elem_of_lookup_1.
  destruct (Forall2_lookup_r _ _ _ _ _ H Hi) as (x & Hx & HP).
  exists x. split; [by eapply list_elem_of_lookup_2|done].
Qed.

Lemma Forall2_elem_of_l {A B} (P : A → B → Prop) (l : list A) (k : list B) (x : A) :
  Forall2 P l k → x ∈ l → ∃ y, y ∈ k ∧ P x y.
Proof.
  intros H [i Hi]%list_elem_of_lookup_1.
  destruct (Forall2_lookup_l _ _ _ _ _ H Hi) as (y & Hy & HP).
  exists y. split; [by eapply list_elem_of_lookup_2|done].
Qed.

Section output_conversion.
Variable ext : ExternalSources.
Variable c : Calendar.

(** A method that converts the days it computed returns exactly when the
    days were computed and every one of them converts. *)
Lemma converted_Ok (computed : result (list Z)) (r : list OutputValue) :
  (out64 ← computed; mapM (to_output ext c) out64) = Ok r ↔
  ∃ out64, computed = Ok out64 ∧ Forall2 (output_of ext c) out64 r.
Proof.
  split.
  - intros (out64 & ? & H%mapM_Ok)%bind_Ok_inv. by exists out64.
  - intros (out64 & -> & H). by apply mapM_Ok_2.
Qed.

Lemma converted_raises (computed : result (list Z)) :
  raises computed → raises (out64 ← computed; mapM (to_output ext c) out64).
Proof. intros [e ->]. apply raises_Raise. Qed.

Lemma output_of_functional (d : Z) (v v' : OutputValue) :
  output_of ext c d v → output_of ext c d v' → v = v'.
Proof. unfold output_of. congruence. Qed.

Lemma outputs_functional (out64 : list Z) (r r' : list OutputValue) :
  Forall2 (output_of ext c) out64 r → Forall2 (output_of ext c) out64 r' → r = r'.
Proof.
  intros H%mapM_Ok_2 H'%mapM_Ok_2. congruence.
Qed.

Lemma outputs_subseteq (l64 k64 : list Z) (l k : list OutputValue) :
  Forall2 (output_of ext c) l64 l → Forall2 (output_of ext c) k64 k →
  l64 ⊆ k64 → l ⊆ k.
Proof.
  intros Hl Hk Hsub v (d & Hd & Hv)%(Forall2_elem_of_r _ _ _ _ Hl).
  destruct (Forall2_elem_of_l _ _ _ _ Hk (Hsub _ Hd)) as (v' & Hv' & Hdv').
  by rewrite (output_of_functional d v v').
Qed.

Lemma outputs_head (l64 k64 : list Z) (l k : list OutputValue) :
  Forall2 (output_of ext c) l64 l → Forall2 (output_of ext c) k64 k →
  head l64 = head k64 → head l = head k.
Proof.
  intros Hl Hk. destruct Hl as [|d v l64 l Hv _], Hk as [|d' v' k64 k Hv' _];
    try done.
  intros [= <-]. simpl. f_equal. by apply (output_of_functional d).
Qed.

Lemma outputs_last (l64 k64 : list Z) (l k : list OutputValue) :
  Forall2 (output_of ext c) l64 l → Forall2 (output_of ext c) k64 k →
  last l64 = last k64 → last l = last k.
Proof.
  intros Hl Hk. rewrite !last_lookup.
  rewrite <- (Forall2_length _ _ _ Hl), <- (Forall2_length _ _ _ Hk).
  intros Heq.
  destruct (l64 !! pred (length l64)) as [d|] eqn:Hd.
  - destruct (Forall2_lookup_l _ _ _ _ _ Hl Hd) as (v & -> & Hv).
    symmetry in Heq.
    destruct (Forall2_lookup_l _ _ _ _ _ Hk Heq) as (v' & -> & Hv').
    f_equal. by apply (output_of_functional d).
  - symmetry in Heq.
    destruct (l !! pred (length l64)) as [v|] eqn:Hv.
    { destruct (Forall2_lookup_r _ _ _ _ _ Hl Hv) as (? & ? & _). congruence. }
    destruct (k !! pred (length k64)) as [v|] eqn:Hv'; [|done].
    destruct (Forall2_lookup_r _ _ _ _ _ Hk Hv') as (? & ? & _). congruence.
Qed.

(** The default output type: a [datetime.date], which exists for the days
    of the years 1 to 9999 only. *)
Lemma to_output_date (d : Z) :
  output c = "date"%string →
  to_output ext c d
  = if bool_decide (1 ≤ Datetime.civil_year d ≤ 9999) then Ok (PyDate d)
    else Raise (ValueError (InvalidIsoDate d)).
Proof.
  unfold to_output, _from_internal_date, _d64_to_pydate, Datetime.fromisoformat.
  intros ->. change (String.eqb "date" "numpy") with false.
  change (String.eqb "date" "date") with true. cbv iota.
  by case_bool_decide.
Qed.


Lemma to_output_numpy (d : Z) :
  output c = "numpy"%string → to_output ext c d = Ok (NumpyDate d).
Proof. unfold to_output, _from_internal_date. by intros ->. Qed.

End output_conversion.

Lemma to_output_override (ext : ExternalSources) (c c' : Calendar)
    (new_business_days new_non_business_days : option (list Z)) (d : Z) :
  override c new_business_days new_non_business_days = Ok c' →
  to_output ext c' d = to_output ext c d.
Proof.
  unfold override. intros H.
  apply bind_Ok_inv in H as (m1 & _ & H).
  apply bind_Ok_inv in H as (m2 & _ & [= <-]). done.
Qed.

(** ** Business-day offsets *)

(** C8, amended.  Offsetting a date of the universe by zero business days
    hands that date itself, business day or not, to the output conversion:
    the call returns the date in the output type of the calendar, and raises
    where the conversion raises.  With the default output type the date is
    returned whenever it lies within the years 1 to 9999. *)
Theorem offset_business_days_zero (ext : ExternalSources) (c : Calendar) (D : Z) :
  self_start_date c ≤ D ≤ self_end_date c →
  offset_business_days ext c D 0 = to_output ext c D ∧
  (output c = "date"%string → 1 ≤ Datetime.civil_year D ≤ 9999 →
   offset_business_days ext c D 0 = Ok (PyDate D)).
Proof.
  intros HD. unfold offset_business_days.
  rewrite offset_business_days_zero_out64 by done. split; [done|].
  intros Hdate Hyear. cbn [mbind result_bind].
  by rewrite to_output_date, bool_decide_eq_true_2.
Qed.

Lemma offset_business_days_zero_witness :
  is_business january_2026 20456 = Ok false ∧
  offset_business_days no_sources january_2026 20456 0
  = to_output no_sources january_2026 20456 ∧
  offset_business_days no_sources january_2026 20456 0 = Ok (PyDate 20456).
Proof.
  split; [reflexivity|].
  destruct (offset_business_days_zero no_sources january_2026 20456) as [Heq Hdate].
  { unfold self_start_date, self_end_date. simpl. lia. }
  split; [exact Heq|]. apply Hdate; [reflexivity|].
  rewrite civil_year_datetime. lia.
Defined.

(** C8, as stated, fails: with the default output type, a zero offset from
    10000-01-03, a date of the universe, raises instead of returning it. *)
Lemma offset_business_days_zero_raises_in_year_10000 :
  Calendar_init no_sources (OneCode "DEFAULT") 2932892 2932901
    Omitted Omitted Omitted Omitted = Ok new_year_10000 ∧
  self_start_date new_year_10000 ≤ 2932899 ≤ self_end_date new_year_10000 ∧
  Datetime.civil_from_days 2932899 = (10000, 1, 3) ∧
  offset_business_days no_sources new_year_10000 2932899 0
  = Raise (ValueError (InvalidIsoDate 2932899)).
Proof. split_and!; by vm_compute. Qed.




(** ** Business days and non-business days of a range *)






(** ** Schedules *)

(** C2, amended.  With an unrecognized frequency or an unrecognized
    [which], [schedule_business] fails unless the range holds no business
    day, and [schedule_calendar] fails unless [which] is "all" or the range
    holds no day of the requested weekday. *)
Theorem schedule_arguments_validated (ext : ExternalSources) (c : Calendar)
    (frequency : string) (which : which_arg) (start_date end_date : option Z) :
  recognized_frequency frequency = false ∨ valid_which which = false →
  (business_days ext c start_date end_date ≠ Ok [] →
   raises (schedule_business ext c frequency (Passed which) start_date end_date)) ∧
  (∀ week_day,
     which_is which "all" = false →
     schedule_calendar ext c frequency week_day (Passed (WStr "all")) start_date end_date
       ≠ Ok [] →
     raises (schedule_calendar ext c frequency week_day (Passed which)
               start_date end_date)).
Proof.
  intros H.
  destruct (schedule_arguments_validated_out64 c frequency which start_date end_date H)
    as [Hb Hc].
  split.
  - intros Hne. apply converted_raises, Hb. intros Heq. apply Hne.
    unfold business_days. by rewrite Heq.
  - intros week_day Hall Hne. apply converted_raises, Hc; [done|].
    intros Heq. apply Hne. unfold schedule_calendar. by rewrite Heq.
Qed.

Lemma schedule_arguments_validated_witness :
  raises (schedule_business no_sources january_2026 "bogus" (Passed (WStr "all"))
            None None) ∧
  raises (schedule_calendar no_sources january_2026 "bogus" (Passed (Some 5))
            (Passed (WInt 2)) None None).
Proof.
  destruct (schedule_arguments_validated no_sources january_2026 "bogus" (WStr "all")
              None None) as [Hb _]; [by left|].
  destruct (schedule_arguments_validated no_sources january_2026 "bogus" (WInt 2)
              None None) as [_ Hc]; [by left|].
  split; [apply Hb; by vm_compute|apply Hc; by vm_compute].
Defined.

(** C2, as stated, fails: with [which="all"] [schedule_calendar] never looks
    at the frequency, and on a range without candidate days both methods
    return the empty list whatever the frequency and [which] are. *)
Lemma schedule_arguments_not_always_validated :
  recognized_frequency "bogus" = false ∧ valid_which (WInt 0) = false ∧
  schedule_calendar no_sources january_2026 "bogus" (Passed None) (Passed (WStr "all"))
    (Some 20454) (Some 20456) = Ok [PyDate 20454; PyDate 20455; PyDate 20456] ∧
  schedule_business no_sources january_2026 "bogus" (Passed (WInt 0))
    (Some 20456) (Some 20457) = Ok [] ∧
  schedule_calendar no_sources january_2026 "bogus" (Passed (Some 1)) (Passed (WInt 0))
    (Some 20455) (Some 20457) = Ok [].
Proof. split_and!; by vm_compute. Qed.

(** C4, amended.  Passing [week_day=None] skips the weekday filter:
    selection runs over every calendar day of the range, and with
    [which="all"] every day of the range goes to the output conversion.
    Omitting [week_day] takes the default 1: every returned date is a
    Monday. *)
Theorem schedule_calendar_week_day_none_and_default
    (ext : ExternalSources) (c : Calendar) (frequency : string)
    (start_date end_date : option Z) :
  let s := default (self_start_date c) start_date in
  let e := default (self_end_date c) end_date in
  self_start_date c ≤ s → s ≤ e → e ≤ self_end_date c →
  schedule_calendar ext c frequency (Passed None) (Passed (WStr "all"))
    start_date end_date
  = mapM (to_output ext c) (seqZ s (e - s + 1)) ∧
  (∀ which,
     which_is which "all" = false →
     schedule_calendar ext c frequency (Passed None) (Passed which) start_date end_date
     = (let pos := Numpy.arange (s - self_start_date c) (e - self_start_date c + 1) in
        key ← period_key c frequency pos;
        sel ← _select_in_groups pos key which;
        out64 ← Numpy.take_idx (days (universe c)) sel;
        mapM (to_output ext c) out64)) ∧
  (∀ which r,
     schedule_calendar ext c frequency Omitted which start_date end_date = Ok r →
     ∃ out64, Forall2 (output_of ext c) out64 r ∧
              ∀ d, d ∈ out64 → weekday_number d = 1).
Proof.
  intros s e Hs Hse He.
  destruct (schedule_calendar_week_day_none_and_default_out64 c frequency
              start_date end_date Hs Hse He) as (Hall & Hsel & Hmon).
  fold s e in Hall, Hsel. split_and!.
  - unfold schedule_calendar. by rewrite Hall.
  - intros which Hw. unfold schedule_calendar. rewrite (Hsel which Hw). cbv zeta.
    destruct (period_key c frequency _) as [key|]; [|done]. cbn [mbind result_bind].
    by destruct (_select_in_groups _ key which).
  - intros which r (out64 & H64 & Hout)%converted_Ok. exists out64. eauto.
Qed.

Lemma schedule_calendar_week_day_none_and_default_witness :
  schedule_calendar no_sources january_2026 "M" (Passed None) (Passed (WStr "all"))
    (Some 20455) (Some 20460)
  = mapM (to_output no_sources january_2026) (seqZ 20455 (20460 - 20455 + 1)) ∧
  (∀ which,
     which_is which "all" = false →
     schedule_calendar no_sources january_2026 "M" (Passed None) (Passed which)
       (Some 20455) (Some 20460)
     = (let pos := Numpy.arange (20455 - self_start_date january_2026)
                     (20460 - self_start_date january_2026 + 1) in
        key ← period_key january_2026 "M" pos;
        sel ← _select_in_groups pos key which;
        out64 ← Numpy.take_idx (days (universe january_2026)) sel;
        mapM (to_output no_sources january_2026) out64)) ∧
  (∀ which r,
     schedule_calendar no_sources january_2026 "M" Omitted which
       (Some 20455) (Some 20460) = Ok r →
     ∃ out64, Forall2 (output_of no_sources january_2026) out64 r ∧
              ∀ d, d ∈ out64 → weekday_number d = 1).
Proof.
  apply (schedule_calendar_week_day_none_and_default no_sources january_2026 "M"
           (Some 20455) (Some 20460));
    unfold self_start_date, self_end_date; simpl; lia.
Defined.

(** C4, as stated, fails: the default of [week_day] is 1, not None, so a
    call that omits it keeps the Mondays only, while [week_day=None] returns
    every day. *)
Lemma schedule_calendar_week_day_omitted_is_monday :
  schedule_calendar no_sources january_2026 "M" Omitted (Passed (WStr "all"))
    (Some 20455) (Some 20464)
  = Ok [PyDate 20458] ∧
  schedule_calendar no_sources january_2026 "M" (Passed None) (Passed (WStr "all"))
    (Some 20455) (Some 20464)
  = Ok (PyDate <$> [20455; 20456; 20457; 20458; 20459; 20460; 20461; 20462; 20463;
                    20464]) ∧
  schedule_calendar no_sources january_2026 "M" Omitted (Passed (WStr "first")) None None
  = Ok [PyDate 20458] ∧
  schedule_calendar no_sources january_2026 "M" (Passed None) (Passed (WStr "first"))
    None None
  = Ok [PyDate 20454].
Proof. split_and!; by vm_compute. Qed.

(** ** Reversed bounds *)

(** X4.  The constructor accepts an end date before the start date: the
    universe is then empty, the calendar has no business position, and every
    query on a date raises the out-of-universe error. *)
Theorem reversed_bounds_give_an_empty_calendar (ext : ExternalSources)
    (start_date end_date : Z) (date_type : kwarg string) (day_first : kwarg bool)
    (str_sep : kwarg string) :
  end_date < start_date →
  ∃ c, Calendar_init ext (OneCode "DEFAULT") start_date end_date
         Omitted date_type day_first str_sep = Ok c ∧
       Calendar_len c = 0 ∧ business_position c = [] ∧
       (∀ d, is_business c d = Raise (ValueError (OutsideUniverse d))) ∧
       (∀ d n, offset_business_days ext c d n
               = Raise (ValueError (OutsideCalendarRange d))) ∧
       business_days ext c None None = Raise (ValueError (OutsideUniverse start_date)).
Proof.
  intros Hrev.
  destruct (reversed_bounds_give_an_empty_calendar_out64 ext start_date end_date
              date_type day_first str_sep Hrev)
    as (c & Hc & Hlen & Hpos & Hbus & Hoff & Hdays).
  exists c. split_and!; [done..| |].
  - intros d n. unfold offset_business_days. by rewrite Hoff.
  - unfold business_days. by rewrite Hdays.
Qed.

Lemma reversed_bounds_give_an_empty_calendar_witness :
  ∃ c, Calendar_init no_sources (OneCode "DEFAULT") 20484 20454
         Omitted Omitted Omitted Omitted = Ok c ∧
       Calendar_len c = 0 ∧ business_position c = [] ∧
       (∀ d, is_business c d = Raise (ValueError (OutsideUniverse d))) ∧
       (∀ d n, offset_business_days no_sources c d n
               = Raise (ValueError (OutsideCalendarRange d))) ∧
       business_days no_sources c None None = Raise (ValueError (OutsideUniverse 20484)).
Proof.
  apply (reversed_bounds_give_an_empty_calendar no_sources 20484 20454
           Omitted Omitted Omitted).
  lia.
Defined.

(** ** Range queries *)

(** X6.  [business_days] returns the values of exactly the dates of the
    range on which [is_business] is true, [non_business_days] those of
    exactly the dates on which it is false; [business_days] returns
    precisely when both bounds lie in the universe, the start does not
    follow the end, and every business day of the range converts to the
    output type. *)
Theorem range_queries_match_point_queries (ext : ExternalSources) (c : Calendar)
    (start_date end_date : option Z) :
  calendar_wf c →
  let s := default (self_start_date c) start_date in
  let e := default (self_end_date c) end_date in
  (∀ l, business_days ext c start_date end_date = Ok l →
        ∃ l64, Forall2 (output_of ext c) l64 l ∧
               ∀ d, d ∈ l64 ↔ s ≤ d ≤ e ∧ is_business c d = Ok true) ∧
  (∀ l, non_business_days ext c start_date end_date = Ok l →
        ∃ l64, Forall2 (output_of ext c) l64 l ∧
               ∀ d, d ∈ l64 ↔ s ≤ d ≤ e ∧ is_business c d = Ok false) ∧
  (is_ok (business_days ext c start_date end_date) = true ↔
   inside c s ∧ inside c e ∧ s ≤ e ∧
   ∀ d, s ≤ d ≤ e → is_business c d = Ok true → is_ok (to_output ext c d) = true).
Proof.
  intros Hwf s e.
  destruct (range_queries_match_point_queries_out64 c start_date end_date Hwf)
    as (Hb & Hn & Hok).
  fold s e in Hb, Hn, Hok. split_and!.
  - intros l (l64 & H64 & Hl)%converted_Ok. exists l64. eauto.
  - intros l (l64 & H64 & Hl)%converted_Ok. exists l64. eauto.
  - unfold business_days.
    destruct (business_days_out64 c start_date end_date) as [l64|err] eqn:H64;
      cbn [mbind result_bind].
    + rewrite mapM_is_ok, Forall_forall.
      destruct Hok as [Hok _]. specialize (Hok eq_refl) as (Hs & He & Hse).
      split.
      * intros Hconv. split_and!; [done..|].
        intros d Hd Hbus. apply Hconv, (Hb l64 eq_refl). done.
      * intros (_ & _ & _ & Hconv) d Hd. apply (Hb l64 eq_refl) in Hd as [Hd Hbus].
        by apply Hconv.
    + split; [done|]. intros (Hs & He & Hse & _).
      destruct Hok as [_ Hok]. by specialize (Hok (conj Hs (conj He Hse))).
Qed.

Lemma range_queries_match_point_queries_witness :
  business_days no_sources january_2026 (Some 20455) (Some 20458)
  = Ok [PyDate 20455; PyDate 20458] ∧
  (∀ l, business_days no_sources january_2026 (Some 20455) (Some 20458) = Ok l →
        ∃ l64, Forall2 (output_of no_sources january_2026) l64 l ∧
               ∀ d, d ∈ l64 ↔ 20455 ≤ d ≤ 20458 ∧ is_business january_2026 d = Ok true) ∧
  (∀ l, non_business_days no_sources january_2026 (Some 20455) (Some 20458) = Ok l →
        ∃ l64, Forall2 (output_of no_sources january_2026) l64 l ∧
               ∀ d, d ∈ l64 ↔ 20455 ≤ d ≤ 20458 ∧ is_business january_2026 d = Ok false) ∧
  (is_ok (business_days no_sources january_2026 (Some 20455) (Some 20458)) = true ↔
   inside january_2026 20455 ∧ inside january_2026 20458 ∧ 20455 ≤ 20458 ∧
   ∀ d, 20455 ≤ d ≤ 20458 → is_business january_2026 d = Ok true →
        is_ok (to_output no_sources january_2026 d) = true).
Proof.
  split; [reflexivity|].
  apply (range_queries_match_point_queries no_sources january_2026
           (Some 20455) (Some 20458)), january_2026_wf.
Defined.

(** ** Override and the business days of a range *)

(** X8.  [override] never takes a business day away: the days
    [business_days] converted before the call are among those it converts
    after it, and every date it returned before the call is in the list it
    returns after it. *)
Theorem override_keeps_business_days (ext : ExternalSources) (c c' : Calendar)
    (new_business_days new_non_business_days : option (list Z))
    (sd ed : option Z) (l : list OutputValue) :
  calendar_wf c →
  override c new_business_days new_non_business_days = Ok c' →
  business_days ext c sd ed = Ok l →
  ∃ l64 l64',
    Forall2 (output_of ext c) l64 l ∧
    business_days ext c' sd ed = mapM (to_output ext c') l64' ∧
    l64 ⊆ l64' ∧
    (∀ l', business_days ext c' sd ed = Ok l' → l ⊆ l').
Proof.
  intros Hwf Hov (l64 & H64 & Hl)%converted_Ok.
  destruct (override_keeps_business_days_out64 c c' new_business_days
              new_non_business_days sd ed l64 Hwf Hov H64) as (l64' & H64' & Hsub).
  exists l64, l64'. split; [done|]. split; [|split; [done|]].
  - unfold business_days. by rewrite H64'.
  - intros l' (k & Hk & Hl')%converted_Ok. rewrite H64' in Hk. injection Hk as <-.
    apply (outputs_subseteq ext c l64 l64' l l' Hl); [|done].
    eapply Forall2_impl; [exact Hl'|]. intros d v. unfold output_of.
    by rewrite (to_output_override ext c c' _ _ d Hov).
Qed.

Lemma override_keeps_business_days_witness :
  ∃ c' l64 l64',
    override january_2026 None (Some [20455]) = Ok c' ∧
    Forall2 (output_of no_sources january_2026) l64 [PyDate 20454; PyDate 20455] ∧
    business_days no_sources c' (Some 20454) (Some 20455)
    = mapM (to_output no_sources c') l64' ∧
    l64 ⊆ l64' ∧
    (∀ l', business_days no_sources c' (Some 20454) (Some 20455) = Ok l' →
           [PyDate 20454; PyDate 20455] ⊆ l').
Proof.
  assert (∃ c', override january_2026 None (Some [20455]) = Ok c') as [c' Hc']
    by (eexists; reflexivity).
  destruct (override_keeps_business_days no_sources january_2026 c' None (Some [20455])
              (Some 20454) (Some 20455) [PyDate 20454; PyDate 20455])
    as (l64 & l64' & H); [apply january_2026_wf|done|reflexivity|].
  by exists c', l64, l64'.
Defined.

(** ** Counting days *)

(** X11.  Counting business days with both ends included gives the length
    of the list [business_days] returns for the same range. *)
Theorem days_between_counts_business_days (ext : ExternalSources) (c : Calendar)
    (start_date end_date : option Z) (l : list OutputValue) :
  calendar_wf c →
  business_days ext c start_date end_date = Ok l →
  days_between c start_date end_date (Passed "business"%string) (Passed "both"%string)
  = Ok (Z.of_nat (length l)).
Proof.
  intros Hwf (l64 & H64 & Hl)%converted_Ok.
  rewrite <- (Forall2_length _ _ _ Hl).
  by apply days_between_counts_business_days_out64.
Qed.

Lemma days_between_counts_business_days_witness :
  days_between january_2026 (Some 20455) (Some 20465)
    (Passed "business"%string) (Passed "both"%string)
  = Ok (Z.of_nat (length (PyDate <$> [20455; 20458; 20459; 20460; 20461; 20462; 20465]))).
Proof.
  apply (days_between_counts_business_days no_sources january_2026
           (Some 20455) (Some 20465));
    [apply january_2026_wf|reflexivity].
Defined.

(** X13.  On a valid range the calendar-day count with both ends included
    is the number of business days plus the number of non-business days
    returned for that range. *)
Theorem calendar_days_split_into_business_and_non_business (ext : ExternalSources)
    (c : Calendar) (start_date end_date : option Z) (bd nbd : list OutputValue) :
  calendar_wf c →
  business_days ext c start_date end_date = Ok bd →
  non_business_days ext c start_date end_date = Ok nbd →
  days_between c start_date end_date (Passed "calendar"%string) (Passed "both"%string)
  = Ok (Z.of_nat (length bd) + Z.of_nat (length nbd)).
Proof.
  intros Hwf (bd64 & Hbd64 & Hbd)%converted_Ok (nbd64 & Hnbd64 & Hnbd)%converted_Ok.
  rewrite <- (Forall2_length _ _ _ Hbd), <- (Forall2_length _ _ _ Hnbd).
  by apply calendar_days_split_into_business_and_non_business_out64.
Qed.

Lemma calendar_days_split_into_business_and_non_business_witness :
  days_between january_2026 (Some 20455) (Some 20458)
    (Passed "calendar"%string) (Passed "both"%string)
  = Ok (Z.of_nat (length [PyDate 20455; PyDate 20458])
        + Z.of_nat (length [PyDate 20456; PyDate 20457])).
Proof.
  apply (calendar_days_split_into_business_and_non_business no_sources january_2026
           (Some 20455) (Some 20458));
    [apply january_2026_wf|reflexivity..].
Defined.

(** ** Where an offset lands *)

(** X14.  A successful offset by [n > 0] business days from any date [d] of
    the universe returns a business day strictly after [d], and exactly [n]
    business days lie in the range from [d] (excluded) to it (included). *)
Theorem offset_forward_lands_n_business_days_later (ext : ExternalSources)
    (c : Calendar) (d n : Z) (r : OutputValue) :
  calendar_wf c → addressable c →
  0 < n →
  offset_business_days ext c d n = Ok r →
  ∃ r64, output_of ext c r64 r ∧
         d < r64 ∧ is_business c r64 = Ok true ∧
         days_between c (Some d) (Some r64)
           (Passed "business"%string) (Passed "right"%string) = Ok n.
Proof.
  intros Hwf Haddr Hn (r64 & H64 & Hr)%bind_Ok_inv. exists r64. split; [done|].
  by apply offset_forward_lands_n_business_days_later_out64.
Qed.

Lemma offset_forward_lands_n_business_days_later_witness :
  ∃ r64, output_of no_sources january_2026 r64 (PyDate 20462) ∧
         20456 < r64 ∧ is_business january_2026 r64 = Ok true ∧
         days_between january_2026 (Some 20456) (Some r64)
           (Passed "business"%string) (Passed "right"%string) = Ok 5.
Proof.
  apply (offset_forward_lands_n_business_days_later no_sources january_2026 20456 5
           (PyDate 20462));
    [apply january_2026_wf|apply january_2026_addressable|lia|reflexivity].
Defined.

(** X15.  A successful offset by [n < 0] business days from any date [d] of
    the universe returns a business day strictly before [d], and exactly
    [-n] business days lie in the range from it (included) to [d]
    (excluded). *)
Theorem offset_backward_lands_n_business_days_earlier (ext : ExternalSources)
    (c : Calendar) (d n : Z) (r : OutputValue) :
  calendar_wf c → addressable c →
  n < 0 →
  offset_business_days ext c d n = Ok r →
  ∃ r64, output_of ext c r64 r ∧
         r64 < d ∧ is_business c r64 = Ok true ∧
         days_between c (Some r64) (Some d)
           (Passed "business"%string) (Passed "left"%string) = Ok (- n).
Proof.
  intros Hwf Haddr Hn (r64 & H64 & Hr)%bind_Ok_inv. exists r64. split; [done|].
  by apply offset_backward_lands_n_business_days_earlier_out64.
Qed.

Lemma offset_backward_lands_n_business_days_earlier_witness :
  ∃ r64, output_of no_sources january_2026 r64 (PyDate 20458) ∧
         r64 < 20463 ∧ is_business january_2026 r64 = Ok true ∧
         days_between january_2026 (Some r64) (Some 20463)
           (Passed "business"%string) (Passed "left"%string) = Ok (- -5).
Proof.
  apply (offset_backward_lands_n_business_days_earlier no_sources january_2026 20463 (-5)
           (PyDate 20458));
    [apply january_2026_wf|apply january_2026_addressable|lia|reflexivity].
Defined.

(** X16.  From a date [d] of the universe, an offset by [n > 0] business
    days reaches a business day after [d], which it hands to the output
    conversion, exactly when at least [n] business days follow [d] up to the
    end of the calendar, and otherwise fails with the beyond-the-end error;
    an offset by [n < 0] reaches a business day before [d] exactly when at
    least [-n] business days precede [d], and otherwise fails with the
    beyond-the-start error. *)
Theorem offset_succeeds_when_enough_business_days (ext : ExternalSources)
    (c : Calendar) (d : Z) :
  calendar_wf c → addressable c → inside c d →
  ∃ after before,
    days_between c (Some d) None (Passed "business"%string) (Passed "right"%string)
      = Ok after ∧
    days_between c None (Some d) (Passed "business"%string) (Passed "left"%string)
      = Ok before ∧
    (∀ n, 0 < n ≤ 2 ^ 62 →
          if decide (n ≤ after)
          then ∃ r64, d < r64 ∧ is_business c r64 = Ok true ∧
                      offset_business_days ext c d n = to_output ext c r64
          else offset_business_days ext c d n = Raise (ValueError BeyondCalendarEnd)) ∧
    (∀ n, - 2 ^ 63 ≤ n < 0 →
          if decide (- n ≤ before)
          then ∃ r64, r64 < d ∧ is_business c r64 = Ok true ∧
                      offset_business_days ext c d n = to_output ext c r64
          else offset_business_days ext c d n = Raise (ValueError BeyondCalendarStart)).
Proof.
  intros Hwf Haddr Hd.
  destruct (offset_succeeds_when_enough_business_days_out64 c d Hwf Haddr Hd)
    as (after & before & Hafter & Hbefore & Hfwd & Hbwd).
  exists after, before. split; [done|]. split; [done|]. split.
  - intros n Hn. specialize (Hfwd n Hn). destruct (decide (n ≤ after)).
    + destruct (offset_return_day c d n) as [r64|] eqn:H64; [|done].
      destruct (offset_forward_lands_n_business_days_later_out64 c d n r64
                  Hwf Haddr ltac:(lia) H64) as (Hlt & Hbus & _).
      exists r64. split; [done|]. split; [done|].
      unfold offset_business_days. by rewrite H64.
    + unfold offset_business_days. by rewrite Hfwd.
  - intros n Hn. specialize (Hbwd n Hn). destruct (decide (- n ≤ before)).
    + destruct (offset_return_day c d n) as [r64|] eqn:H64; [|done].
      destruct (offset_backward_lands_n_business_days_earlier_out64 c d n r64
                  Hwf Haddr ltac:(lia) H64) as (Hlt & Hbus & _).
      exists r64. split; [done|]. split; [done|].
      unfold offset_business_days. by rewrite H64.
    + unfold offset_business_days. by rewrite Hbwd.
Qed.

Lemma offset_succeeds_when_enough_business_days_witness :
  ∃ after before,
    days_between january_2026 (Some 20480) None
      (Passed "business"%string) (Passed "right"%string) = Ok after ∧
    days_between january_2026 None (Some 20480)
      (Passed "business"%string) (Passed "left"%string) = Ok before ∧
    (∀ n, 0 < n ≤ 2 ^ 62 →
          if decide (n ≤ after)
          then ∃ r64, 20480 < r64 ∧ is_business january_2026 r64 = Ok true ∧
                      offset_business_days no_sources january_2026 20480 n
                      = to_output no_sources january_2026 r64
          else offset_business_days no_sources january_2026 20480 n
               = Raise (ValueError BeyondCalendarEnd)) ∧
    (∀ n, - 2 ^ 63 ≤ n < 0 →
          if decide (- n ≤ before)
          then ∃ r64, r64 < 20480 ∧ is_business january_2026 r64 = Ok true ∧
                      offset_business_days no_sources january_2026 20480 n
                      = to_output no_sources january_2026 r64
          else offset_business_days no_sources january_2026 20480 n
               = Raise (ValueError BeyondCalendarStart)).
Proof.
  apply (offset_succeeds_when_enough_business_days no_sources january_2026 20480);
    [apply january_2026_wf|apply january_2026_addressable|].
  unfold inside, self_start_date, self_end_date. simpl. lia.
Defined.

(** X17.  [next_business_day] hands the first business day strictly after
    the given date of the universe to the output conversion: a date it
    returns is the value of a business day [r64] after [d] with no business
    day strictly between them, and for such a day [r64] the call is the
    conversion of [r64]. *)
Theorem next_business_day_is_the_first_after (ext : ExternalSources) (c : Calendar)
    (d : Z) :
  calendar_wf c → addressable c → inside c d →
  (∀ r, next_business_day ext c d = Ok r →
        ∃ r64, output_of ext c r64 r ∧
               d < r64 ∧ is_business c r64 = Ok true ∧
               ∀ x, d < x < r64 → is_business c x ≠ Ok true) ∧
  (∀ r64, d < r64 → is_business c r64 = Ok true →
          (∀ x, d < x < r64 → is_business c x ≠ Ok true) →
          next_business_day ext c d = to_output ext c r64).
Proof.
  intros Hwf Haddr Hd. split.
  - intros r (r64 & H64 & Hr)%bind_Ok_inv. exists r64. split; [done|].
    by apply (next_business_day_is_the_first_after_out64 c d r64).
  - intros r64 Hlt Hbus Hfirst.
    unfold next_business_day, offset_business_days.
    by rewrite (proj2 (next_business_day_is_the_first_after_out64 c d r64 Hwf Haddr Hd)).
Qed.

Lemma next_business_day_is_the_first_after_witness :
  next_business_day no_sources january_2026 20455 = Ok (PyDate 20458) ∧
  (∀ r, next_business_day no_sources january_2026 20455 = Ok r →
        ∃ r64, output_of no_sources january_2026 r64 r ∧
               20455 < r64 ∧ is_business january_2026 r64 = Ok true ∧
               ∀ x, 20455 < x < r64 → is_business january_2026 x ≠ Ok true) ∧
  (∀ r64, 20455 < r64 → is_business january_2026 r64 = Ok true →
          (∀ x, 20455 < x < r64 → is_business january_2026 x ≠ Ok true) →
          next_business_day no_sources january_2026 20455
          = to_output no_sources january_2026 r64).
Proof.
  split; [reflexivity|].
  apply (next_business_day_is_the_first_after no_sources january_2026 20455);
    [apply january_2026_wf|apply january_2026_addressable|].
  unfold inside, self_start_date, self_end_date. simpl. lia.
Defined.

(** X18.  [previous_business_day] hands the last business day strictly
    before the given date of the universe to the output conversion: a date
    it returns is the value of a business day [r64] before [d] with no
    business day strictly between them, and for such a day [r64] the call is
    the conversion of [r64]. *)
Theorem previous_business_day_is_the_last_before (ext : ExternalSources) (c : Calendar)
    (d : Z) :
  calendar_wf c → addressable c → inside c d →
  (∀ r, previous_business_day ext c d = Ok r →
        ∃ r64, output_of ext c r64 r ∧
               r64 < d ∧ is_business c r64 = Ok true ∧
               ∀ x, r64 < x < d → is_business c x ≠ Ok true) ∧
  (∀ r64, r64 < d → is_business c r64 = Ok true →
          (∀ x, r64 < x < d → is_business c x ≠ Ok true) →
          previous_business_day ext c d = to_output ext c r64).
Proof.
  intros Hwf Haddr Hd. split.
  - intros r (r64 & H64 & Hr)%bind_Ok_inv. exists r64. split; [done|].
    by apply (previous_business_day_is_the_last_before_out64 c d r64).
  - intros r64 Hlt Hbus Hlast.
    unfold previous_business_day, offset_business_days.
    by rewrite (proj2 (previous_business_day_is_the_last_before_out64 c d r64
                         Hwf Haddr Hd)).
Qed.

Lemma previous_business_day_is_the_last_before_witness :
  previous_business_day no_sources january_2026 20457 = Ok (PyDate 20455) ∧
  (∀ r, previous_business_day no_sources january_2026 20457 = Ok r →
        ∃ r64, output_of no_sources january_2026 r64 r ∧
               r64 < 20457 ∧ is_business january_2026 r64 = Ok true ∧
               ∀ x, r64 < x < 20457 → is_business january_2026 x ≠ Ok true) ∧
  (∀ r64, r64 < 20457 → is_business january_2026 r64 = Ok true →
          (∀ x, r64 < x < 20457 → is_business january_2026 x ≠ Ok true) →
          previous_business_day no_sources january_2026 20457
          = to_output no_sources january_2026 r64).
Proof.
  split; [reflexivity|].
  apply (previous_business_day_is_the_last_before no_sources january_2026 20457);
    [apply january_2026_wf|apply january_2026_addressable|].
  unfold inside, self_start_date, self_end_date. simpl. lia.
Defined.

(** ** Business schedules *)

(** X22.  [schedule_business] only selects among the business days of the
    range: whenever it returns, the days it converted are among those
    [business_days] converts over the same bounds, every scheduled date is
    in the list [business_days] returns if it returns, and with
    [which="all"] [business_days] returns the same list. *)
Theorem schedule_business_selects_business_days (ext : ExternalSources) (c : Calendar)
    (frequency : string) (which : kwarg which_arg) (start_date end_date : option Z)
    (r : list OutputValue) :
  calendar_wf c →
  schedule_business ext c frequency which start_date end_date = Ok r →
  ∃ r64 b64,
    Forall2 (output_of ext c) r64 r ∧
    business_days ext c start_date end_date = mapM (to_output ext c) b64 ∧
    r64 ⊆ b64 ∧
    (∀ b, business_days ext c start_date end_date = Ok b → r ⊆ b) ∧
    (which_is (or_default (WStr "first") which) "all" = true →
     business_days ext c start_date end_date = Ok r).
Proof.
  intros Hwf (r64 & H64 & Hr)%converted_Ok.
  destruct (schedule_business_selects_business_days_out64 c frequency which
              start_date end_date r64 Hwf H64) as (b64 & Hb64 & Hsub & Hall).
  assert (business_days ext c start_date end_date = mapM (to_output ext c) b64) as Hb
    by (unfold business_days; by rewrite Hb64).
  exists r64, b64. split_and!; [done..| |].
  - intros b Hbd. rewrite Hb in Hbd. apply mapM_Ok in Hbd.
    by apply (outputs_subseteq ext c r64 b64).
  - intros Hw. rewrite Hb, <- (Hall Hw). by apply mapM_Ok_2.
Qed.

Lemma schedule_business_selects_business_days_witness :
  ∃ r64 b64,
    Forall2 (output_of no_sources january_2026) r64
      [PyDate 20462; PyDate 20469; PyDate 20475] ∧
    business_days no_sources january_2026 (Some 20457) (Some 20475)
    = mapM (to_output no_sources january_2026) b64 ∧
    r64 ⊆ b64 ∧
    (∀ b, business_days no_sources january_2026 (Some 20457) (Some 20475) = Ok b →
          [PyDate 20462; PyDate 20469; PyDate 20475] ⊆ b) ∧
    (which_is (or_default (WStr "first") (Passed (WStr "last"))) "all" = true →
     business_days no_sources january_2026 (Some 20457) (Some 20475)
     = Ok [PyDate 20462; PyDate 20469; PyDate 20475]).
Proof.
  apply (schedule_business_selects_business_days no_sources january_2026 "W"
           (Passed (WStr "last")) (Some 20457) (Some 20475));
    [apply january_2026_wf|reflexivity].
Defined.

(** X23.  The ends of a business schedule: with [which="first"] (also the
    default) the schedule opens with the first business day of the range,
    and with [which="last"] it closes with the last business day of the
    range, whether or not that day opens or closes its own period. *)
Theorem schedule_business_opens_and_closes_with_the_range (ext : ExternalSources)
    (c : Calendar) (frequency : string) (start_date end_date : option Z)
    (b : list OutputValue) :
  business_days ext c start_date end_date = Ok b →
  (∀ which r,
     which = Omitted ∨ which = Passed (WStr "first") →
     schedule_business ext c frequency which start_date end_date = Ok r →
     head r = head b) ∧
  (∀ r,
     schedule_business ext c frequency (Passed (WStr "last")) start_date end_date = Ok r →
     last r = last b).
Proof.
  intros (b64 & Hb64 & Hb)%converted_Ok.
  destruct (schedule_business_opens_and_closes_with_the_range_out64 c frequency
              start_date end_date b64 Hb64) as [Hfirst Hlast].
  split.
  - intros which r Hw (r64 & H64 & Hr)%converted_Ok.
    apply (outputs_head ext c r64 b64); [done..|]. by apply (Hfirst which).
  - intros r (r64 & H64 & Hr)%converted_Ok.
    apply (outputs_last ext c r64 b64); [done..|]. by apply Hlast.
Qed.

Lemma schedule_business_opens_and_closes_with_the_range_witness :
  schedule_business no_sources january_2026 "W" Omitted (Some 20459) (Some 20474)
  = Ok [PyDate 20459; PyDate 20465; PyDate 20472] ∧
  schedule_business no_sources january_2026 "W" (Passed (WStr "last"))
    (Some 20459) (Some 20474)
  = Ok [PyDate 20462; PyDate 20469; PyDate 20474] ∧
  (∀ which r,
     which = Omitted ∨ which = Passed (WStr "first") →
     schedule_business no_sources january_2026 "W" which (Some 20459) (Some 20474)
     = Ok r →
     head r
     = head (PyDate <$> [20459; 20460; 20461; 20462; 20465; 20466; 20467; 20468; 20469;
                         20472; 20473; 20474])) ∧
  (∀ r,
     schedule_business no_sources january_2026 "W" (Passed (WStr "last"))
       (Some 20459) (Some 20474) = Ok r →
     last r
     = last (PyDate <$> [20459; 20460; 20461; 20462; 20465; 20466; 20467; 20468; 20469;
                         20472; 20473; 20474])).
Proof.
  split; [reflexivity|]. split; [reflexivity|].
  apply (schedule_business_opens_and_closes_with_the_range no_sources january_2026 "W"
           (Some 20459) (Some 20474)).
  reflexivity.
Defined.

(** ** Calendar schedules *)

(** X24.  [schedule_calendar] with a weekday [k] only returns dates of the
    requested range whose [week_day] is [k]; with [which="all"] it converts
    exactly the dates of that weekday in the range, in order, whatever the
    frequency. *)
Theorem schedule_calendar_keeps_the_week_day (ext : ExternalSources) (c : Calendar)
    (frequency : string) (week_day_arg : kwarg (option Z)) (which : kwarg which_arg)
    (start_date end_date : option Z) (k : Z) (r : list OutputValue) :
  or_default (Some 1) week_day_arg = Some k →
  schedule_calendar ext c frequency week_day_arg which start_date end_date = Ok r →
  let s := default (self_start_date c) start_date in
  let e := default (self_end_date c) end_date in
  ∃ r64,
    Forall2 (output_of ext c) r64 r ∧
    (∀ d, d ∈ r64 → s ≤ d ≤ e ∧ week_day c d = Ok k) ∧
    (which_is (or_default (WStr "first") which) "all" = true →
     r64 = filter (λ d, weekday_number d = k) (seqZ s (e - s + 1))).
Proof.
  intros Hk (r64 & H64 & Hr)%converted_Ok s e. exists r64. split; [done|].
  by apply (schedule_calendar_keeps_the_week_day_out64 c frequency week_day_arg which
              start_date end_date k r64).
Qed.

Lemma schedule_calendar_keeps_the_week_day_witness :
  ∃ r64,
    Forall2 (output_of no_sources january_2026) r64
      [PyDate 20460; PyDate 20467; PyDate 20474] ∧
    (∀ d, d ∈ r64 →
          default (self_start_date january_2026) (Some 20457) ≤ d
            ≤ default (self_end_date january_2026) (Some 20475) ∧
          week_day january_2026 d = Ok 3) ∧
    (which_is (or_default (WStr "first") (Passed (WStr "all"))) "all" = true →
     r64
     = filter (λ d, weekday_number d = 3)
         (seqZ (default (self_start_date january_2026) (Some 20457))
               (default (self_end_date january_2026) (Some 20475)
                - default (self_start_date january_2026) (Some 20457) + 1))).
Proof.
  apply (schedule_calendar_keeps_the_week_day no_sources january_2026 "fortnight"
           (Passed (Some 3)) (Passed (WStr "all")) (Some 20457) (Some 20475) 3
           [PyDate 20460; PyDate 20467; PyDate 20474]);
    reflexivity.
Defined.

(** ** Schedules by calendar period *)

(** X27.  For the month, quarter, semester and year frequencies, on a
    universe within the years 1 to 9999: [schedule_business] with
    [which="first"] returns exactly the business days of the range that no
    earlier business day of the range shares the period with, and with
    [which="last"] exactly those that no later one shares it with. *)
Theorem schedule_business_first_and_last_of_each_period (ext : ExternalSources)
    (c : Calendar) (frequency : string) (start_date end_date : option Z)
    (b : list OutputValue) :
  calendar_wf c → representable (universe c) → month_based frequency = true →
  business_days ext c start_date end_date = Ok b →
  ∃ b64,
    Forall2 (output_of ext c) b64 b ∧
    (∀ r,
       schedule_business ext c frequency (Passed (WStr "first")) start_date end_date
       = Ok r →
       ∃ r64,
         Forall2 (output_of ext c) r64 r ∧
         ∀ d, d ∈ r64 ↔
              d ∈ b64 ∧
              ∀ d', d' ∈ b64 → d' < d →
                    period_of frequency d' ≠ period_of frequency d) ∧
    (∀ r,
       schedule_business ext c frequency (Passed (WStr "last")) start_date end_date
       = Ok r →
       ∃ r64,
         Forall2 (output_of ext c) r64 r ∧
         ∀ d, d ∈ r64 ↔
              d ∈ b64 ∧
              ∀ d', d' ∈ b64 → d < d' →
                    period_of frequency d' ≠ period_of frequency d).
Proof.
  intros Hwf Hrep Hfreq (b64 & Hb64 & Hb)%converted_Ok.
  destruct (schedule_business_first_and_last_of_each_period_out64 c frequency
              start_date end_date b64 Hwf Hrep Hfreq Hb64) as [Hfirst Hlast].
  exists b64. split; [done|]. split.
  - intros r (r64 & H64 & Hr)%converted_Ok. exists r64. split; [done|].
    by apply Hfirst.
  - intros r (r64 & H64 & Hr)%converted_Ok. exists r64. split; [done|].
    by apply Hlast.
Qed.

Lemma schedule_business_first_and_last_of_each_period_witness :
  ∃ c b b64,
    Calendar_init no_sources (OneCode "DEFAULT") 20454 20543
      Omitted Omitted Omitted Omitted = Ok c ∧
    business_days no_sources c (Some 20464) (Some 20530) = Ok b ∧
    schedule_business no_sources c "M" (Passed (WStr "first")) (Some 20464) (Some 20530)
    = Ok [PyDate 20465; PyDate 20486; PyDate 20514] ∧
    schedule_business no_sources c "M" (Passed (WStr "last")) (Some 20464) (Some 20530)
    = Ok [PyDate 20483; PyDate 20511; PyDate 20530] ∧
    Forall2 (output_of no_sources c) b64 b ∧
    (∀ r,
       schedule_business no_sources c "M" (Passed (WStr "first"))
         (Some 20464) (Some 20530) = Ok r →
       ∃ r64,
         Forall2 (output_of no_sources c) r64 r ∧
         ∀ d, d ∈ r64 ↔
              d ∈ b64 ∧ ∀ d', d' ∈ b64 → d' < d → period_of "M" d' ≠ period_of "M" d) ∧
    (∀ r,
       schedule_business no_sources c "M" (Passed (WStr "last"))
         (Some 20464) (Some 20530) = Ok r →
       ∃ r64,
         Forall2 (output_of no_sources c) r64 r ∧
         ∀ d, d ∈ r64 ↔
              d ∈ b64 ∧ ∀ d', d' ∈ b64 → d < d' → period_of "M" d' ≠ period_of "M" d).
Proof.
  assert (∃ c, Calendar_init no_sources (OneCode "DEFAULT") 20454 20543
                 Omitted Omitted Omitted Omitted = Ok c)
    as [c Hc] by (eexists; vm_compute; reflexivity).
  pose proof (Calendar_init_wf _ _ _ _ _ _ _ _ _ Hc) as Hwf.
  apply Calendar_init_default in Hc as Hu. destruct Hu as [Hu _].
  assert (∃ b, business_days no_sources c (Some 20464) (Some 20530) = Ok b) as [b Hb].
  { vm_compute in Hc. injection Hc as <-. eexists. vm_compute. reflexivity. }
  destruct (schedule_business_first_and_last_of_each_period no_sources c "M"
              (Some 20464) (Some 20530) b) as (b64 & H);
    [done| |reflexivity|done|].
  { unfold representable. rewrite Hu. simpl. lia. }
  exists c, b, b64. split; [done|]. split; [done|].
  split; [vm_compute in Hc; injection Hc as <-; by vm_compute|].
  split; [vm_compute in Hc; injection Hc as <-; by vm_compute|].
  exact H.
Defined.

(** X29.  For the month, quarter, semester and year frequencies, on a
    universe within the years 1 to 9999: among the dates [schedule_calendar]
    returns with [which="all"] (the dates of the requested weekday, or all
    dates), [which="first"] keeps exactly those that no earlier one shares
    the period with, and [which="last"] exactly those that no later one
    shares it with. *)
Theorem schedule_calendar_first_and_last_of_each_period (ext : ExternalSources)
    (c : Calendar) (frequency : string) (week_day_arg : kwarg (option Z))
    (start_date end_date : option Z) (all_days : list OutputValue) :
  representable (universe c) → month_based frequency = true →
  schedule_calendar ext c frequency week_day_arg (Passed (WStr "all")) start_date end_date
    = Ok all_days →
  ∃ all64,
    Forall2 (output_of ext c) all64 all_days ∧
    (∀ r,
       schedule_calendar ext c frequency week_day_arg (Passed (WStr "first"))
         start_date end_date = Ok r →
       ∃ r64,
         Forall2 (output_of ext c) r64 r ∧
         ∀ d, d ∈ r64 ↔
              d ∈ all64 ∧
              ∀ d', d' ∈ all64 → d' < d →
                    period_of frequency d' ≠ period_of frequency d) ∧
    (∀ r,
       schedule_calendar ext c frequency week_day_arg (Passed (WStr "last"))
         start_date end_date = Ok r →
       ∃ r64,
         Forall2 (output_of ext c) r64 r ∧
         ∀ d, d ∈ r64 ↔
              d ∈ all64 ∧
              ∀ d', d' ∈ all64 → d < d' →
                    period_of frequency d' ≠ period_of frequency d).
Proof.
  intros Hrep Hfreq (all64 & Hall64 & Hall)%converted_Ok.
  destruct (schedule_calendar_first_and_last_of_each_period_out64 c frequency
              week_day_arg start_date end_date all64 Hrep Hfreq Hall64)
    as [Hfirst Hlast].
  exists all64. split; [done|]. split.
  - intros r (r64 & H64 & Hr)%converted_Ok. exists r64. split; [done|].
    by apply Hfirst.
  - intros r (r64 & H64 & Hr)%converted_Ok. exists r64. split; [done|].
    by apply Hlast.
Qed.

Lemma schedule_calendar_first_and_last_of_each_period_witness :
  ∃ c all_days all64,
    Calendar_init no_sources (OneCode "DEFAULT") 20454 20543
      Omitted Omitted Omitted Omitted = Ok c ∧
    schedule_calendar no_sources c "M" (Passed (Some 5)) (Passed (WStr "all")) None None
    = Ok all_days ∧
    schedule_calendar no_sources c "M" (Passed (Some 5)) (Passed (WStr "first")) None None
    = Ok [PyDate 20455; PyDate 20490; PyDate 20518] ∧
    schedule_calendar no_sources c "M" (Passed (Some 5)) (Passed (WStr "last")) None None
    = Ok [PyDate 20483; PyDate 20511; PyDate 20539] ∧
    Forall2 (output_of no_sources c) all64 all_days ∧
    (∀ r,
       schedule_calendar no_sources c "M" (Passed (Some 5)) (Passed (WStr "first"))
         None None = Ok r →
       ∃ r64,
         Forall2 (output_of no_sources c) r64 r ∧
         ∀ d, d ∈ r64 ↔
              d ∈ all64 ∧
              ∀ d', d' ∈ all64 → d' < d → period_of "M" d' ≠ period_of "M" d) ∧
    (∀ r,
       schedule_calendar no_sources c "M" (Passed (Some 5)) (Passed (WStr "last"))
         None None = Ok r →
       ∃ r64,
         Forall2 (output_of no_sources c) r64 r ∧
         ∀ d, d ∈ r64 ↔
              d ∈ all64 ∧
              ∀ d', d' ∈ all64 → d < d' → period_of "M" d' ≠ period_of "M" d).
Proof.
  assert (∃ c, Calendar_init no_sources (OneCode "DEFAULT") 20454 20543
                 Omitted Omitted Omitted Omitted = Ok c)
    as [c Hc] by (eexists; vm_compute; reflexivity).
  apply Calendar_init_default in Hc as Hu. destruct Hu as [Hu _].
  assert (∃ l, schedule_calendar no_sources c "M" (Passed (Some 5)) (Passed (WStr "all"))
                 None None = Ok l) as [all_days Hall].
  { vm_compute in Hc. injection Hc as <-. eexists. vm_compute. reflexivity. }
  destruct (schedule_calendar_first_and_last_of_each_period no_sources c "M"
              (Passed (Some 5)) None None all_days) as (all64 & H);
    [|reflexivity|done|].
  { unfold representable. rewrite Hu. simpl. lia. }
  exists c, all_days, all64. split; [done|]. split; [done|].
  split; [vm_compute in Hc; injection Hc as <-; by vm_compute|].
  split; [vm_compute in Hc; injection Hc as <-; by vm_compute|].
  exact H.
Defined.

(** ** The date-by-date mask builders *)

(** X28.  The country and QuantLib builders ask their package date by date,
    through [datetime.date]: on a universe within the years 1 to 9999
    [build_mask] is the answers of the package to the days in order, and
    raises where the package raises; on a non-empty universe that reaches
    outside those years [build_mask] raises. *)
Theorem date_by_date_builders_need_datetime_dates (ext : ExternalSources)
    (u : DateUniverse) :
  (∀ country_code is_working_day,
     country_working_day ext (upper country_code) = Some is_working_day →
     (representable u →
      build_mask ext (CountryMaskBuilder country_code) u
      = mapM (λ d, call (is_working_day d)) (days u)) ∧
     (start64 u ≤ end64 u → ¬ representable u →
      raises (build_mask ext (CountryMaskBuilder country_code) u))) ∧
  (∀ ql_calendar,
     (representable u →
      build_mask ext (QuantLibMaskBuilder (Some ql_calendar)) u
      = mapM (λ d, _ ← call (quantlib_date ext d);
                   call (quantlib_business_day ext ql_calendar d)) (days u)) ∧
     (start64 u ≤ end64 u → ¬ representable u →
      raises (build_mask ext (QuantLibMaskBuilder (Some ql_calendar)) u))).
Proof.
  split.
  - intros cc is_working_day Hcc. simpl. rewrite Hcc.
    apply (mask_per_day_datetime (λ py, call (is_working_day py))).
  - intros cal. simpl.
    apply (mask_per_day_datetime
             (λ py, _ ← call (quantlib_date ext py);
                    call (quantlib_business_day ext cal py))).
Qed.

Lemma date_by_date_builders_need_datetime_dates_witness :
  build_mask one_holiday_sources (CountryMaskBuilder "fr")
    {| start64 := 20454; end64 := 20456 |}
  = mapM (λ d, call (Returns (negb (d =? 20454))))
      (days {| start64 := 20454; end64 := 20456 |}) ∧
  build_mask one_holiday_sources (QuantLibMaskBuilder (Some "TARGET"%string))
    {| start64 := 20454; end64 := 20456 |}
  = mapM (λ d, _ ← call (quantlib_date one_holiday_sources d);
               call (quantlib_business_day one_holiday_sources "TARGET" d))
      (days {| start64 := 20454; end64 := 20456 |}) ∧
  raises (build_mask one_holiday_sources (CountryMaskBuilder "fr")
            {| start64 := 2932896; end64 := 2932897 |}).
Proof.
  split_and!.
  - apply (proj1 (date_by_date_builders_need_datetime_dates one_holiday_sources
                    {| start64 := 20454; end64 := 20456 |}) "fr"%string
             (λ d, Returns (negb (d =? 20454))) eq_refl).
    unfold representable. simpl. lia.
  - apply (proj2 (date_by_date_builders_need_datetime_dates one_holiday_sources
                    {| start64 := 20454; end64 := 20456 |}) "TARGET"%string).
    unfold representable. simpl. lia.
  - apply (proj1 (date_by_date_builders_need_datetime_dates one_holiday_sources
                    {| start64 := 2932896; end64 := 2932897 |}) "fr"%string
             (λ d, Returns (negb (d =? 20454))) eq_refl).
    + simpl. lia.
    + unfold representable. simpl. lia.
Defined.

Example one_holiday_mask :
  build_mask one_holiday_sources (CountryMaskBuilder "fr")
    {| start64 := 20454; end64 := 20456 |} = Ok [false; true; true] ∧
  build_mask one_holiday_sources (CountryMaskBuilder "fr")
    {| start64 := 2932896; end64 := 2932897 |}
  = Raise (ValueError (InvalidIsoDate 2932897)) ∧
  build_mask one_holiday_sources (QuantLibMaskBuilder (Some "TARGET"%string))
    {| start64 := 693595; end64 := 693596 |}
  = Raise (ExternalError "QuantLib").
Proof. split_and!; by vm_compute. Qed.
